(** * Antigravity batch coordinator: a shallow embedding and its properties

    The development follows [batch_coordinator.py] (class [BatchCoordinator]),
    the two entry points of [antigravity_scheduler.py] that call it, and the
    configuration records of [scheduler_config.py].

    Coroutines are written in a small program monad [Prog]: a program either
    returns, raises, or performs an event (a clock reading, an access to the
    coordinator object, a log line, the awaited generation call) and goes on
    with the answer.  A raise is of class [Exception], which the handlers
    of the code catch, or outside of it, which they do not.  Two semantics
    interpret the same programs: [run] executes one coroutine to its end,
    [advance] executes it up to its next suspension, which gives the
    interleavings of the asyncio event loop and the cancellation of a
    cycle that waits. *)

From Stdlib Require Import ZArith List String Bool Lia QArith.
Import ListNotations.
Local Open Scope string_scope.
Local Open Scope list_scope.
Local Open Scope Z_scope.

Set Implicit Arguments.

(* ------------------------------------------------------------------ *)
(** ** Time *)

(** A naive [datetime] is its number of microseconds since the epoch, a
    [timedelta] a number of microseconds.  Python keeps a [timedelta]
    within 999999999 days either way and raises OverflowError beyond; the
    numbers here go on, and [timedelta_in_range] below says where the two
    agree. *)
Definition datetime := Z.
Definition timedelta := Z.

Definition td_minutes (n : Z) : timedelta := n * 60000000.
Definition td_hours (n : Z) : timedelta := n * 3600000000.
Definition td_days (n : Z) : timedelta := n * 86400000000.

(** [datetime.time]: Python orders naive times as the tuples
    (hour, minute, second, microsecond). *)
Record time := mk_time {
  hour : Z;
  minute : Z;
  second : Z;
  microsecond : Z
}.

Definition time_ltb (a b : time) : bool :=
  (hour a <? hour b) ||
  ((hour a =? hour b) &&
   ((minute a <? minute b) ||
    ((minute a =? minute b) &&
     ((second a <? second b) ||
      ((second a =? second b) && (microsecond a <? microsecond b)))))).

Definition time_eqb (a b : time) : bool :=
  (hour a =? hour b) && (minute a =? minute b) &&
  (second a =? second b) && (microsecond a =? microsecond b).

Definition time_leb (a b : time) : bool := time_ltb a b || time_eqb a b.

(** [time(h, m)] of the configuration defaults. *)
Definition time_hm (h m : Z) : time := mk_time h m 0 0.

(** [datetime.time()]: the time of day of an instant. *)
Definition time_of (t : datetime) : time :=
  let us := t mod 86400000000 in
  {| hour := us / 3600000000;
     minute := (us / 60000000) mod 60;
     second := (us / 1000000) mod 60;
     microsecond := us mod 1000000 |}.

(** Microseconds since midnight of a time of day. *)
Definition micros_of_day (a : time) : Z :=
  ((hour a * 60 + minute a) * 60 + second a) * 1000000 + microsecond a.

(** The values a [datetime.time] can hold. *)
Definition valid_time (a : time) : Prop :=
  0 <= hour a < 24 /\ 0 <= minute a < 60 /\
  0 <= second a < 60 /\ 0 <= microsecond a < 1000000.

(* ------------------------------------------------------------------ *)
(** ** scheduler_config.py *)

Record BatchConfig := {
  min_videos : Z;
  max_videos : Z;
  default_batch_size : Z;
  adaptive : bool;
  max_daily_videos : Z;
  max_hourly_videos : Z;
  api_cooldown_minutes : Z;
  retry_on_failure : bool;
  max_retries : Z
}.

Record ScheduleConfig := {
  interval_hours : Z;
  optimal_times : list time;
  timezone : string;
  quiet_hours_start : time;
  quiet_hours_end : time
}.

Record AntigravitySchedulerConfig := {
  batch : BatchConfig;
  schedule : ScheduleConfig;
  agent_has_veto : bool;
  mode : string
}.

Definition default_BatchConfig : BatchConfig :=
  {| min_videos := 1; max_videos := 5; default_batch_size := 3;
     adaptive := true; max_daily_videos := 20; max_hourly_videos := 8;
     api_cooldown_minutes := 5; retry_on_failure := true; max_retries := 3 |}.

Definition default_ScheduleConfig : ScheduleConfig :=
  {| interval_hours := 6;
     optimal_times := [time_hm 9 0; time_hm 15 0; time_hm 21 0];
     timezone := "UTC";
     quiet_hours_start := time_hm 1 0;
     quiet_hours_end := time_hm 6 0 |}.

Definition DEFAULT_CONFIG : AntigravitySchedulerConfig :=
  {| batch := default_BatchConfig; schedule := default_ScheduleConfig;
     agent_has_veto := true; mode := "scheduled" |}.

(* ------------------------------------------------------------------ *)
(** ** batch_coordinator.py: data *)

Inductive BatchStatus :=
  PENDING | RUNNING | COMPLETED | PARTIAL | FAILED | SKIPPED.

(** [f"batch_{t.strftime('%Y%m%d_%H%M%S')}"]: the text is determined by the
    instant cut to whole seconds, which is what the model keeps. *)
Inductive BatchId := batch_ (seconds : Z).

Definition batch_id_of (t : datetime) : BatchId := batch_ (t / 1000000).

(** [f"vid_{t.timestamp()}"]: the model keeps the clock reading the text is
    printed from. *)
Inductive VideoId := vid_ (t : datetime).

(** Durations ([generation_time], [total_time]) are kept in exact
    microseconds; the source turns them into seconds with
    [total_seconds()]. *)
Record VideoResult := {
  video_id : option VideoId;
  platform : string;
  niche : string;
  vstatus : string;
  error : option string;
  generation_time : timedelta;
  metadata : list (string * Z)
}.

Record BatchResult := {
  batch_id : BatchId;
  status : BatchStatus;
  requested_count : Z;
  successful_count : Z;
  failed_count : Z;
  skipped_count : Z;
  total_time : timedelta;
  videos : list VideoResult;
  agent_decision : list (string * string);
  timestamp : datetime
}.

(** The mutable attributes of a [BatchCoordinator] ([config], [agent] and
    [memory] never change after construction and are parameters below). *)
Record Coordinator := {
  current_batch : option BatchId;
  execution_history : list BatchResult;
  last_execution : option datetime;
  daily_video_count : Z;
  hourly_video_count : Z;
  last_hour_reset : datetime;
  last_day_reset : datetime
}.

(** [__init__]: both reset marks are clock readings taken at construction. *)
Definition new_coordinator (t_hour t_day : datetime) : Coordinator :=
  {| current_batch := None; execution_history := [];
     last_execution := None; daily_video_count := 0;
     hourly_video_count := 0; last_hour_reset := t_hour;
     last_day_reset := t_day |}.

Definition set_current_batch (b : option BatchId) (c : Coordinator) :=
  {| current_batch := b; execution_history := execution_history c;
     last_execution := last_execution c;
     daily_video_count := daily_video_count c;
     hourly_video_count := hourly_video_count c;
     last_hour_reset := last_hour_reset c;
     last_day_reset := last_day_reset c |}.

Definition set_execution_history (h : list BatchResult) (c : Coordinator) :=
  {| current_batch := current_batch c; execution_history := h;
     last_execution := last_execution c;
     daily_video_count := daily_video_count c;
     hourly_video_count := hourly_video_count c;
     last_hour_reset := last_hour_reset c;
     last_day_reset := last_day_reset c |}.

Definition set_last_execution (t : option datetime) (c : Coordinator) :=
  {| current_batch := current_batch c;
     execution_history := execution_history c;
     last_execution := t;
     daily_video_count := daily_video_count c;
     hourly_video_count := hourly_video_count c;
     last_hour_reset := last_hour_reset c;
     last_day_reset := last_day_reset c |}.

Definition set_daily_video_count (n : Z) (c : Coordinator) :=
  {| current_batch := current_batch c;
     execution_history := execution_history c;
     last_execution := last_execution c;
     daily_video_count := n;
     hourly_video_count := hourly_video_count c;
     last_hour_reset := last_hour_reset c;
     last_day_reset := last_day_reset c |}.

Definition set_hourly_video_count (n : Z) (c : Coordinator) :=
  {| current_batch := current_batch c;
     execution_history := execution_history c;
     last_execution := last_execution c;
     daily_video_count := daily_video_count c;
     hourly_video_count := n;
     last_hour_reset := last_hour_reset c;
     last_day_reset := last_day_reset c |}.

Definition set_last_hour_reset (t : datetime) (c : Coordinator) :=
  {| current_batch := current_batch c;
     execution_history := execution_history c;
     last_execution := last_execution c;
     daily_video_count := daily_video_count c;
     hourly_video_count := hourly_video_count c;
     last_hour_reset := t;
     last_day_reset := last_day_reset c |}.

Definition set_last_day_reset (t : datetime) (c : Coordinator) :=
  {| current_batch := current_batch c;
     execution_history := execution_history c;
     last_execution := last_execution c;
     daily_video_count := daily_video_count c;
     hourly_video_count := hourly_video_count c;
     last_hour_reset := last_hour_reset c;
     last_day_reset := t |}.

(** The lines the coordinator and the scheduler write to the log, one
    constructor per call of [logger], with the values it prints. *)
Inductive LogLine :=
| LogStartingBatch (b : BatchId)
| LogBatchSize (n : Z)
| LogBatchCompleted (b : BatchId) (successful requested : Z)
| LogBatchFailed (b : BatchId) (e : string)
| LogDailyLimit (n : Z)
| LogHourlyLimit (n : Z)
| LogCooldown
| LogQuietHours
| LogAgentDecisionFailed (e : string)
| LogAgentDecisionError (e : string)
| LogGenerating (count : Z) (platforms : list string)
| LogGeneratingFor (i : nat) (count : Z) (platform : string)
| LogVideoCompleted (i : nat)
| LogVideoFailed (i : nat) (e : string)
| LogAborting
| LogStoring (b : BatchId)
| LogScheduledTriggered
| LogScheduledCompleted (s : BatchStatus) (successful requested : Z)
| LogScheduledFailed (e : string)
| LogManualTrigger.

(* ------------------------------------------------------------------ *)
(** ** Programs *)

(** What an awaited call comes back with: it returns, it raises an
    exception of class [Exception], or it is left by an exception outside
    that class ([asyncio.CancelledError] when the task is cancelled while
    it waits). *)
Inductive Answer :=
| Returns
| Raises (e : string)
| Interrupted (e : string).

(** What a coroutine asks of its surroundings.  [Generate i platform niche]
    is the awaited work-provider call of item [i] (the placeholder
    [asyncio.sleep(2)] in the repository): the only point where a cycle is
    suspended. *)
Inductive Event : Type -> Type :=
| Utcnow : Event datetime
| GetSelf : Event Coordinator
| SetSelf : (Coordinator -> Coordinator) -> Event unit
| Log : LogLine -> Event unit
| Generate : nat -> string -> string -> Event Answer.

(** A program returns, raises, or performs an event and goes on.  Python
    has two kinds of raise, told apart by its handlers: [Throw e] raises an
    exception of class [Exception] with the text [e], [Escape e] one
    outside that class ([asyncio.CancelledError], [KeyboardInterrupt],
    [SystemExit]). *)
Inductive Prog (A : Type) : Type :=
| Ret : A -> Prog A
| Throw : string -> Prog A
| Escape : string -> Prog A
| Vis : forall X : Type, Event X -> (X -> Prog A) -> Prog A.

Arguments Throw {A} _.
Arguments Escape {A} _.
Arguments Vis {A X} _ _.

Fixpoint bind {A B : Type} (p : Prog A) (f : A -> Prog B) : Prog B :=
  match p with
  | Ret a => f a
  | Throw e => Throw e
  | Escape e => Escape e
  | Vis ev k => Vis ev (fun x => bind (k x) f)
  end.

(** [try: p  except Exception as e: h e]: the handler is entered for an
    exception of class [Exception] only. *)
Fixpoint try_except {A : Type} (p : Prog A) (h : string -> Prog A) : Prog A :=
  match p with
  | Ret a => Ret a
  | Throw e => h e
  | Escape e => Escape e
  | Vis ev k => Vis ev (fun x => try_except (k x) h)
  end.

(** [try: p  finally: f]: [f] runs however [p] is left. *)
Fixpoint try_finally {A : Type} (p : Prog A) (f : Prog unit) : Prog A :=
  match p with
  | Ret a => bind f (fun _ => Ret a)
  | Throw e => bind f (fun _ => Throw e)
  | Escape e => bind f (fun _ => Escape e)
  | Vis ev k => Vis ev (fun x => try_finally (k x) f)
  end.

Definition trigger {X : Type} (ev : Event X) : Prog X :=
  Vis ev (fun x => Ret x).

Declare Scope prog_scope.
Delimit Scope prog_scope with prog.
Notation "x <- p ;; q" := (bind p (fun x => q))
  (at level 61, p at next level, right associativity) : prog_scope.
Notation "p ;; q" := (bind p (fun _ => q))
  (at level 61, right associativity) : prog_scope.
Local Open Scope prog_scope.

Definition utcnow : Prog datetime := trigger Utcnow.
Definition get_self : Prog Coordinator := trigger GetSelf.
Definition set_self (f : Coordinator -> Coordinator) : Prog unit :=
  trigger (SetSelf f).
Definition log (l : LogLine) : Prog unit := trigger (Log l).

(** [await] of the generation call: returns, or raises inside the caller. *)
Definition generate (i : nat) (platform niche : string) : Prog unit :=
  r <- trigger (Generate i platform niche) ;;
  match r with
  | Returns => Ret tt
  | Raises e => Throw e
  | Interrupted e => Escape e
  end.

(* ------------------------------------------------------------------ *)
(** ** batch_coordinator.py: the methods of [BatchCoordinator] *)

(** The dict an agent decision is returned as. *)
Record Decision := {
  batch_size : Z;
  reasoning : string;
  should_proceed : bool
}.

(** The dict [_get_recent_performance] returns: [{"success_rate": None}]
    for an empty history, the three statistics otherwise.  The two
    quotients are Python floats, the nearest doubles to the rationals kept
    here; for a quotient beyond the doubles the division raises
    OverflowError, and [performance_exists] below says when it does
    not. *)
Inductive Performance :=
| NoPerformance
| RecentPerformance (success_rate avg_batch_size : Q) (total_batches : nat).

Record AgentContext := {
  daily_videos : Z;
  hourly_videos : Z;
  remaining_daily : Z;
  recent_performance : Performance;
  ctx_platforms : list string;
  ctx_niche : option string;
  time_of_day : Z
}.

(** [l[-n:]] *)
Definition last_n {A : Type} (n : nat) (l : list A) : list A :=
  skipn (List.length l - n) l.

(** [sum(f(b) for b in l)] *)
Definition sum_of {A : Type} (f : A -> Z) (l : list A) : Z :=
  fold_right Z.add 0 (map f l).

(** [sum(1 for r in results if r.status == s)] *)
Definition count_status (s : string) (results : list VideoResult) : Z :=
  sum_of (fun _ => 1) (filter (fun r => String.eqb (vstatus r) s) results).

(** [x or d] for an optional list and for an optional string *)
Definition or_list {A : Type} (x : option (list A)) (d : list A) : list A :=
  match x with
  | Some (a :: l) => a :: l
  | _ => d
  end.

Definition or_string (x : option string) (d : string) : string :=
  match x with
  | Some (String c s) => String c s
  | _ => d
  end.

Definition len {A : Type} (l : list A) : Z := Z.of_nat (List.length l).

Section BatchCoordinator.

(** [self.config] and the truth value of [self.memory]. *)
Variable config : AntigravitySchedulerConfig.
Variable memory : bool.

Definition _is_quiet_hours : Prog bool :=
  t <- utcnow ;;
  let now := time_of t in
  let start := quiet_hours_start (schedule config) in
  let end_ := quiet_hours_end (schedule config) in
  if time_ltb start end_
  then Ret (time_leb start now && time_leb now end_)
  else Ret (time_leb start now || time_leb now end_).

Definition _reset_counters : Prog unit :=
  now <- utcnow ;;
  c <- get_self ;;
  (if td_hours 1 <=? now - last_hour_reset c
   then set_self (set_hourly_video_count 0) ;;
        set_self (set_last_hour_reset now)
   else Ret tt) ;;
  c <- get_self ;;
  (if td_days 1 <=? now - last_day_reset c
   then set_self (set_daily_video_count 0) ;;
        set_self (set_last_day_reset now)
   else Ret tt).

Definition _should_execute : Prog bool :=
  _reset_counters ;;
  c <- get_self ;;
  if max_daily_videos (batch config) <=? daily_video_count c
  then log (LogDailyLimit (daily_video_count c)) ;; Ret false
  else
  if max_hourly_videos (batch config) <=? hourly_video_count c
  then log (LogHourlyLimit (hourly_video_count c)) ;; Ret false
  else
  cooling <- match last_execution c with
             | Some last =>
                 let cooldown :=
                   td_minutes (api_cooldown_minutes (batch config)) in
                 now <- utcnow ;;
                 Ret (now - last <? cooldown)
             | None => Ret false
             end ;;
  if cooling : bool
  then log LogCooldown ;; Ret false
  else
  quiet <- _is_quiet_hours ;;
  if quiet : bool
  then log LogQuietHours ;; Ret false
  else Ret true.

Definition _get_recent_performance : Prog Performance :=
  c <- get_self ;;
  match execution_history c with
  | [] => Ret NoPerformance
  | _ =>
      let recent := last_n 10 (execution_history c) in
      let total_requested := sum_of requested_count recent in
      let total_successful := sum_of successful_count recent in
      Ret (RecentPerformance
             (if 0 <? total_requested
              then (inject_Z total_successful / inject_Z total_requested)%Q
              else 0%Q)
             (inject_Z total_requested / inject_Z (len recent))%Q
             (List.length recent))
  end.

(** The placeholder decision of the repository.  Nothing in its [try]
    block raises, so its handler is never entered. *)
Definition _ask_agent_for_batch_size
    (platforms : option (list string)) (niche : option string)
    : Prog Decision :=
  c <- get_self ;;
  perf <- _get_recent_performance ;;
  t <- utcnow ;;
  let context :=
    {| daily_videos := daily_video_count c;
       hourly_videos := hourly_video_count c;
       remaining_daily :=
         max_daily_videos (batch config) - daily_video_count c;
       recent_performance := perf;
       ctx_platforms := or_list platforms ["tiktok"; "instagram"];
       ctx_niche := niche;
       time_of_day := hour (time_of t) |} in
  try_except
    (let batch_size := default_batch_size (batch config) in
     t <- utcnow ;;
     let hour := hour (time_of t) in
     let batch_size :=
       if ((9 <=? hour) && (hour <=? 11)) || ((15 <=? hour) && (hour <=? 17))
       then Z.min (batch_size + 1) (max_videos (batch config))
       else batch_size in
     Ret {| batch_size := batch_size;
            reasoning := "Peak time adjustment";
            should_proceed := true |})
    (fun e =>
       log (LogAgentDecisionError e) ;;
       Ret {| batch_size := default_batch_size (batch config);
              reasoning := String.append "Fallback due to error: " e;
              should_proceed := true |}).

(** The placeholder store of the repository: a log line. *)
Definition _store_batch_result (result : BatchResult) : Prog unit :=
  log (LogStoring (batch_id result)).

Definition _create_skipped_result (batch_id : BatchId) (reason : string)
    : Prog BatchResult :=
  t <- utcnow ;;
  Ret {| batch_id := batch_id; status := SKIPPED;
         requested_count := 0; successful_count := 0;
         failed_count := 0; skipped_count := 0;
         total_time := 0; videos := [];
         agent_decision := [("reason", reason)];
         timestamp := t |}.

Definition _create_failed_result
    (batch_id : BatchId) (error : string) (start_time : datetime)
    : Prog BatchResult :=
  t_total <- utcnow ;;
  t <- utcnow ;;
  Ret {| batch_id := batch_id; status := FAILED;
         requested_count := 0; successful_count := 0;
         failed_count := 1; skipped_count := 0;
         total_time := t_total - start_time; videos := [];
         agent_decision := [("error", error)];
         timestamp := t |}.

Definition _compile_batch_result
    (batch_id : BatchId) (requested : Z) (results : list VideoResult)
    (start_time : datetime) : Prog BatchResult :=
  let successful := count_status "success" results in
  let failed := count_status "failed" results in
  let skipped := requested - len results in
  let status :=
    if successful =? requested then COMPLETED
    else if 0 <? successful then PARTIAL
    else if 0 <? failed then FAILED
    else SKIPPED in
  t_total <- utcnow ;;
  t <- utcnow ;;
  Ret {| batch_id := batch_id; status := status;
         requested_count := requested; successful_count := successful;
         failed_count := failed; skipped_count := skipped;
         total_time := t_total - start_time; videos := results;
         agent_decision := [];
         timestamp := t |}.

Definition _update_metrics (result : BatchResult) : Prog unit :=
  c <- get_self ;;
  set_self (set_daily_video_count
              (daily_video_count c + successful_count result)) ;;
  c <- get_self ;;
  set_self (set_hourly_video_count
              (hourly_video_count c + successful_count result)) ;;
  t <- utcnow ;;
  set_self (set_last_execution (Some t)) ;;
  c <- get_self ;;
  set_self (set_execution_history (execution_history c ++ [result])) ;;
  c <- get_self ;;
  if 100 <? len (execution_history c)
  then set_self (set_execution_history (last_n 100 (execution_history c)))
  else Ret tt.

(** The body of the [for] loop of [_execute_videos] over the indices still
    to come; the flag returned with the results of one iteration tells
    whether the loop goes on ([false] is [break]). *)
Fixpoint _execute_videos_loop
    (count : Z) (platforms : list string) (niche : option string)
    (indices : list nat) (results : list VideoResult)
    : Prog (list VideoResult) :=
  match indices with
  | [] => Ret results
  | i :: rest =>
      let platform := nth (i mod List.length platforms)%nat platforms "" in
      log (LogGeneratingFor (i + 1) count platform) ;;
      step <-
        try_except
          (start <- utcnow ;;
           generate i platform (or_string niche "general") ;;
           t_id <- utcnow ;;
           t_end <- utcnow ;;
           let result :=
             {| video_id := Some (vid_ t_id);
                platform := platform;
                niche := or_string niche "general";
                vstatus := "success";
                error := None;
                generation_time := t_end - start;
                metadata := [("index", Z.of_nat i)] |} in
           log (LogVideoCompleted (i + 1)) ;;
           Ret (results ++ [result], true))
          (fun e =>
             log (LogVideoFailed (i + 1) e) ;;
             let result :=
               {| video_id := None;
                  platform := platform;
                  niche := or_string niche "general";
                  vstatus := "failed";
                  error := Some e;
                  generation_time := 0;
                  metadata := [] |} in
             if negb (retry_on_failure (batch config))
             then log LogAborting ;; Ret (results ++ [result], false)
             else Ret (results ++ [result], true)) ;;
      if snd step
      then _execute_videos_loop count platforms niche rest (fst step)
      else Ret (fst step)
  end.

Definition _execute_videos
    (count : Z) (platforms : option (list string)) (niche : option string)
    : Prog (list VideoResult) :=
  let platforms := or_list platforms ["tiktok"; "instagram"] in
  log (LogGenerating count platforms) ;;
  _execute_videos_loop count platforms niche (seq 0 (Z.to_nat count)) [].

(** The two methods a deployment fills in: the agent's decision
    ([_ask_agent_for_batch_size], "where FSM + Memory integration
    happens") and the memory store ([_store_batch_result], "integrate
    with your memory system").  The coordinator is defined over any pair
    of them; [BatchCoordinator_execute_batch] below plugs in the bodies
    the repository ships. *)
Variable ask_agent : option (list string) -> option string -> Prog Decision.
Variable store_batch_result : BatchResult -> Prog unit.

Definition _determine_batch_size
    (force_count : option Z)
    (platforms : option (list string)) (niche : option string) : Prog Z :=
  match force_count with
  | Some n => Ret (Z.min n (max_videos (batch config)))
  | None =>
      if adaptive (batch config) && agent_has_veto config
      then
        try_except
          (decision <- ask_agent platforms niche ;;
           Ret (batch_size decision))
          (fun e =>
             log (LogAgentDecisionFailed e) ;;
             Ret (default_batch_size (batch config)))
      else Ret (default_batch_size (batch config))
  end.

(** The [try] block of [execute_batch]. *)
Definition execute_batch_body
    (batch_id : BatchId) (start_time : datetime)
    (platforms : option (list string)) (niche : option string)
    (force_count : option Z) : Prog BatchResult :=
  proceed <- _should_execute ;;
  if negb proceed
  then _create_skipped_result batch_id "Rate limit or quiet hours"
  else
  batch_size <- _determine_batch_size force_count platforms niche ;;
  if batch_size =? 0
  then _create_skipped_result batch_id "Agent vetoed execution"
  else
  log (LogBatchSize batch_size) ;;
  results <- _execute_videos batch_size platforms niche ;;
  batch_result <-
    _compile_batch_result batch_id batch_size results start_time ;;
  _update_metrics batch_result ;;
  (if memory then store_batch_result batch_result else Ret tt) ;;
  log (LogBatchCompleted batch_id (successful_count batch_result)
         (requested_count batch_result)) ;;
  Ret batch_result.

Definition execute_batch
    (platforms : option (list string)) (niche : option string)
    (force_count : option Z) : Prog BatchResult :=
  t <- utcnow ;;
  let batch_id := batch_id_of t in
  set_self (set_current_batch (Some batch_id)) ;;
  log (LogStartingBatch batch_id) ;;
  start_time <- utcnow ;;
  try_finally
    (try_except
       (execute_batch_body batch_id start_time platforms niche force_count)
       (fun e =>
          log (LogBatchFailed batch_id e) ;;
          _create_failed_result batch_id e start_time))
    (set_self (set_current_batch None)).

(** [get_stats()["is_running"]] *)
Definition is_running : Prog bool :=
  c <- get_self ;;
  Ret (match current_batch c with Some _ => true | None => false end).

(** ** antigravity_scheduler.py: the callers of [execute_batch] *)

Definition _default_scheduled_job : Prog unit :=
  try_except
    (log LogScheduledTriggered ;;
     result <- execute_batch None None None ;;
     log (LogScheduledCompleted (status result) (successful_count result)
            (requested_count result)))
    (fun e => log (LogScheduledFailed e)).

Definition manual_trigger
    (platforms : option (list string)) (niche : option string)
    (force_count : option Z) : Prog BatchResult :=
  log LogManualTrigger ;;
  execute_batch platforms niche force_count.

End BatchCoordinator.

(** The coordinator as the repository ships it. *)
Definition BatchCoordinator_execute_batch
    (config : AntigravitySchedulerConfig) (memory : bool) :=
  execute_batch config memory
    (_ask_agent_for_batch_size config) _store_batch_result.

Definition AntigravityScheduler_manual_trigger
    (config : AntigravitySchedulerConfig) (memory : bool) :=
  manual_trigger config memory
    (_ask_agent_for_batch_size config) _store_batch_result.

Definition AntigravityScheduler_default_scheduled_job
    (config : AntigravitySchedulerConfig) (memory : bool) :=
  _default_scheduled_job config memory
    (_ask_agent_for_batch_size config) _store_batch_result.

(* ------------------------------------------------------------------ *)
(** ** Semantics *)

(** What the surroundings answer to a coroutine that is not interrupted:
    the successive readings of the clock, and for each item index whether
    its awaited generation call returns ([None]) or raises an exception of
    class [Exception] ([Some e]). *)
Record Env := {
  clock : nat -> datetime;
  generation : nat -> option string
}.

Definition answer_of (r : option string) : Answer :=
  match r with
  | None => Returns
  | Some e => Raises e
  end.

(** The coordinator object, the number of clock readings taken so far and
    the log written so far. *)
Record World := {
  self : Coordinator;
  ticks : nat;
  logged : list LogLine
}.

(** How a coroutine is left: it returns, it raises an exception of class
    [Exception], or an exception outside that class goes through it. *)
Inductive outcome (A : Type) : Type :=
| Ok : A -> outcome A
| Raise : string -> outcome A
| Escaped : string -> outcome A.

Arguments Raise {A} _.
Arguments Escaped {A} _.

(** The answer to an event when the coroutine runs alone: the awaited
    generation call is answered by the environment at once. *)
Definition handle (env : Env) {X : Type} (ev : Event X) (w : World)
    : X * World :=
  match ev in Event X return X * World with
  | Utcnow =>
      (clock env (ticks w),
       {| self := self w; ticks := S (ticks w); logged := logged w |})
  | GetSelf => (self w, w)
  | SetSelf f =>
      (tt, {| self := f (self w); ticks := ticks w; logged := logged w |})
  | Log l =>
      (tt, {| self := self w; ticks := ticks w; logged := logged w ++ [l] |})
  | Generate i _ _ => (answer_of (generation env i), w)
  end.

(** The same answer for the events that do not suspend the coroutine,
    [None] for the one that does. *)
Definition handle_now (env : Env) {X : Type} (ev : Event X) (w : World)
    : option (X * World) :=
  match ev in Event X return option (X * World) with
  | Generate _ _ _ => None
  | Utcnow => Some (handle env Utcnow w)
  | GetSelf => Some (handle env GetSelf w)
  | SetSelf f => Some (handle env (SetSelf f) w)
  | Log l => Some (handle env (Log l) w)
  end.

(** One coroutine run from its call to its return. *)
Fixpoint run (env : Env) {A : Type} (p : Prog A) (w : World)
    : outcome A * World :=
  match p with
  | Ret a => (Ok a, w)
  | Throw e => (Raise e, w)
  | Escape e => (Escaped e, w)
  | Vis ev k => let xw := handle env ev w in run env (k (fst xw)) (snd xw)
  end.

(** One coroutine run up to its next suspension: the program left is a
    return, a raise, or the awaited event with its continuation. *)
Fixpoint advance (env : Env) {A : Type} (p : Prog A) (w : World)
    : Prog A * World :=
  match p with
  | Vis ev k =>
      match handle_now env ev w with
      | Some xw => advance env (k (fst xw)) (snd xw)
      | None => (p, w)
      end
  | _ => (p, w)
  end.

Definition suspended {A : Type} (p : Prog A) : bool :=
  match p with
  | Vis (Generate _ _ _) _ => true
  | _ => false
  end.

(** The continuation of a suspended coroutine at the answer it is resumed
    with. *)
Definition resume {A : Type} (p : Prog A) (answer : Answer) : Prog A :=
  match p with
  | Vis ev k =>
      match ev in Event X return (X -> Prog A) -> Prog A with
      | Generate _ _ _ => fun k => k answer
      | _ => fun _ => p
      end k
  | _ => p
  end.

(** *** The event loop

    The cycles in flight are the calls of [execute_batch] that were started
    and have not returned: each is suspended at its awaited generation
    call.  A step of the loop either serves a trigger, which calls
    [execute_batch] and runs it to its first suspension or to its return,
    resumes one of the suspended cycles with the answer of its call, or
    cancels one of them: the cycle is resumed with
    [asyncio.CancelledError] raised at its awaited call. *)
Record System := {
  world : World;
  in_flight : list (Prog BatchResult);
  returned : list (outcome BatchResult)
}.

Inductive Action :=
| Trigger (platforms : option (list string)) (niche : option string)
          (force_count : option Z)
| Resume (k : nat) (answer : option string)
| Cancel (k : nat).

Definition settle (s : System) (before after : list (Prog BatchResult))
    (pw : Prog BatchResult * World) : System :=
  match fst pw with
  | Ret r =>
      {| world := snd pw; in_flight := before ++ after;
         returned := returned s ++ [Ok r] |}
  | Throw e =>
      {| world := snd pw; in_flight := before ++ after;
         returned := returned s ++ [Raise e] |}
  | Escape e =>
      {| world := snd pw; in_flight := before ++ after;
         returned := returned s ++ [Escaped e] |}
  | p =>
      {| world := snd pw; in_flight := before ++ p :: after;
         returned := returned s |}
  end.

Section EventLoop.

Variable config : AntigravitySchedulerConfig.
Variable memory : bool.
Variable env : Env.

Definition loop_step (a : Action) (s : System) : System :=
  match a with
  | Trigger platforms niche force_count =>
      settle s (in_flight s) []
        (advance env
           (AntigravityScheduler_manual_trigger config memory
              platforms niche force_count)
           (world s))
  | Resume k answer =>
      match nth_error (in_flight s) k with
      | Some p =>
          settle s (firstn k (in_flight s)) (skipn (S k) (in_flight s))
            (advance env (resume p (answer_of answer)) (world s))
      | None => s
      end
  | Cancel k =>
      match nth_error (in_flight s) k with
      | Some p =>
          settle s (firstn k (in_flight s)) (skipn (S k) (in_flight s))
            (advance env (resume p (Interrupted "CancelledError")) (world s))
      | None => s
      end
  end.

Definition loop_steps (l : list Action) (s : System) : System :=
  fold_left (fun s a => loop_step a s) l s.

End EventLoop.

(** A coordinator just constructed, no cycle in flight. *)
Definition initial_system (t_hour t_day : datetime) : System :=
  {| world := {| self := new_coordinator t_hour t_day; ticks := 0;
                 logged := [] |};
     in_flight := []; returned := [] |}.

(* ------------------------------------------------------------------ *)
(** ** Statements of the specification *)

(** The classification table of the specification (section 4.5), read as
    four "status is X when ..." clauses. *)
Definition spec_status_table
    (requested successful failed : Z) (s : BatchStatus) : Prop :=
  (successful = requested /\ 0 < requested -> s = COMPLETED) /\
  (0 < successful < requested -> s = PARTIAL) /\
  (successful = 0 /\ 0 < failed -> s = FAILED) /\
  (successful = 0 /\ failed = 0 -> s = SKIPPED).

(** The world with the clock read [n] more times. *)
Definition tick (n : nat) (w : World) : World :=
  {| self := self w; ticks := (n + ticks w)%nat; logged := logged w |}.

(* ------------------------------------------------------------------ *)
(** ** Notions used in the statements *)

(** What [_reset_counters] does to the coordinator at the reading [now]. *)
Definition reset_hour (now : datetime) (c : Coordinator) : Coordinator :=
  if td_hours 1 <=? now - last_hour_reset c
  then set_last_hour_reset now (set_hourly_video_count 0 c)
  else c.

Definition reset_day (now : datetime) (c : Coordinator) : Coordinator :=
  if td_days 1 <=? now - last_day_reset c
  then set_last_day_reset now (set_daily_video_count 0 c)
  else c.

(** The answer of [_is_quiet_hours] at the clock reading [t]. *)
Definition quiet_at (config : AntigravitySchedulerConfig) (t : datetime)
    : bool :=
  let now := time_of t in
  let start := quiet_hours_start (schedule config) in
  let end_ := quiet_hours_end (schedule config) in
  if time_ltb start end_
  then time_leb start now && time_leb now end_
  else time_leb start now || time_leb now end_.

(** The answers of the gate with the line each one logs, on the
    coordinator [c] as the reset left it and for the clock reading [t] the
    quiet hours are checked at. *)
Inductive gate_outcome (config : AntigravitySchedulerConfig)
    (c : Coordinator) (t : datetime) : bool -> list LogLine -> Prop :=
| gate_proceed :
    daily_video_count c < max_daily_videos (batch config) ->
    hourly_video_count c < max_hourly_videos (batch config) ->
    quiet_at config t = false ->
    gate_outcome config c t true []
| gate_daily_limit :
    max_daily_videos (batch config) <= daily_video_count c ->
    gate_outcome config c t false [LogDailyLimit (daily_video_count c)]
| gate_hourly_limit :
    daily_video_count c < max_daily_videos (batch config) ->
    max_hourly_videos (batch config) <= hourly_video_count c ->
    gate_outcome config c t false [LogHourlyLimit (hourly_video_count c)]
| gate_cooldown :
    daily_video_count c < max_daily_videos (batch config) ->
    hourly_video_count c < max_hourly_videos (batch config) ->
    gate_outcome config c t false [LogCooldown]
| gate_quiet_hours :
    daily_video_count c < max_daily_videos (batch config) ->
    hourly_video_count c < max_hourly_videos (batch config) ->
    quiet_at config t = true ->
    gate_outcome config c t false [LogQuietHours].

(** The coordinator after [_update_metrics] recorded [result] at the
    reading [now]. *)
Definition recorded (now : datetime) (result : BatchResult)
    (c : Coordinator) : Coordinator :=
  {| current_batch := current_batch c;
     execution_history :=
       (if 100 <? len (execution_history c ++ [result])
        then last_n 100 (execution_history c ++ [result])
        else execution_history c ++ [result]);
     last_execution := Some now;
     daily_video_count := daily_video_count c + successful_count result;
     hourly_video_count := hourly_video_count c + successful_count result;
     last_hour_reset := last_hour_reset c;
     last_day_reset := last_day_reset c |}.

(** The record [_create_skipped_result] builds. *)
Definition skipped_result (bid : BatchId) (reason : string) (t : datetime)
    : BatchResult :=
  {| batch_id := bid; status := SKIPPED;
     requested_count := 0; successful_count := 0;
     failed_count := 0; skipped_count := 0;
     total_time := 0; videos := [];
     agent_decision := [("reason", reason)];
     timestamp := t |}.

(** The record [_create_failed_result] builds. *)
Definition failed_result (bid : BatchId) (e : string)
    (total : timedelta) (t : datetime) : BatchResult :=
  {| batch_id := bid; status := FAILED;
     requested_count := 0; successful_count := 0;
     failed_count := 1; skipped_count := 0;
     total_time := total; videos := [];
     agent_decision := [("error", e)];
     timestamp := t |}.

(** The world with one more line in the log. *)
Definition with_log (l : LogLine) (w : World) : World :=
  {| self := self w; ticks := ticks w; logged := logged w ++ [l] |}.

(** The status of the item of index [i], by the answer of its call. *)
Definition item_status (env : Env) (i : nat) : string :=
  match generation env i with
  | None => "success"
  | Some _ => "failed"
  end.

(** The indices the loop of [_execute_videos] goes through: all of them
    when the batch continues on failure, those up to the first failing one
    otherwise. *)
Fixpoint attempted (env : Env) (retry : bool) (indices : list nat)
    : list nat :=
  match indices with
  | [] => []
  | i :: rest =>
      match generation env i with
      | None => i :: attempted env retry rest
      | Some _ => if retry then i :: attempted env retry rest else [i]
      end
  end.

(** [sum(1 for s in statuses if s == x)] on the statuses alone. *)
Definition count_in (x : string) (statuses : list string) : Z :=
  sum_of (fun _ => 1) (filter (fun s => String.eqb s x) statuses).

(** The items the log shows as started, by their number (from 1). *)
Definition items_started (l : list LogLine) : list nat :=
  flat_map (fun x => match x with
                     | LogGeneratingFor i _ _ => [i]
                     | _ => []
                     end) l.

(** The world in which the [try] block of [execute_batch] starts: the
    batch id and the start time were read from the clock, the batch id was
    stored and logged. *)
Definition entered (env : Env) (w : World) : World :=
  {| self :=
       set_current_batch (Some (batch_id_of (clock env (ticks w)))) (self w);
     ticks := S (S (ticks w));
     logged :=
       logged w ++ [LogStartingBatch (batch_id_of (clock env (ticks w)))] |}.

(** The world [execute_batch] leaves: its [finally] clears the batch id. *)
Definition cleared (w : World) : World :=
  {| self := set_current_batch None (self w);
     ticks := ticks w; logged := logged w |}.

(** Single flight in the words of the specification: at most one cycle
    executes at any instant. *)
Definition spec_single_flight (s : System) : Prop :=
  (List.length (in_flight s) <= 1)%nat.

(** The system with no cycle in progress: no current batch id, nothing in
    flight. *)
Definition idle (s : System) : System :=
  {| world :=
       {| self := set_current_batch None (self (world s));
          ticks := ticks (world s); logged := logged (world s) |};
     in_flight := [];
     returned := returned s |}.

(* ------------------------------------------------------------------ *)
(** ** Scenarios *)

(** Clock readings: an instant given by its hour, minute and second on the
    first day of the epoch. *)
Definition at_hms (h m s : Z) : datetime := ((h * 60 + m) * 60 + s) * 1000000.

(** A clock that starts at noon and moves on by [step] seconds at every
    reading; every generation call returns. *)
Definition noon_clock (step : Z) : Env :=
  {| clock := fun n => at_hms 12 0 0 + Z.of_nat n * step * 1000000;
     generation := fun _ => None |}.

(** A clock that stands still. *)
Definition still_clock (t : datetime) : Env :=
  {| clock := fun _ => t; generation := fun _ => None |}.

(** A coordinator constructed at noon that has not run a cycle yet. *)
Definition fresh_world : World :=
  {| self := new_coordinator (at_hms 12 0 0) (at_hms 12 0 0);
     ticks := 0; logged := [] |}.

(** The default configuration with other quiet hours. *)
Definition with_quiet_hours (start end_ : time) : AntigravitySchedulerConfig :=
  {| batch := default_BatchConfig;
     schedule :=
       {| interval_hours := 6;
          optimal_times := [time_hm 9 0; time_hm 15 0; time_hm 21 0];
          timezone := "UTC";
          quiet_hours_start := start;
          quiet_hours_end := end_ |};
     agent_has_veto := true; mode := "scheduled" |}.

(** The scenario of the sliding reset: five videos counted in the current
    hour and day, the hour mark set 61 minutes before noon, no cycle run
    yet. *)
Definition stale_hour_world : World :=
  {| self :=
       {| current_batch := None; execution_history := [];
          last_execution := None;
          daily_video_count := 5; hourly_video_count := 5;
          last_hour_reset := at_hms 10 59 0;
          last_day_reset := at_hms 0 0 0 |};
     ticks := 0; logged := [] |}.

(** The same for the day: twenty videos counted in the day, which is the
    default daily limit, three of them in the current hour; at noon of the
    second day the day mark is 25 hours in the past and the hour mark 30
    minutes. *)
Definition stale_day_world : World :=
  {| self :=
       {| current_batch := None; execution_history := [];
          last_execution := None;
          daily_video_count := 20; hourly_video_count := 3;
          last_hour_reset := at_hms 35 30 0;
          last_day_reset := at_hms 11 0 0 |};
     ticks := 0; logged := [] |}.

(** The default configuration with the batch aborted at the first
    failure. *)
Definition abort_on_failure : AntigravitySchedulerConfig :=
  {| batch :=
       {| min_videos := 1; max_videos := 5; default_batch_size := 3;
          adaptive := true; max_daily_videos := 20; max_hourly_videos := 8;
          api_cooldown_minutes := 5; retry_on_failure := false;
          max_retries := 3 |};
     schedule := default_ScheduleConfig;
     agent_has_veto := true; mode := "scheduled" |}.

(** A clock that starts at noon and moves on by one second at every
    reading, with the generation call of the second item (index 1)
    raising. *)
Definition second_item_fails : Env :=
  {| clock := fun n => at_hms 12 0 0 + Z.of_nat n * 1000000;
     generation := fun i => if Nat.eqb i 1 then Some "provider error"
                            else None |}.

(** A memory store that is out of reach, and an agent that is. *)
Definition failing_store (_ : BatchResult) : Prog unit :=
  Throw "memory store unavailable".

Definition failing_agent (_ : option (list string)) (_ : option string)
    : Prog Decision :=
  Throw "agent unavailable".

(** A memory store whose awaited call is cancelled. *)
Definition cancelled_store (_ : BatchResult) : Prog unit :=
  Escape "CancelledError".

(* ------------------------------------------------------------------ *)
(** ** batch_coordinator.py: [get_stats] *)

(** The dict [get_stats] returns. *)
Record Stats := {
  stats_daily_videos : Z;
  stats_hourly_videos : Z;
  stats_total_batches : nat;
  stats_recent_performance : Performance;
  stats_is_running : bool;
  stats_current_batch : option BatchId
}.

Definition get_stats : Prog Stats :=
  (c <- get_self ;;
   perf <- _get_recent_performance ;;
   Ret {| stats_daily_videos := daily_video_count c;
          stats_hourly_videos := hourly_video_count c;
          stats_total_batches := List.length (execution_history c);
          stats_recent_performance := perf;
          stats_is_running :=
            match current_batch c with Some _ => true | None => false end;
          stats_current_batch := current_batch c |})%prog.

(* ------------------------------------------------------------------ *)
(** ** scheduler_config.py: [load_config_from_env]

    [DEFAULT_CONFIG.model_copy()] is a shallow copy: the new
    [AntigravitySchedulerConfig] object has fields of its own, and its
    [batch] and [schedule] fields refer to the same [BatchConfig] and
    [ScheduleConfig] objects as [DEFAULT_CONFIG].  The model keeps the
    objects in a heap and the references between them. *)

Inductive Obj :=
| BatchObj (b : BatchConfig)
| ScheduleObj (s : ScheduleConfig)
| ConfigObj (batch_ref schedule_ref : nat) (veto : bool) (mode : string).

Definition Heap := list Obj.

(** [l[i] = x] on the heap; nothing happens out of range, which no
    reference handed out by the model is. *)
Fixpoint heap_set (i : nat) (x : Obj) (h : Heap) : Heap :=
  match h, i with
  | [], _ => []
  | _ :: rest, O => x :: rest
  | y :: rest, S j => y :: heap_set j x rest
  end.

(** The module as imported: the two nested defaults and [DEFAULT_CONFIG],
    which is the object at [DEFAULT_CONFIG_ref]. *)
Definition initial_heap : Heap :=
  [ BatchObj default_BatchConfig;
    ScheduleObj default_ScheduleConfig;
    ConfigObj 0 1 true "scheduled" ].

Definition DEFAULT_CONFIG_ref : nat := 2%nat.

(** The configuration an object reference stands for, read through the
    heap. *)
Definition read_config (h : Heap) (r : nat)
    : option AntigravitySchedulerConfig :=
  match nth_error h r with
  | Some (ConfigObj br sr veto mode) =>
      match nth_error h br, nth_error h sr with
      | Some (BatchObj b), Some (ScheduleObj s) =>
          Some {| batch := b; schedule := s;
                  agent_has_veto := veto; mode := mode |}
      | _, _ => None
      end
  | _ => None
  end.

(** [config.batch.default_batch_size = n] and the like: an assignment to
    a field of the object a field refers to. *)
Definition set_default_batch_size (n : Z) (b : BatchConfig) : BatchConfig :=
  {| min_videos := min_videos b; max_videos := max_videos b;
     default_batch_size := n; adaptive := adaptive b;
     max_daily_videos := max_daily_videos b;
     max_hourly_videos := max_hourly_videos b;
     api_cooldown_minutes := api_cooldown_minutes b;
     retry_on_failure := retry_on_failure b;
     max_retries := max_retries b |}.

Definition set_interval_hours (n : Z) (s : ScheduleConfig) : ScheduleConfig :=
  {| interval_hours := n; optimal_times := optimal_times s;
     timezone := timezone s;
     quiet_hours_start := quiet_hours_start s;
     quiet_hours_end := quiet_hours_end s |}.

Definition set_timezone (tz : string) (s : ScheduleConfig) : ScheduleConfig :=
  {| interval_hours := interval_hours s; optimal_times := optimal_times s;
     timezone := tz;
     quiet_hours_start := quiet_hours_start s;
     quiet_hours_end := quiet_hours_end s |}.

Definition update_batch (f : BatchConfig -> BatchConfig) (r : nat) (h : Heap)
    : Heap :=
  match nth_error h r with
  | Some (ConfigObj br _ _ _) =>
      match nth_error h br with
      | Some (BatchObj b) => heap_set br (BatchObj (f b)) h
      | _ => h
      end
  | _ => h
  end.

Definition update_schedule (f : ScheduleConfig -> ScheduleConfig) (r : nat)
    (h : Heap) : Heap :=
  match nth_error h r with
  | Some (ConfigObj _ sr _ _) =>
      match nth_error h sr with
      | Some (ScheduleObj s) => heap_set sr (ScheduleObj (f s)) h
      | _ => h
      end
  | _ => h
  end.

(** [config.mode = mode]: an assignment to a field of the object itself. *)
Definition update_mode (m : string) (r : nat) (h : Heap) : Heap :=
  match nth_error h r with
  | Some (ConfigObj br sr veto _) => heap_set r (ConfigObj br sr veto m) h
  | _ => h
  end.

(** [model_copy()]: a new object with the fields of the old one. *)
Definition model_copy (r : nat) (h : Heap) : nat * Heap :=
  match nth_error h r with
  | Some o => (List.length h, h ++ [o])
  | None => (r, h)
  end.

(** What [load_config_from_env] comes to: the reference of the
    configuration it returns, or the [ValueError] of [int] on the text it
    was given. *)
Inductive Loaded :=
| Config (r : nat)
| ValueError (text : string).

(** [if x := os.getenv(name):] takes its branch for a variable that is
    set to a text that is not empty. *)
Definition getenv_truthy (environ : string -> option string) (name : string)
    : option string :=
  match environ name with
  | Some (String c s) => Some (String c s)
  | _ => None
  end.

Section LoadConfig.

(** Python's [int] on a text: the number, or [None] for a [ValueError]. *)
Variable int : string -> option Z.

(** [os.environ]. *)
Variable environ : string -> option string.

Definition load_config_from_env (h : Heap) : Loaded * Heap :=
  let (config, h) := model_copy DEFAULT_CONFIG_ref h in
  let after_batch_size :=
    match getenv_truthy environ "ANTIGRAVITY_BATCH_SIZE" with
    | Some batch_size =>
        match int batch_size with
        | Some n => inl (update_batch (set_default_batch_size n) config h)
        | None => inr (batch_size, h)
        end
    | None => inl h
    end in
  match after_batch_size with
  | inr (text, h) => (ValueError text, h)
  | inl h =>
      let after_interval :=
        match getenv_truthy environ "ANTIGRAVITY_INTERVAL_HOURS" with
        | Some interval =>
            match int interval with
            | Some n => inl (update_schedule (set_interval_hours n) config h)
            | None => inr (interval, h)
            end
        | None => inl h
        end in
      match after_interval with
      | inr (text, h) => (ValueError text, h)
      | inl h =>
          let h :=
            match getenv_truthy environ "ANTIGRAVITY_MODE" with
            | Some mode => update_mode mode config h
            | None => h
            end in
          let h :=
            match getenv_truthy environ "ANTIGRAVITY_TIMEZONE" with
            | Some tz => update_schedule (set_timezone tz) config h
            | None => h
            end in
          (Config config, h)
      end
  end.

End LoadConfig.

(* ------------------------------------------------------------------ *)
(** ** healthcheck.py *)

(** [needle in hay] *)
Fixpoint contains (needle hay : string) : bool :=
  String.prefix needle hay ||
  match hay with
  | EmptyString => false
  | String _ rest => contains needle rest
  end.

(** What [check_health] reads from outside: whether the log file exists,
    the modification time [stat] gives ([None] when it raises), the local
    clock, the lines of the file ([None] when opening or reading raises)
    and the environment. *)
Record Outside := {
  log_exists : bool;
  log_mtime : option datetime;
  local_now : datetime;
  log_lines : option (list string);
  os_environ : string -> option string
}.

(** What [check_health] prints before it returns. *)
Inductive HealthMessage :=
| LogFileNotFound
| LogNotUpdated (age : timedelta)
| TooManyCritical (critical_count : Z)
| MissingEnvVars (missing : list string)
| HealthException
| HealthCheckPassed (warned_errors : option Z).

(** [sum(1 for line in lines if word in line)] *)
Definition count_lines (word : string) (lines : list string) : Z :=
  sum_of (fun _ => 1) (filter (contains word) lines).

Definition check_health_message (o : Outside) : HealthMessage :=
  if negb (log_exists o) then LogFileNotFound
  else
  match log_mtime o with
  | None => HealthException
  | Some last_modified =>
      let age := local_now o - last_modified in
      if td_hours 1 <? age then LogNotUpdated age
      else
      match log_lines o with
      | None => HealthException
      | Some all_lines =>
          let lines := last_n 100 all_lines in
          let critical_count := count_lines "CRITICAL" lines in
          let error_count := count_lines "ERROR" lines in
          if 5 <? critical_count then TooManyCritical critical_count
          else
          let required_env := ["ANTHROPIC_API_KEY"] in
          let missing :=
            filter (fun var =>
                      match getenv_truthy (os_environ o) var with
                      | Some _ => false
                      | None => true
                      end) required_env in
          match missing with
          | _ :: _ => MissingEnvVars missing
          | [] =>
              HealthCheckPassed
                (if 10 <? error_count then Some error_count else None)
          end
      end
  end.

Definition check_health (o : Outside) : bool :=
  match check_health_message o with
  | HealthCheckPassed _ => true
  | _ => false
  end.

(** [main]: the exit status. *)
Definition healthcheck_main (o : Outside) : Z :=
  if check_health o then 0 else 1.

(* ------------------------------------------------------------------ *)
(** ** Notions used in the further properties *)

(** The platform list [_execute_videos] works with. *)
Definition platform_list (platforms : option (list string)) : list string :=
  or_list platforms ["tiktok"; "instagram"].

(** What one item of a batch looks like, by the answer of its call. *)
Definition item_of (env : Env) (platforms : list string)
    (asked : option string) (i : nat) (r : VideoResult) : Prop :=
  platform r = nth (i mod List.length platforms)%nat platforms "" /\
  niche r = or_string asked "general" /\
  match generation env i with
  | None =>
      vstatus r = "success" /\
      (exists t, video_id r = Some (vid_ t)) /\
      error r = None /\
      metadata r = [("index", Z.of_nat i)]
  | Some e =>
      vstatus r = "failed" /\
      video_id r = None /\
      error r = Some e /\
      generation_time r = 0 /\
      metadata r = []
  end.

(** A coordinator between two cycles. *)
Definition coordinator_ok (c : Coordinator) : Prop :=
  current_batch c = None /\
  (List.length (execution_history c) <= 100)%nat /\
  0 <= daily_video_count c /\
  0 <= hourly_video_count c /\
  Forall (fun b => requested_count b <> 0 /\ agent_decision b = [])
         (execution_history c).

(** The hours the placeholder decision takes for peak times. *)
Definition peak_hour (h : Z) : bool :=
  ((9 <=? h) && (h <=? 11)) || ((15 <=? h) && (h <=? 17)).

(** The range of Python's [timedelta]: at most 999999999 days either way.
    Outside of it [timedelta(minutes=n)] raises OverflowError, where
    [td_minutes] goes on counting: what is stated of a cooldown is stated
    of one in this range. *)
Definition timedelta_in_range (d : timedelta) : Prop :=
  td_days (-999999999) <= d < td_days 1000000000.

(** The quotient [a / b] of two Python integers is a float, and the
    division raises OverflowError when the quotient is beyond the doubles:
    from 2^1024 - 2^970 on in magnitude, the least value that rounds to an
    infinity. *)
Definition float_quotient_exists (a b : Z) : Prop :=
  Z.abs a < (2 ^ 1024 - 2 ^ 970) * Z.abs b.

(** The histories [_get_recent_performance] has statistics for: both of
    its quotients are floats.  What is stated of the statistics is stated
    of such a history. *)
Definition performance_exists (history : list BatchResult) : Prop :=
  let recent := last_n 10 history in
  let total_requested := sum_of requested_count recent in
  let total_successful := sum_of successful_count recent in
  (0 < total_requested ->
   float_quotient_exists total_successful total_requested) /\
  (history <> [] -> float_quotient_exists total_requested (len recent)).

(** A text of decimal digits as a number, for the scenarios: the least
    any [int] does. *)
Fixpoint digits_value (acc : Z) (s : string) : option Z :=
  match s with
  | EmptyString => Some acc
  | String c rest =>
      let n := Z.of_nat (Ascii.nat_of_ascii c) - 48 in
      if (0 <=? n) && (n <=? 9) then digits_value (acc * 10 + n) rest
      else None
  end.

Definition decimal_int (s : string) : option Z :=
  match s with
  | EmptyString => None
  | _ => digits_value 0 s
  end.

(** An environment with the given variables set. *)
Fixpoint environ_of (vars : list (string * string)) (name : string)
    : option string :=
  match vars with
  | [] => None
  | (k, v) :: rest => if String.eqb k name then Some v else environ_of rest name
  end.

(** A coordinator that ran a cycle one minute before noon, and one that
    has reached the default daily limit of 20 videos. *)
Definition just_ran_world : World :=
  {| self :=
       {| current_batch := None; execution_history := [];
          last_execution := Some (at_hms 11 59 0);
          daily_video_count := 3; hourly_video_count := 3;
          last_hour_reset := at_hms 11 30 0;
          last_day_reset := at_hms 0 0 0 |};
     ticks := 0; logged := [] |}.

Definition daily_limit_world : World :=
  {| self :=
       {| current_batch := None; execution_history := [];
          last_execution := None;
          daily_video_count := 20; hourly_video_count := 0;
          last_hour_reset := at_hms 11 30 0;
          last_day_reset := at_hms 0 0 0 |};
     ticks := 0; logged := [] |}.

(** A heap with [DEFAULT_CONFIG] at its place and a copy of it at [copy]:
    both objects refer to the same [BatchConfig] and [ScheduleConfig]
    objects, which hold [b] and [s], and each has a mode of its own. *)
Definition shared_config_heap (h : Heap) (copy : nat)
    (b : BatchConfig) (s : ScheduleConfig)
    (default_mode copy_mode : string) : Prop :=
  exists br sr veto,
    nth_error h DEFAULT_CONFIG_ref = Some (ConfigObj br sr veto default_mode)
    /\ nth_error h copy = Some (ConfigObj br sr veto copy_mode)
    /\ nth_error h br = Some (BatchObj b)
    /\ nth_error h sr = Some (ScheduleObj s)
    /\ copy <> DEFAULT_CONFIG_ref.

(** The overrides of the environment on a [BatchConfig], on a
    [ScheduleConfig] and on a mode, as [load_config_from_env] applies them
    when every [int] succeeds. *)
Definition override_batch (int : string -> option Z)
    (environ : string -> option string) (b : BatchConfig) : BatchConfig :=
  match getenv_truthy environ "ANTIGRAVITY_BATCH_SIZE" with
  | Some text =>
      match int text with
      | Some n => set_default_batch_size n b
      | None => b
      end
  | None => b
  end.

Definition override_interval (int : string -> option Z)
    (environ : string -> option string) (s : ScheduleConfig)
    : ScheduleConfig :=
  match getenv_truthy environ "ANTIGRAVITY_INTERVAL_HOURS" with
  | Some text =>
      match int text with
      | Some n => set_interval_hours n s
      | None => s
      end
  | None => s
  end.

Definition override_timezone (environ : string -> option string)
    (s : ScheduleConfig) : ScheduleConfig :=
  match getenv_truthy environ "ANTIGRAVITY_TIMEZONE" with
  | Some tz => set_timezone tz s
  | None => s
  end.

Definition override_mode (environ : string -> option string) (m : string)
    : string :=
  match getenv_truthy environ "ANTIGRAVITY_MODE" with
  | Some mode => mode
  | None => m
  end.

(** The outside world with other lines in the log file. *)
Definition with_lines (lines : list string) (o : Outside) : Outside :=
  {| log_exists := log_exists o; log_mtime := log_mtime o;
     local_now := local_now o; log_lines := Some lines;
     os_environ := os_environ o |}.

(** A log updated a minute ago, with the API key set. *)
Definition recent_log (lines : list string) : Outside :=
  {| log_exists := true; log_mtime := Some (at_hms 11 59 0);
     local_now := at_hms 12 0 0; log_lines := Some lines;
     os_environ := environ_of [("ANTHROPIC_API_KEY", "sk-test")] |}.

(* ------------------------------------------------------------------ *)
(** ** Running programs *)

Unset Implicit Arguments.

Ltac run_cbn :=
  cbn -[Z.leb Z.ltb Z.eqb Z.sub Z.add Z.mul Z.min Z.div Z.modulo
        Nat.modulo td_hours td_days td_minutes time_of time_ltb time_leb
        last_n sum_of len batch_id_of].

Lemma run_bind (env : Env) (A B : Type) (p : Prog A) (f : A -> Prog B) w :
  run env (bind p f) w =
  match run env p w with
  | (Ok a, w') => run env (f a) w'
  | (Raise e, w') => (Raise e, w')
  | (Escaped e, w') => (Escaped e, w')
  end.
Proof.
  revert w; induction p as [a | e | e | X ev k IH]; intros w; simpl; auto.
Qed.

Lemma run_try_except (env : Env) (A : Type) (p : Prog A) h w :
  run env (try_except p h) w =
  match run env p w with
  | (Ok a, w') => (Ok a, w')
  | (Raise e, w') => run env (h e) w'
  | (Escaped e, w') => (Escaped e, w')
  end.
Proof.
  revert w; induction p as [a | e | e | X ev k IH]; intros w; simpl; auto.
Qed.

Lemma run_try_finally (env : Env) (A : Type) (p : Prog A) f w :
  run env (try_finally p f) w =
  match run env p w with
  | (Ok a, w') => run env (bind f (fun _ => Ret a)) w'
  | (Raise e, w') => run env (bind f (fun _ => Throw e)) w'
  | (Escaped e, w') => run env (bind f (fun _ => Escape e)) w'
  end.
Proof.
  revert w; induction p as [a | e | e | X ev k IH]; intros w; simpl; auto.
Qed.

(** Whatever a program does, the lines already logged stay. *)
Lemma run_keeps_log env (A : Type) (p : Prog A) :
  forall w, exists new, logged (snd (run env p w)) = logged w ++ new.
Proof.
  induction p as [a | e | e | X ev k IH]; intros w; cbn [run].
  - exists []; cbn; rewrite app_nil_r; reflexivity.
  - exists []; cbn; rewrite app_nil_r; reflexivity.
  - exists []; cbn; rewrite app_nil_r; reflexivity.
  - destruct (IH (fst (handle env ev w)) (snd (handle env ev w)))
      as (new & Hnew).
    rewrite Hnew.
    destruct ev; cbn; try (exists new; reflexivity).
    eexists; rewrite <- app_assoc; reflexivity.
Qed.

(* ------------------------------------------------------------------ *)
(** ** Time of day *)

(** On the values a [time] can hold, the order of the tuples is the order
    of the microseconds since midnight. *)
Lemma time_ltb_micros a b :
  valid_time a -> valid_time b ->
  time_ltb a b = (micros_of_day a <? micros_of_day b).
Proof.
  unfold valid_time, time_ltb, micros_of_day.
  intros (Ha1 & Ha2 & Ha3 & Ha4) (Hb1 & Hb2 & Hb3 & Hb4).
  destruct (Z.ltb_spec (hour a) (hour b));
    destruct (Z.eqb_spec (hour a) (hour b));
    destruct (Z.ltb_spec (minute a) (minute b));
    destruct (Z.eqb_spec (minute a) (minute b));
    destruct (Z.ltb_spec (second a) (second b));
    destruct (Z.eqb_spec (second a) (second b));
    destruct (Z.ltb_spec (microsecond a) (microsecond b));
    simpl; symmetry;
    first [ apply Z.ltb_lt; lia | apply Z.ltb_ge; lia ].
Qed.

Lemma time_leb_micros a b :
  valid_time a -> valid_time b ->
  time_leb a b = (micros_of_day a <=? micros_of_day b).
Proof.
  intros Ha Hb. unfold time_leb. rewrite (time_ltb_micros a b Ha Hb).
  unfold valid_time, time_eqb, micros_of_day in *.
  destruct Ha as (Ha1 & Ha2 & Ha3 & Ha4), Hb as (Hb1 & Hb2 & Hb3 & Hb4).
  destruct (Z.eqb_spec (hour a) (hour b));
    destruct (Z.eqb_spec (minute a) (minute b));
    destruct (Z.eqb_spec (second a) (second b));
    destruct (Z.eqb_spec (microsecond a) (microsecond b));
    simpl;
    match goal with
    | |- (?x <? ?y) || _ = _ => destruct (Z.ltb_spec x y)
    end;
    simpl; symmetry;
    first [ apply Z.leb_le; lia | apply Z.leb_gt; lia ].
Qed.

Lemma time_of_valid t : valid_time (time_of t).
Proof.
  unfold valid_time, time_of; simpl.
  pose proof (Z.mod_pos_bound t 86400000000 ltac:(lia)) as Hd.
  repeat split;
    try (apply Z.mod_pos_bound; lia);
    try (apply Z.div_pos; lia);
    try (apply Z.div_lt_upper_bound; lia).
Qed.

(** The time of day of an instant is the instant modulo one day. *)
Lemma micros_of_day_time_of t :
  micros_of_day (time_of t) = t mod 86400000000.
Proof.
  unfold micros_of_day, time_of; simpl.
  set (us := t mod 86400000000).
  pose proof (Z.mod_pos_bound t 86400000000 ltac:(lia)) as Hd; fold us in Hd.
  Z.to_euclidean_division_equations; lia.
Qed.

Lemma run_is_quiet_hours config env w :
  run env (_is_quiet_hours config) w
  = (Ok (quiet_at config (clock env (ticks w))), tick 1 w).
Proof.
  unfold _is_quiet_hours, quiet_at; simpl.
  destruct (time_ltb _ _); reflexivity.
Qed.

(** The window of the quiet hours on microseconds since midnight. *)
Lemma quiet_at_window config t :
  valid_time (quiet_hours_start (schedule config)) ->
  valid_time (quiet_hours_end (schedule config)) ->
  let start := micros_of_day (quiet_hours_start (schedule config)) in
  let end_ := micros_of_day (quiet_hours_end (schedule config)) in
  let now := t mod 86400000000 in
  (start < end_ -> (quiet_at config t = true <-> start <= now <= end_)) /\
  (start >= end_ ->
   (quiet_at config t = true <-> now >= start \/ now <= end_)).
Proof.
  intros Hs He start end_ now. unfold quiet_at; cbv zeta.
  pose proof (time_of_valid t) as Hn.
  rewrite (time_ltb_micros _ _ Hs He), !(time_leb_micros _ _ Hs Hn),
    !(time_leb_micros _ _ Hn He), micros_of_day_time_of.
  fold start end_ now.
  split; intros Hlt.
  - destruct (Z.ltb_spec start end_); [| lia].
    rewrite andb_true_iff, !Z.leb_le; tauto.
  - destruct (Z.ltb_spec start end_); [lia |].
    rewrite orb_true_iff, !Z.leb_le; split; intros [H' | H']; lia.
Qed.

(* ------------------------------------------------------------------ *)
(** ** The gate *)

Lemma run_reset_counters env w :
  run env _reset_counters w =
  (Ok tt, {| self := reset_day (clock env (ticks w))
                       (reset_hour (clock env (ticks w)) (self w));
             ticks := S (ticks w); logged := logged w |}).
Proof.
  unfold _reset_counters, reset_day, reset_hour; run_cbn.
  destruct (td_hours 1 <=? _); run_cbn;
    destruct (td_days 1 <=? _); run_cbn; reflexivity.
Qed.

(** The gate reads the clock, resets the counters whose window has gone
    by, and only then applies its checks; it never raises, and it leaves on
    the coordinator nothing but the reset.  Its last clock reading is the
    one the quiet hours are checked at, when it gets that far. *)
Lemma run_should_execute config env w :
  let now := clock env (ticks w) in
  let c := reset_day now (reset_hour now (self w)) in
  exists b n new,
    run env (_should_execute config) w =
    (Ok b, {| self := c; ticks := S n + ticks w;
              logged := logged w ++ new |}) /\
    gate_outcome config c (clock env (n + ticks w)) b new.
Proof.
  intros now c. unfold _should_execute.
  rewrite run_bind, run_reset_counters. fold now; fold c. run_cbn.
  destruct (Z.leb_spec (max_daily_videos (batch config))
              (daily_video_count c)) as [Hd | Hd].
  { exists false, 0%nat; eexists; split; [reflexivity |].
    constructor; assumption. }
  destruct (Z.leb_spec (max_hourly_videos (batch config))
              (hourly_video_count c)) as [Hh | Hh].
  { exists false, 0%nat; eexists; split; [reflexivity |].
    constructor; assumption. }
  assert (Hquiet : forall k,
    exists b new,
      run env
        (quiet <- _is_quiet_hours config ;;
         if quiet : bool
         then log LogQuietHours ;; Ret false
         else Ret true)%prog
        {| self := c; ticks := k; logged := logged w |} =
      (Ok b, {| self := c; ticks := S k; logged := logged w ++ new |}) /\
      gate_outcome config c (clock env k) b new).
  { intros k. rewrite run_bind, run_is_quiet_hours. cbn [ticks].
    destruct (quiet_at config (clock env k)) eqn:Q.
    - exists false; eexists; split; [reflexivity |].
      constructor; assumption.
    - exists true, []; split; [| constructor; assumption].
      cbn; rewrite app_nil_r; reflexivity. }
  destruct (last_execution c) as [last |].
  - run_cbn.
    destruct (clock env (S (ticks w)) - last
              <? td_minutes (api_cooldown_minutes (batch config))).
    + exists false, 1%nat; eexists; split; [reflexivity |].
      constructor; assumption.
    + destruct (Hquiet (S (S (ticks w)))) as (b & new & Hrun & Hout).
      exists b, 2%nat, new; split; [exact Hrun | exact Hout].
  - destruct (Hquiet (S (ticks w))) as (b & new & Hrun & Hout).
    exists b, 1%nat, new; split; [exact Hrun | exact Hout].
Qed.

Lemma reset_hourly_fields now c :
  hourly_video_count (reset_day now (reset_hour now c))
    = (if td_hours 1 <=? now - last_hour_reset c
       then 0 else hourly_video_count c) /\
  last_hour_reset (reset_day now (reset_hour now c))
    = (if td_hours 1 <=? now - last_hour_reset c
       then now else last_hour_reset c).
Proof.
  unfold reset_day, reset_hour.
  destruct (td_hours 1 <=? now - last_hour_reset c);
    match goal with |- context [if ?b then _ else _] => destruct b end;
    split; reflexivity.
Qed.

Lemma reset_daily_fields now c :
  daily_video_count (reset_day now (reset_hour now c))
    = (if td_days 1 <=? now - last_day_reset c
       then 0 else daily_video_count c) /\
  last_day_reset (reset_day now (reset_hour now c))
    = (if td_days 1 <=? now - last_day_reset c
       then now else last_day_reset c).
Proof.
  unfold reset_day, reset_hour.
  destruct (td_hours 1 <=? now - last_hour_reset c); run_cbn;
    destruct (td_days 1 <=? now - last_day_reset c);
    split; reflexivity.
Qed.

Lemma reset_other_fields now c :
  current_batch (reset_day now (reset_hour now c)) = current_batch c /\
  execution_history (reset_day now (reset_hour now c))
    = execution_history c /\
  last_execution (reset_day now (reset_hour now c)) = last_execution c.
Proof.
  unfold reset_day, reset_hour.
  destruct (td_hours 1 <=? now - last_hour_reset c); run_cbn;
    destruct (td_days 1 <=? now - last_day_reset c);
    repeat split; reflexivity.
Qed.

(* ------------------------------------------------------------------ *)
(** ** The decider *)

(** A forced count is answered with [min(force_count, max_videos)] and
    nothing else happens: no clock reading, no log line, no call of the
    agent, whatever the agent is. *)
Lemma forced_count_is_min config ask env w platforms niche n :
  run env (_determine_batch_size config ask (Some n) platforms niche) w
  = (Ok (Z.min n (max_videos (batch config))), w).
Proof. reflexivity. Qed.

(** A forced count that is not negative is clamped into [0, max_videos]. *)
Lemma forced_count_in_range config n :
  0 <= n -> 0 <= max_videos (batch config) ->
  0 <= Z.min n (max_videos (batch config)) <= max_videos (batch config).
Proof. lia. Qed.

Lemma last_n_suffix (A : Type) (n : nat) (l : list A) :
  exists older, l = older ++ last_n n l.
Proof.
  exists (firstn (List.length l - n) l).
  unfold last_n; symmetry; apply firstn_skipn.
Qed.

Lemma last_n_length (A : Type) (n : nat) (l : list A) :
  List.length (last_n n l) = Nat.min n (List.length l).
Proof. unfold last_n; rewrite length_skipn; lia. Qed.

Lemma run_get_recent_performance env w :
  run env _get_recent_performance w =
  (Ok match execution_history (self w) with
      | [] => NoPerformance
      | _ =>
          let recent := last_n 10 (execution_history (self w)) in
          RecentPerformance
            (if 0 <? sum_of requested_count recent
             then (inject_Z (sum_of successful_count recent)
                   / inject_Z (sum_of requested_count recent))%Q
             else 0%Q)
            (inject_Z (sum_of requested_count recent)
             / inject_Z (len recent))%Q
            (List.length recent)
      end, w).
Proof.
  unfold _get_recent_performance; simpl.
  destruct (execution_history (self w)); reflexivity.
Qed.

(** The decision of the repository reads the coordinator and the clock
    and changes nothing. *)
Lemma run_ask_agent_for_batch_size config env platforms niche w :
  exists d,
    run env (_ask_agent_for_batch_size config platforms niche) w
      = (Ok d, tick 2 w).
Proof.
  unfold _ask_agent_for_batch_size.
  rewrite run_bind. cbn [get_self trigger run handle fst snd].
  rewrite run_bind, run_get_recent_performance, run_bind.
  cbn [utcnow trigger run handle fst snd].
  rewrite run_try_except. run_cbn. eexists; reflexivity.
Qed.

Lemma run_determine_batch_size config env force platforms niche w :
  exists size n,
    run env
      (_determine_batch_size config (_ask_agent_for_batch_size config)
         force platforms niche) w
      = (Ok size, tick n w).
Proof.
  unfold _determine_batch_size.
  destruct force as [n |]; [exists (Z.min n (max_videos (batch config))), 0%nat;
                            destruct w; reflexivity |].
  destruct (adaptive (batch config) && agent_has_veto config).
  - rewrite run_try_except, run_bind.
    destruct (run_ask_agent_for_batch_size config env platforms niche w)
      as (d & Hd).
    rewrite Hd. exists (batch_size d), 2%nat; reflexivity.
  - exists (default_batch_size (batch config)), 0%nat;
      destruct w; reflexivity.
Qed.

(* ------------------------------------------------------------------ *)
(** ** The executor *)

Ltac loop_goes_on IH G :=
  match goal with
  | |- context [run _ (_execute_videos_loop _ _ _ _ _ ?r) ?w1] =>
      let out := fresh "out" in
      let w' := fresh "w'" in
      let new := fresh "new" in
      let Hrun := fresh "Hrun" in
      let Hself := fresh "Hself" in
      let Hlog := fresh "Hlog" in
      let Hst := fresh "Hst" in
      let Hvs := fresh "Hvs" in
      let Hpl := fresh "Hpl" in
      destruct (IH r w1)
        as (out & w' & new & Hrun & Hself & Hlog & Hst & Hvs & Hpl);
      rewrite Hrun; do 3 eexists;
      (split; [rewrite <- app_assoc; reflexivity |]);
      (split; [exact Hself |]);
      (split; [rewrite Hlog; cbn; rewrite <- !app_assoc; reflexivity |]);
      unfold items_started, item_status in *; rewrite ?flat_map_app;
      cbn [flat_map map app vstatus platform];
      rewrite Hst, Hvs, Hpl, ?G;
      rewrite ?Nat.add_1_r; repeat split
  end.

(** The loop never raises and never touches the coordinator; it appends
    one result per index it goes through, in order, each with the status
    its call gave and the platform its index selects, and logs each item
    it starts. *)
Lemma run_execute_videos_loop config env count platforms niche indices :
  forall results w,
  let went := attempted env (retry_on_failure (batch config)) indices in
  exists out w' new,
    run env
      (_execute_videos_loop config count platforms niche indices results) w
      = (Ok (results ++ out), w') /\
    self w' = self w /\
    logged w' = logged w ++ new /\
    items_started new = map S went /\
    map vstatus out = map (item_status env) went /\
    map platform out =
      map (fun i => nth (i mod List.length platforms)%nat platforms "") went.
Proof.
  induction indices as [| i rest IH]; intros results w; cbv zeta.
  - exists [], w, []; cbn; rewrite !app_nil_r; repeat split.
  - cbn [attempted]. run_cbn.
    destruct (generation env i) as [e |] eqn:G; run_cbn;
      [destruct (retry_on_failure (batch config)); run_cbn |].
    + loop_goes_on IH G.
    + do 3 eexists; split; [reflexivity |]; split; [reflexivity |].
      split; [rewrite <- !app_assoc; reflexivity |].
      unfold items_started, item_status; cbn; rewrite ?G.
      replace (i + 1)%nat with (S i) by lia; repeat split.
    + loop_goes_on IH G.
Qed.

Lemma run_execute_videos config env count platforms niche w :
  let went :=
    attempted env (retry_on_failure (batch config))
      (seq 0 (Z.to_nat count)) in
  exists results w' new,
    run env (_execute_videos config count platforms niche) w
      = (Ok results, w') /\
    self w' = self w /\
    logged w' = logged w ++ new /\
    items_started new = map S went /\
    map vstatus results = map (item_status env) went /\
    map platform results =
      map (fun i =>
             let l := or_list platforms ["tiktok"; "instagram"] in
             nth (i mod List.length l)%nat l "") went.
Proof.
  cbv zeta. unfold _execute_videos. rewrite run_bind. run_cbn.
  match goal with
  | |- context [run env (_execute_videos_loop _ _ ?pl _ ?ix ?r) ?w1] =>
      destruct (run_execute_videos_loop config env count pl niche ix r w1)
        as (out & w' & new & Hrun & Hself & Hlog & Hst & Hvs & Hpl)
  end.
  rewrite Hrun. exists out, w'; eexists.
  split; [reflexivity |]. split; [exact Hself |].
  split; [rewrite Hlog; cbn; rewrite <- app_assoc; reflexivity |].
  cbn. auto.
Qed.

Lemma attempted_continue env indices : attempted env true indices = indices.
Proof.
  induction indices as [| i rest IH]; cbn; [reflexivity |].
  destruct (generation env i); rewrite IH; reflexivity.
Qed.

(** Without continuation the loop goes through the indices up to the first
    failing one and no further. *)
Lemma attempted_abort env k e :
  (forall i, (i < k)%nat -> generation env i = None) ->
  generation env k = Some e ->
  forall n s j, (s + j = k)%nat -> (j < n)%nat ->
    attempted env false (seq s n) = seq s (S j).
Proof.
  intros Hbefore Hk n; induction n as [| n IH]; intros s j Hs Hj; [lia |].
  cbn [seq attempted]. destruct j as [| j].
  - replace s with k by lia. rewrite Hk. reflexivity.
  - rewrite (Hbefore s) by lia. rewrite (IH (S s) j) by lia. reflexivity.
Qed.

Lemma attempted_no_failure env retry indices :
  (forall i, In i indices -> generation env i = None) ->
  attempted env retry indices = indices /\
  map (item_status env) indices
    = repeat "success" (List.length indices).
Proof.
  induction indices as [| i rest IH]; intros Hall; cbn;
    [split; reflexivity |].
  destruct IH as [IHa IHs]; [intros j Hj; apply Hall; right; exact Hj |].
  unfold item_status at 1.
  rewrite (Hall i (or_introl eq_refl)), IHa, IHs. split; reflexivity.
Qed.

Lemma attempted_all_return env retry indices :
  (forall i, generation env i = None) ->
  attempted env retry indices = indices /\
  map (item_status env) indices
    = repeat "success" (List.length indices).
Proof.
  intros Hall. apply attempted_no_failure. intros i _. apply Hall.
Qed.

Lemma item_status_before_failure env k e :
  (forall i, (i < k)%nat -> generation env i = None) ->
  generation env k = Some e ->
  map (item_status env) (seq 0 (S k)) = repeat "success" k ++ ["failed"].
Proof.
  intros Hbefore Hk. rewrite seq_S, map_app. cbn. unfold item_status at 2.
  rewrite Hk. f_equal.
  assert (H : forall n s, (s + n <= k)%nat ->
            map (item_status env) (seq s n) = repeat "success" n).
  { induction n as [| n IH]; intros s Hs; cbn; [reflexivity |].
    unfold item_status at 1. rewrite (Hbefore s) by lia.
    rewrite IH by lia. reflexivity. }
  apply H; lia.
Qed.

(* ------------------------------------------------------------------ *)
(** ** The result compiler *)

Lemma count_status_nonneg s results : 0 <= count_status s results.
Proof.
  unfold count_status, sum_of.
  induction (filter _ results) as [| r l IH]; cbn [map fold_right]; lia.
Qed.

Lemma count_status_count_in x results :
  count_status x results = count_in x (map vstatus results).
Proof.
  unfold count_status, count_in, sum_of.
  induction results as [| r l IH]; cbn [map filter]; [reflexivity |].
  destruct (String.eqb (vstatus r) x); cbn [map fold_right]; rewrite IH;
    reflexivity.
Qed.

Lemma count_in_app x l1 l2 :
  count_in x (l1 ++ l2) = count_in x l1 + count_in x l2.
Proof.
  unfold count_in, sum_of. rewrite filter_app, map_app, fold_right_app.
  induction (map (fun _ => 1) (filter (fun s => String.eqb s x) l1))
    as [| a l IH]; cbn [fold_right]; lia.
Qed.

Lemma count_in_repeat x y n :
  count_in x (repeat y n) = if String.eqb y x then Z.of_nat n else 0.
Proof.
  unfold count_in, sum_of. induction n as [| n IH];
    [destruct (String.eqb y x); reflexivity |].
  cbn [repeat filter].
  destruct (String.eqb y x) eqn:E; cbn [map fold_right]; rewrite IH; lia.
Qed.

(** Every pair of a number of successes and a number of failures is the
    outcome of some list of results, so the classification is exercised
    on every triple. *)
Lemma every_outcome_has_results (successful failed : nat) :
  exists results,
    count_status "success" results = Z.of_nat successful /\
    count_status "failed" results = Z.of_nat failed.
Proof.
  pose (item s := {| video_id := None; platform := "tiktok";
                     niche := "general"; vstatus := s; error := None;
                     generation_time := 0; metadata := [] |}).
  exists (map item (repeat "success" successful ++ repeat "failed" failed)).
  rewrite !count_status_count_in, map_map, map_id.
  rewrite !count_in_app, !count_in_repeat. cbn. split; lia.
Qed.

Lemma count_in_successes k :
  count_in "success" (repeat "success" k ++ ["failed"]) = Z.of_nat k /\
  count_in "failed" (repeat "success" k ++ ["failed"]) = 1.
Proof.
  unfold count_in, sum_of.
  induction k as [| k [IHs IHf]]; [split; reflexivity |].
  cbn [repeat app filter String.eqb Ascii.eqb Bool.eqb map fold_right].
  rewrite IHs, IHf. split; lia.
Qed.

Lemma count_in_all_successes n :
  count_in "success" (repeat "success" n) = Z.of_nat n.
Proof.
  unfold count_in, sum_of. induction n as [| n IH]; [reflexivity |].
  cbn [repeat filter String.eqb Ascii.eqb Bool.eqb map fold_right].
  rewrite IH; lia.
Qed.

Lemma count_in_no_failure n : count_in "failed" (repeat "success" n) = 0.
Proof.
  unfold count_in, sum_of. induction n as [| n IH]; [reflexivity |].
  cbn [repeat filter String.eqb Ascii.eqb Bool.eqb map fold_right].
  exact IH.
Qed.

Lemma len_map_vstatus results : len results = len (map vstatus results).
Proof. unfold len; rewrite length_map; reflexivity. Qed.

Lemma run_compile_batch_result env bid requested results start w :
  exists r,
    run env (_compile_batch_result bid requested results start) w
      = (Ok r, tick 2 w) /\
    batch_id r = bid /\
    requested_count r = requested /\
    successful_count r = count_status "success" results /\
    failed_count r = count_status "failed" results /\
    skipped_count r = requested - len results /\
    videos r = results /\
    agent_decision r = [] /\
    status r =
      (if count_status "success" results =? requested then COMPLETED
       else if 0 <? count_status "success" results then PARTIAL
       else if 0 <? count_status "failed" results then FAILED
       else SKIPPED).
Proof.
  eexists; split; [reflexivity |]; simpl; repeat split; reflexivity.
Qed.

(** When every generation call returns, a batch of a positive size is
    compiled COMPLETED with that many successes. *)
Lemma all_items_succeed config env size platforms niche bid start w
    results wv r :
  (forall i, generation env i = None) ->
  0 < size ->
  run env (_execute_videos config size platforms niche) w
    = (Ok results, wv) ->
  run env (_compile_batch_result bid size results start) wv
    = (Ok r, tick 2 wv) ->
  successful_count r = size /\ status r = COMPLETED.
Proof.
  intros Hall Hpos Hvid Hcomp.
  destruct (run_execute_videos config env size platforms niche w)
    as (results' & wv' & new & Hvid' & _ & _ & _ & Hvs & _).
  rewrite Hvid in Hvid'; injection Hvid' as <- <-.
  destruct (run_compile_batch_result env bid size results start wv)
    as (r' & Hcomp' & _ & _ & Hsucc & _ & _ & _ & _ & Hstat).
  rewrite Hcomp in Hcomp'; injection Hcomp' as <-.
  destruct (attempted_all_return env (retry_on_failure (batch config))
              (seq 0 (Z.to_nat size)) Hall) as [Ha Hs].
  rewrite Ha, Hs, length_seq in Hvs.
  assert (Hcount : count_status "success" results = size).
  { rewrite count_status_count_in, Hvs, count_in_all_successes; lia. }
  rewrite Hstat, Hsucc, Hcount, Z.eqb_refl. split; reflexivity.
Qed.

(* ------------------------------------------------------------------ *)
(** ** The cycle *)

Lemma run_update_metrics env result w :
  run env (_update_metrics result) w =
  (Ok tt, {| self := recorded (clock env (ticks w)) result (self w);
             ticks := S (ticks w); logged := logged w |}).
Proof.
  unfold _update_metrics, recorded; run_cbn.
  destruct (100 <? len (execution_history (self w) ++ [result]));
    reflexivity.
Qed.

Lemma run_create_skipped_result env bid reason w :
  run env (_create_skipped_result bid reason) w =
  (Ok (skipped_result bid reason (clock env (ticks w))), tick 1 w).
Proof. reflexivity. Qed.

(** [execute_batch] returns what its [try] block returns, or the failed
    result its handler builds from an exception of class [Exception]; an
    exception outside that class goes through it.  In all three cases its
    [finally] has cleared the batch id. *)
Lemma run_execute_batch config memory ask store env platforms niche force w :
  let bid := batch_id_of (clock env (ticks w)) in
  let start := clock env (S (ticks w)) in
  run env (execute_batch config memory ask store platforms niche force) w =
  match run env
          (execute_batch_body config memory ask store bid start
             platforms niche force)
          (entered env w) with
  | (Ok r, w1) => (Ok r, cleared w1)
  | (Raise e, w1) =>
      (Ok (failed_result bid e (clock env (ticks w1) - start)
             (clock env (S (ticks w1)))),
       cleared (tick 2 (with_log (LogBatchFailed bid e) w1)))
  | (Escaped e, w1) => (Escaped e, cleared w1)
  end.
Proof.
  cbv zeta. unfold execute_batch.
  cbn -[execute_batch_body batch_id_of Z.sub].
  rewrite run_try_finally, run_try_except.
  unfold entered.
  destruct (run env (execute_batch_body _ _ _ _ _ _ _ _ _) _)
    as [[r | e | e] w1]; reflexivity.
Qed.

(** The [try] block, path by path. *)
Lemma run_execute_batch_body
    config memory ask store env bid start platforms niche force w :
  forall proceed wg,
    run env (_should_execute config) w = (Ok proceed, wg) ->
    (proceed = false ->
     run env
       (execute_batch_body config memory ask store bid start
          platforms niche force) w
     = (Ok (skipped_result bid "Rate limit or quiet hours"
              (clock env (ticks wg))), tick 1 wg)) /\
    (proceed = true ->
     forall size ws,
       run env (_determine_batch_size config ask force platforms niche) wg
         = (Ok size, ws) ->
       (size = 0 ->
        run env
          (execute_batch_body config memory ask store bid start
             platforms niche force) w
        = (Ok (skipped_result bid "Agent vetoed execution"
                 (clock env (ticks ws))), tick 1 ws)) /\
       (size <> 0 ->
        exists results wv r,
          run env (_execute_videos config size platforms niche)
              (with_log (LogBatchSize size) ws) = (Ok results, wv) /\
          run env (_compile_batch_result bid size results start) wv
            = (Ok r, tick 2 wv) /\
          run env
            (execute_batch_body config memory ask store bid start
               platforms niche force) w
          = match
              run env (if memory then store r else Ret tt)
                {| self := recorded (clock env (S (S (ticks wv)))) r (self wv);
                   ticks := S (S (S (ticks wv))); logged := logged wv |}
            with
            | (Ok _, wm) =>
                (Ok r,
                 with_log (LogBatchCompleted bid (successful_count r)
                             (requested_count r)) wm)
            | (Raise e, wm) => (Raise e, wm)
            | (Escaped e, wm) => (Escaped e, wm)
            end)).
Proof.
  intros proceed wg Hgate. unfold execute_batch_body.
  rewrite run_bind, Hgate. split.
  - intros ->. reflexivity.
  - intros -> size ws Hsize. cbn [negb].
    rewrite run_bind, Hsize. split.
    + intros ->. reflexivity.
    + intros Hne. destruct (Z.eqb_spec size 0) as [| _]; [contradiction |].
      rewrite run_bind. cbn [log trigger run handle fst snd].
      fold (with_log (LogBatchSize size) ws).
      destruct (run_execute_videos config env size platforms niche
                  (with_log (LogBatchSize size) ws))
        as (results & wv & new & Hrun & _).
      destruct (run_compile_batch_result env bid size results start wv)
        as (r & Hcomp & _).
      exists results, wv, r.
      split; [exact Hrun |]. split; [exact Hcomp |].
      rewrite run_bind, Hrun, run_bind, Hcomp, run_bind, run_update_metrics.
      rewrite run_bind. cbn [tick self ticks logged Nat.add].
      destruct (run env (if memory then store r else Ret tt) _)
        as [[[] | e | e] wm]; reflexivity.
Qed.

(** No exception of class [Exception] leaves [execute_batch], whatever
    the agent and the store do, and the batch id is cleared however it is
    left. *)
Lemma execute_batch_outcome
    config memory ask store env platforms niche force w :
  exists out w',
    run env (execute_batch config memory ask store platforms niche force) w
      = (out, w') /\
    (forall e, out <> Raise e) /\
    current_batch (self w') = None.
Proof.
  rewrite run_execute_batch.
  destruct (run env (execute_batch_body _ _ _ _ _ _ _ _ _) _)
    as [[r | e | e] w1]; do 2 eexists;
    (split; [reflexivity |]); (split; [discriminate | reflexivity]).
Qed.

(** A scheduled fire logs what the cycle returned and returns; what goes
    through the cycle goes through the fire as well. *)
Lemma run_default_scheduled_job config memory ask store env w :
  run env (_default_scheduled_job config memory ask store) w =
  match run env (execute_batch config memory ask store None None None)
          (with_log LogScheduledTriggered w) with
  | (Ok r, w1) =>
      (Ok tt,
       with_log (LogScheduledCompleted (status r) (successful_count r)
                   (requested_count r)) w1)
  | (Raise e, w1) => (Ok tt, with_log (LogScheduledFailed e) w1)
  | (Escaped e, w1) => (Escaped e, w1)
  end.
Proof.
  unfold _default_scheduled_job.
  rewrite run_try_except, run_bind. cbn [log trigger run handle fst snd].
  fold (with_log LogScheduledTriggered w). rewrite run_bind.
  destruct (run env (execute_batch _ _ _ _ _ _ _) _) as [[r | e | e] w1];
    reflexivity.
Qed.

(* ------------------------------------------------------------------ *)
(** ** C1: the classification of a compiled batch *)

(** C1, as stated, fails on the triple (0, 0, 0): compiling an empty result
    list for zero requested items gives COMPLETED, where the table of the
    specification asks for SKIPPED. *)
Lemma C1_zero_requested_is_completed :
  exists r w',
    run (noon_clock 1) (_compile_batch_result (batch_ 0) 0 [] 0) fresh_world
      = (Ok r, w') /\
    successful_count r + failed_count r <= requested_count r /\
    status r = COMPLETED /\
    ~ spec_status_table (requested_count r) (successful_count r)
        (failed_count r) (status r).
Proof.
  do 2 eexists; split; [reflexivity |]; simpl.
  split; [vm_compute; discriminate |]; split; [reflexivity |].
  intros (_ & _ & _ & H); discriminate H; split; reflexivity.
Qed.

(** C1 (amended): for every triple (requested, successful, failed) with
    requested > 0 and successful + failed <= requested, and every result
    list with that many successes and failures, the compiled status is the
    one of the table: COMPLETED when successful = requested, PARTIAL when
    0 < successful < requested, FAILED when successful = 0 < failed,
    SKIPPED when successful = failed = 0. *)
Theorem C1_compiled_status_matches_table :
  forall env w bid start requested successful failed results,
    count_status "success" results = successful ->
    count_status "failed" results = failed ->
    0 < requested ->
    successful + failed <= requested ->
    exists r w',
      run env (_compile_batch_result bid requested results start) w
        = (Ok r, w') /\
      requested_count r = requested /\
      successful_count r = successful /\
      failed_count r = failed /\
      spec_status_table requested successful failed (status r).
Proof.
  intros env w bid start requested successful failed results Hs Hf Hr Hle.
  destruct (run_compile_batch_result env bid requested results start w)
    as (r & Hrun & _ & Hreq & Hsucc & Hfail & _ & _ & _ & Hst).
  exists r, (tick 2 w); repeat split; try congruence.
  - intros [E _]. rewrite Hst, Hs, E, Z.eqb_refl; reflexivity.
  - intros [H0 H1]. rewrite Hst, Hs.
    destruct (Z.eqb_spec successful requested); [lia |].
    destruct (Z.ltb_spec 0 successful); [reflexivity | lia].
  - intros [E H0]. rewrite Hst, Hs, Hf, E.
    destruct (Z.eqb_spec 0 requested); [lia |]. simpl.
    destruct (Z.ltb_spec 0 failed); [reflexivity | lia].
  - intros [E H0]. rewrite Hst, Hs, Hf, E, H0.
    destruct (Z.eqb_spec 0 requested); [lia | reflexivity].
Qed.

Lemma C1_compiled_status_matches_table_witness :
  exists r w',
    run (noon_clock 1)
        (_compile_batch_result (batch_ 0) 3
           [ {| video_id := None; platform := "tiktok"; niche := "general";
                vstatus := "success"; error := None; generation_time := 0;
                metadata := [] |};
             {| video_id := None; platform := "instagram";
                niche := "general"; vstatus := "failed";
                error := Some "boom"; generation_time := 0;
                metadata := [] |} ] 0)
        fresh_world
      = (Ok r, w') /\
    requested_count r = 3 /\
    successful_count r = 1 /\
    failed_count r = 1 /\
    spec_status_table 3 1 1 (status r).
Proof.
  apply C1_compiled_status_matches_table;
    [reflexivity | reflexivity | lia | lia].
Defined.

(* ------------------------------------------------------------------ *)
(** ** C2: single flight *)

(** C2, as stated, fails: after a first trigger the cycle is suspended at
    its first generation call with its batch id set; a second trigger
    served at that moment starts a second cycle, and both are in flight.
    When the first cycle has been resumed to its end, its [finally] clears
    the batch id although the second cycle is still in flight. *)
Lemma C2_two_cycles_in_flight :
  let step := loop_steps DEFAULT_CONFIG false (noon_clock 1) in
  let s1 := step [Trigger None None None]
              (initial_system (at_hms 12 0 0) (at_hms 12 0 0)) in
  let s2 := step [Trigger None None None] s1 in
  let s3 := step [Resume 0 None; Resume 0 None; Resume 0 None] s2 in
  List.length (in_flight s1) = 1%nat /\
  current_batch (self (world s1)) = Some (batch_ 43200) /\
  List.length (in_flight s2) = 2%nat /\
  returned s2 = [] /\
  ~ spec_single_flight s2 /\
  List.length (in_flight s3) = 1%nat /\
  List.length (returned s3) = 1%nat /\
  current_batch (self (world s3)) = None.
Proof.
  cbv zeta. vm_compute.
  repeat split; try reflexivity.
  intros H; apply Nat.leb_le in H; discriminate H.
Qed.

Lemma set_current_batch_twice a b c :
  set_current_batch a (set_current_batch b c) = set_current_batch a c.
Proof. reflexivity. Qed.

(** C2 (amended): a trigger is served in the same way whether or not a
    cycle is in progress.  [execute_batch] does not read the current batch
    id before it overwrites it and knows nothing of the cycles in flight:
    the trigger is neither rejected nor made to wait, it leaves the
    coordinator, the clock and the log exactly as it would in an idle
    system, and the cycle it starts there is started here too, beside the
    cycles already in flight. *)
Theorem C2_trigger_served_as_if_idle :
  forall config memory env s platforms niche force,
    let serve := loop_step config memory env (Trigger platforms niche force) in
    world (serve s) = world (serve (idle s)) /\
    in_flight (serve s) = in_flight s ++ in_flight (serve (idle s)) /\
    returned (serve s) = returned (serve (idle s)).
Proof.
  intros config memory env s platforms niche force serve.
  unfold serve, loop_step, AntigravityScheduler_manual_trigger,
    manual_trigger, execute_batch, idle.
  cbn -[execute_batch_body batch_id_of settle].
  rewrite !set_current_batch_twice.
  match goal with
  | |- context [settle _ _ _ ?x] => set (pw := x)
  end.
  unfold settle. destruct (fst pw); cbn; rewrite ?app_nil_r; auto.
Qed.

(* ------------------------------------------------------------------ *)
(** ** C3: the failure policy of the executor *)

(** C3: run a batch of count items and compile it.  If the
    continue-on-failure flag is false and the first failing item has index
    k (item k+1 of the batch), the items started are exactly items 1 to
    k+1, the compiled result holds the k successes followed by the one
    failure, skippedCount is count - (k+1), failedCount is 1 (the items
    never attempted are not counted as failed), and the status is PARTIAL
    (FAILED when k = 0).  If the flag is true, all count items are started
    and compiled, each with the status of its own call, and none is
    skipped.  When no item fails all count items are successes under
    either flag. *)
Theorem C3_failure_policy :
  forall config env w bid start count platforms niche,
    exists r w' new,
      run env
        (results <- _execute_videos config count platforms niche ;;
         _compile_batch_result bid count results start)%prog w
        = (Ok r, w') /\
      logged w' = logged w ++ new /\
      requested_count r = count /\
      (retry_on_failure (batch config) = false ->
       forall k e,
         Z.of_nat k < count ->
         (forall i, (i < k)%nat -> generation env i = None) ->
         generation env k = Some e ->
         items_started new = seq 1 (S k) /\
         map vstatus (videos r) = repeat "success" k ++ ["failed"] /\
         skipped_count r = count - (Z.of_nat k + 1) /\
         failed_count r = 1 /\
         successful_count r = Z.of_nat k /\
         status r = (if Nat.eqb k 0 then FAILED else PARTIAL)) /\
      (retry_on_failure (batch config) = true ->
       items_started new = seq 1 (Z.to_nat count) /\
       map vstatus (videos r)
         = map (item_status env) (seq 0 (Z.to_nat count)) /\
       (0 <= count -> skipped_count r = 0)) /\
      ((forall i, Z.of_nat i < count -> generation env i = None) ->
       items_started new = seq 1 (Z.to_nat count) /\
       map vstatus (videos r) = repeat "success" (Z.to_nat count) /\
       failed_count r = 0 /\
       (0 <= count -> skipped_count r = 0)).
Proof.
  intros config env w bid start count platforms niche.
  destruct (run_execute_videos config env count platforms niche w)
    as (results & w1 & new & Hrun & _ & Hlog & Hst & Hvs & _).
  destruct (run_compile_batch_result env bid count results start w1)
    as (r & Hcomp & _ & Hreq & Hsucc & Hfailed & Hskip & Hvid & _ & Hstat).
  rewrite run_bind, Hrun, Hcomp.
  exists r, (tick 2 w1), new.
  split; [reflexivity |]. split; [exact Hlog |]. split; [exact Hreq |].
  rewrite Hvid, Hskip, Hfailed, Hsucc, Hstat, len_map_vstatus,
    !count_status_count_in, Hvs, Hst.
  split; [| split].
  - intros -> k e Hk Hbefore Hfail.
    rewrite (attempted_abort env k e Hbefore Hfail (Z.to_nat count)
               0%nat k) by lia.
    rewrite seq_shift, (item_status_before_failure env k e Hbefore Hfail).
    destruct (count_in_successes k) as [Hs Hf]. rewrite Hs, Hf.
    split; [reflexivity |]. split; [reflexivity |].
    split; [unfold len; rewrite length_app, repeat_length; cbn; lia |].
    split; [reflexivity |]. split; [reflexivity |].
    destruct (Z.eqb_spec (Z.of_nat k) count); [lia |].
    destruct k; cbn; [reflexivity |].
    destruct (Z.ltb_spec 0 (Z.pos (Pos.of_succ_nat k))); [reflexivity | lia].
  - intros ->. rewrite attempted_continue, seq_shift.
    split; [reflexivity |]. split; [reflexivity |].
    intros Hpos. unfold len; rewrite length_map, length_seq; lia.
  - intros Hall.
    destruct (attempted_no_failure env (retry_on_failure (batch config))
                (seq 0 (Z.to_nat count))) as [Ha Hs].
    { intros i Hi. apply in_seq in Hi. apply Hall. lia. }
    rewrite Ha, Hs, length_seq, seq_shift.
    split; [reflexivity |]. split; [reflexivity |].
    split; [apply count_in_no_failure |].
    intros Hpos. unfold len; rewrite repeat_length; lia.
Qed.

(** The scenario of the specification: three items requested, the second
    failing, no continuation: the items are [success, failed], one item is
    skipped, the batch is PARTIAL. *)
Lemma C3_failure_policy_witness :
  exists r w' new,
    run second_item_fails
      (results <- _execute_videos abort_on_failure 3 None None ;;
       _compile_batch_result (batch_ 43200) 3 results (at_hms 12 0 0))%prog
      fresh_world
      = (Ok r, w') /\
    logged w' = logged fresh_world ++ new /\
    items_started new = [1; 2]%nat /\
    map vstatus (videos r) = ["success"; "failed"] /\
    skipped_count r = 1 /\
    failed_count r = 1 /\
    successful_count r = 1 /\
    status r = PARTIAL.
Proof.
  destruct (C3_failure_policy abort_on_failure second_item_fails fresh_world
              (batch_ 43200) (at_hms 12 0 0) 3 None None)
    as (r & w' & new & Hrun & Hlog & _ & Habort & _).
  exists r, w', new. split; [exact Hrun |]. split; [exact Hlog |].
  apply (Habort eq_refl 1%nat "provider error");
    [lia | intros [| i] Hi; [reflexivity | lia] | reflexivity].
Defined.

(* ------------------------------------------------------------------ *)
(** ** C4: the forced count *)

(** C4: a forced count is to be clamped to [0, maxVideos].  The code takes
    the minimum with [max_videos] only: with the default configuration the
    forced count -1 is used as the batch size -1, and the cycle compiles,
    records and returns a batch of -1 requested and -1 skipped items. *)
Theorem C4_negative_forced_count_is_used :
  run (noon_clock 1)
      (_determine_batch_size DEFAULT_CONFIG
         (_ask_agent_for_batch_size DEFAULT_CONFIG) (Some (-1)) None None)
      fresh_world
    = (Ok (-1), fresh_world) /\
  ~ (0 <= -1 <= max_videos (batch DEFAULT_CONFIG)) /\
  exists r w',
    run (noon_clock 1)
        (BatchCoordinator_execute_batch DEFAULT_CONFIG false
           None None (Some (-1)))
        fresh_world
      = (Ok r, w') /\
    requested_count r = -1 /\
    skipped_count r = -1 /\
    videos r = [] /\
    execution_history (self w') = [r].
Proof.
  split; [reflexivity |]; split; [simpl; lia |].
  do 2 eexists; split; [vm_compute; reflexivity |].
  repeat split; reflexivity.
Qed.

(** The scenario of the specification: 7 forced with a maximum of 5 runs
    5 items. *)
Example forced_7_of_5 :
  exists r w',
    run (noon_clock 1)
        (BatchCoordinator_execute_batch DEFAULT_CONFIG false
           None None (Some 7))
        fresh_world
      = (Ok r, w') /\
    requested_count r = 5 /\ successful_count r = 5 /\ status r = COMPLETED.
Proof.
  do 2 eexists; split; [vm_compute; reflexivity |].
  repeat split; reflexivity.
Qed.

(* ------------------------------------------------------------------ *)
(** ** C5: the agent fails to decide *)

(** C5, as stated, fails on the rationale: with an agent that raises, the
    cycle runs the default batch of 3 items, and the rationale of the
    result it returns is empty. *)
Lemma C5_fallback_leaves_rationale_empty :
  exists r w',
    run (noon_clock 1)
        (execute_batch DEFAULT_CONFIG false failing_agent _store_batch_result
           None None None)
        fresh_world
      = (Ok r, w') /\
    requested_count r = 3 /\
    successful_count r = 3 /\
    agent_decision r = [] /\
    In (LogAgentDecisionFailed "agent unavailable") (logged w').
Proof.
  do 2 eexists; split; [vm_compute; reflexivity |].
  repeat split. cbn; auto.
Qed.

(** C5 (amended): in adaptive mode with the agent's veto enabled, when the
    gate lets the cycle pass and the agent's decision call raises e, the
    cycle does not abort: the batch size is the default batch size of the
    configuration, and (for a default size other than 0 and a store that
    does not raise) the cycle returns the compiled result of a batch of
    that size; when every generation call returns, all of them are
    successes.  The reason e is written to the log only: the rationale of
    the returned result is empty. *)
Theorem C5_agent_failure_falls_back_to_default :
  forall config memory ask store env w platforms niche e w1 w2,
    adaptive (batch config) && agent_has_veto config = true ->
    run env (_should_execute config) (entered env w) = (Ok true, w1) ->
    run env (ask platforms niche) w1 = (Raise e, w2) ->
    (forall r w0, exists w0', run env (store r) w0 = (Ok tt, w0')) ->
    default_batch_size (batch config) <> 0 ->
    run env (_determine_batch_size config ask None platforms niche) w1
      = (Ok (default_batch_size (batch config)),
         with_log (LogAgentDecisionFailed e) w2) /\
    exists r w',
      run env (execute_batch config memory ask store platforms niche None) w
        = (Ok r, w') /\
      requested_count r = default_batch_size (batch config) /\
      agent_decision r = [] /\
      In (LogAgentDecisionFailed e) (logged w') /\
      ((forall i, generation env i = None) ->
       0 < default_batch_size (batch config) ->
       successful_count r = default_batch_size (batch config) /\
       status r = COMPLETED).
Proof.
  intros config memory ask store env w platforms niche e w1 w2
    Hadaptive Hgate Hask Hstore Hne.
  assert (Hsize :
    run env (_determine_batch_size config ask None platforms niche) w1
    = (Ok (default_batch_size (batch config)),
       with_log (LogAgentDecisionFailed e) w2)).
  { unfold _determine_batch_size. rewrite Hadaptive.
    rewrite run_try_except, run_bind, Hask. reflexivity. }
  split; [exact Hsize |].
  set (size := default_batch_size (batch config)) in *.
  set (bid := batch_id_of (clock env (ticks w))).
  set (start := clock env (S (ticks w))).
  destruct (run_execute_batch_body config memory ask store env bid start
              platforms niche None (entered env w) true w1 Hgate)
    as [_ Hpath].
  destruct (Hpath eq_refl size _ Hsize) as [_ Hrest].
  destruct (Hrest Hne) as (results & wv & r & Hvid & Hcomp & Hbody).
  rewrite run_execute_batch. fold bid start. rewrite Hbody.
  destruct (run_compile_batch_result env bid size results start wv)
    as (r' & Hcomp' & _ & Hreq & _ & _ & _ & _ & Hrat & _).
  rewrite Hcomp in Hcomp'; injection Hcomp' as <-.
  destruct (run_keeps_log env _ (_execute_videos config size platforms niche)
              (with_log (LogBatchSize size)
                 (with_log (LogAgentDecisionFailed e) w2)))
    as (new & Hnew).
  rewrite Hvid in Hnew; cbn [snd with_log logged] in Hnew.
  match goal with
  | |- context [run env (if memory then store r else Ret tt) ?w0] =>
      assert (Hmem : exists wm new',
                run env (if memory then store r else Ret tt) w0 = (Ok tt, wm)
                /\ logged wm = logged wv ++ new')
  end.
  { match goal with
    | |- context [run env _ ?w0] =>
        destruct (run_keeps_log env _ (if memory then store r else Ret tt) w0)
          as (new' & Hnew')
    end.
    destruct memory.
    - destruct (Hstore r {| self := recorded (clock env (S (S (ticks wv)))) r
                                      (self wv);
                            ticks := S (S (S (ticks wv)));
                            logged := logged wv |}) as (wm & Hrun).
      rewrite Hrun in Hnew' |- *. exists wm, new'; split; [reflexivity |].
      exact Hnew'.
    - eexists; exists []; split; [reflexivity |].
      cbn; rewrite app_nil_r; reflexivity. }
  destruct Hmem as (wm & new' & Hrun & Hlog). rewrite Hrun.
  do 2 eexists; split; [reflexivity |].
  split; [exact Hreq |]. split; [exact Hrat |]. split.
  - cbn. rewrite Hlog, Hnew. rewrite <- !app_assoc.
    apply in_or_app; right; left; reflexivity.
  - intros Hall Hpos.
    exact (all_items_succeed config env size platforms niche bid start _
             results wv r Hall Hpos Hvid Hcomp).
Qed.

Lemma C5_agent_failure_falls_back_to_default_witness :
  exists r w',
    run (noon_clock 1)
        (execute_batch DEFAULT_CONFIG false failing_agent _store_batch_result
           None None None)
        fresh_world
      = (Ok r, w') /\
    requested_count r = 3 /\
    agent_decision r = [] /\
    In (LogAgentDecisionFailed "agent unavailable") (logged w') /\
    successful_count r = 3 /\
    status r = COMPLETED.
Proof.
  destruct (C5_agent_failure_falls_back_to_default DEFAULT_CONFIG false
              failing_agent _store_batch_result (noon_clock 1) fresh_world
              None None "agent unavailable"
              (snd (run (noon_clock 1) (_should_execute DEFAULT_CONFIG)
                      (entered (noon_clock 1) fresh_world)))
              (snd (run (noon_clock 1) (_should_execute DEFAULT_CONFIG)
                      (entered (noon_clock 1) fresh_world))))
    as (_ & r & w' & Hrun & Hreq & Hrat & Hlog & Hall).
  - reflexivity.
  - vm_compute; reflexivity.
  - reflexivity.
  - intros r w0; eexists; reflexivity.
  - discriminate.
  - exists r, w'. destruct Hall as [Hsucc Hstat];
      [reflexivity | reflexivity |].
    repeat (split; [assumption |]). exact Hstat.
Defined.

(* ------------------------------------------------------------------ *)
(** ** C6: the sliding reset of the counters *)

(** C6: let now be the clock reading of a gate evaluation.  If
    now - hourResetAt >= 1 hour, the evaluation leaves hourlyCount = 0 and
    hourResetAt = now, and the hourly-limit check is applied to the count
    after the reset: the evaluation is stopped by the hourly limit only
    with the count 0 in its log line, which needs a limit of 0 or less.
    The daily counter follows the same rule with a window of one day, and
    on its own: whether or not the hour has gone by.  A counter whose
    window has not gone by is left as it was, with its mark. *)
Theorem C6_reset_before_limit_check :
  forall config env w,
    let now := clock env (ticks w) in
    exists proceed w' new,
      run env (_should_execute config) w = (Ok proceed, w') /\
      logged w' = logged w ++ new /\
      (td_hours 1 <= now - last_hour_reset (self w) ->
       hourly_video_count (self w') = 0 /\
       last_hour_reset (self w') = now /\
       (forall n, In (LogHourlyLimit n) new ->
                  n = 0 /\ max_hourly_videos (batch config) <= 0)) /\
      (td_days 1 <= now - last_day_reset (self w) ->
       daily_video_count (self w') = 0 /\
       last_day_reset (self w') = now /\
       (forall n, In (LogDailyLimit n) new ->
                  n = 0 /\ max_daily_videos (batch config) <= 0)) /\
      (now - last_hour_reset (self w) < td_hours 1 ->
       hourly_video_count (self w') = hourly_video_count (self w) /\
       last_hour_reset (self w') = last_hour_reset (self w)) /\
      (now - last_day_reset (self w) < td_days 1 ->
       daily_video_count (self w') = daily_video_count (self w) /\
       last_day_reset (self w') = last_day_reset (self w)).
Proof.
  intros config env w now.
  destruct (run_should_execute config env w)
    as (b & k & new & Hrun & Hout); fold now in Hrun, Hout.
  destruct (reset_hourly_fields now (self w)) as [Hcount Hmark].
  destruct (reset_daily_fields now (self w)) as [Hdcount Hdmark].
  eexists b, _, new; split; [exact Hrun |]; cbn [self logged].
  split; [reflexivity |].
  rewrite Hcount, Hmark, Hdcount, Hdmark.
  assert (Hlimits :
    (forall n, In (LogHourlyLimit n) new ->
               n = hourly_video_count
                     (reset_day now (reset_hour now (self w))) /\
               max_hourly_videos (batch config) <= n) /\
    (forall n, In (LogDailyLimit n) new ->
               n = daily_video_count
                     (reset_day now (reset_hour now (self w))) /\
               max_daily_videos (batch config) <= n)).
  { split; intros n Hin; inversion Hout; subst new; cbn in Hin;
      try contradiction;
      destruct Hin as [Hin | []]; try discriminate Hin;
      injection Hin as <-; (split; [reflexivity | assumption]). }
  rewrite Hcount, Hdcount in Hlimits. destruct Hlimits as [Hhl Hdl].
  split; [| split; [| split]].
  - intros Hhour.
    destruct (Z.leb_spec (td_hours 1) (now - last_hour_reset (self w)));
      [| lia].
    split; [reflexivity |]. split; [reflexivity |].
    intros n Hin. destruct (Hhl n Hin) as [-> Hle]. split; [reflexivity | lia].
  - intros Hday.
    destruct (Z.leb_spec (td_days 1) (now - last_day_reset (self w)));
      [| lia].
    split; [reflexivity |]. split; [reflexivity |].
    intros n Hin. destruct (Hdl n Hin) as [-> Hle]. split; [reflexivity | lia].
  - intros Hhour.
    destruct (Z.leb_spec (td_hours 1) (now - last_hour_reset (self w)));
      [lia |].
    split; reflexivity.
  - intros Hday.
    destruct (Z.leb_spec (td_days 1) (now - last_day_reset (self w)));
      [lia |].
    split; reflexivity.
Qed.

(** The scenario of the specification: the hour mark 61 minutes in the
    past and 5 videos counted, with the default limit of 8 an hour.  The
    evaluation resets the hourly count to 0, moves the hour mark to now, is
    not stopped by the hourly limit, and leaves the daily count, whose
    window has not gone by.  The same for the day alone: the day mark 25
    hours in the past, the hour mark 30 minutes, and 20 videos counted in
    the day, which is the default daily limit.  The evaluation resets the
    daily count to 0, moves the day mark to now, is not stopped by the
    daily limit, and leaves the hourly count. *)
Lemma C6_reset_before_limit_check_witness :
  (exists proceed w' new,
     run (still_clock (at_hms 12 0 0)) (_should_execute DEFAULT_CONFIG)
         stale_hour_world = (Ok proceed, w') /\
     logged w' = logged stale_hour_world ++ new /\
     hourly_video_count (self w') = 0 /\
     last_hour_reset (self w') = at_hms 12 0 0 /\
     (forall n, ~ In (LogHourlyLimit n) new) /\
     daily_video_count (self w') = 5 /\
     last_day_reset (self w') = at_hms 0 0 0) /\
  (exists proceed w' new,
     run (still_clock (at_hms 36 0 0)) (_should_execute DEFAULT_CONFIG)
         stale_day_world = (Ok proceed, w') /\
     logged w' = logged stale_day_world ++ new /\
     daily_video_count (self w') = 0 /\
     last_day_reset (self w') = at_hms 36 0 0 /\
     (forall n, ~ In (LogDailyLimit n) new) /\
     hourly_video_count (self w') = 3 /\
     last_hour_reset (self w') = at_hms 35 30 0).
Proof.
  split.
  - destruct (C6_reset_before_limit_check DEFAULT_CONFIG
                (still_clock (at_hms 12 0 0)) stale_hour_world)
      as (b & w' & new & Hrun & Hlog & Hhour & _ & _ & Hday).
    destruct Hhour as (Hcount & Hmark & Hlimit); [vm_compute; discriminate |].
    destruct Hday as (Hdcount & Hdmark); [vm_compute; reflexivity |].
    exists b, w', new. split; [exact Hrun |]. split; [exact Hlog |].
    split; [exact Hcount |]. split; [exact Hmark |].
    split; [| split; [exact Hdcount | exact Hdmark]].
    intros n Hin. apply Hlimit in Hin. destruct Hin as [_ Hin].
    vm_compute in Hin. apply Hin; reflexivity.
  - destruct (C6_reset_before_limit_check DEFAULT_CONFIG
                (still_clock (at_hms 36 0 0)) stale_day_world)
      as (b & w' & new & Hrun & Hlog & _ & Hday & Hhour & _).
    destruct Hday as (Hcount & Hmark & Hlimit); [vm_compute; discriminate |].
    destruct Hhour as (Hhcount & Hhmark); [vm_compute; reflexivity |].
    exists b, w', new. split; [exact Hrun |]. split; [exact Hlog |].
    split; [exact Hcount |]. split; [exact Hmark |].
    split; [| split; [exact Hhcount | exact Hhmark]].
    intros n Hin. apply Hlimit in Hin. destruct Hin as [_ Hin].
    vm_compute in Hin. apply Hin; reflexivity.
Defined.

(* ------------------------------------------------------------------ *)
(** ** C7: quiet hours *)

(** C7: let start and end be the configured quiet-hours bounds and t the
    time of day of a clock reading, all three as microseconds since
    midnight.  [_is_quiet_hours] reads the clock once and answers: when
    start < end, inside iff start <= t <= end; when start >= end (the
    window goes over midnight), inside iff t >= start or t <= end.  The
    gate skips on that answer: it never lets a cycle pass when its last
    clock reading is inside the window, and it logs a skip for quiet hours
    only when that reading is inside. *)
Theorem C7_quiet_hours_window :
  forall config env w,
    valid_time (quiet_hours_start (schedule config)) ->
    valid_time (quiet_hours_end (schedule config)) ->
    let start := micros_of_day (quiet_hours_start (schedule config)) in
    let end_ := micros_of_day (quiet_hours_end (schedule config)) in
    (exists inside,
       let t := clock env (ticks w) mod 86400000000 in
       run env (_is_quiet_hours config) w = (Ok inside, tick 1 w) /\
       (start < end_ -> (inside = true <-> start <= t <= end_)) /\
       (start >= end_ -> (inside = true <-> t >= start \/ t <= end_))) /\
    (exists proceed w' new,
       let t := clock env (pred (ticks w')) mod 86400000000 in
       run env (_should_execute config) w = (Ok proceed, w') /\
       logged w' = logged w ++ new /\
       (start < end_ -> start <= t <= end_ -> proceed = false) /\
       (start >= end_ -> t >= start \/ t <= end_ -> proceed = false) /\
       (In LogQuietHours new ->
        (start < end_ -> start <= t <= end_) /\
        (start >= end_ -> t >= start \/ t <= end_))).
Proof.
  intros config env w Hs He start end_. split.
  - exists (quiet_at config (clock env (ticks w))); cbv zeta.
    split; [apply run_is_quiet_hours |].
    exact (quiet_at_window config (clock env (ticks w)) Hs He).
  - destruct (run_should_execute config env w)
      as (b & n & new & Hrun & Hout).
    eexists b, _, new; cbv zeta. split; [exact Hrun |].
    cbn [self ticks logged Nat.add Nat.pred]. split; [reflexivity |].
    destruct (quiet_at_window config (clock env (n + ticks w)) Hs He)
      as [Hlt Hge].
    fold start end_ in Hlt, Hge.
    inversion Hout; subst; (split; [| split]);
      try (intros; reflexivity);
      try solve [intros []];
      try solve [intros [Hin | []]; discriminate Hin];
      try solve [intros Hx Hy; apply (proj2 (Hlt Hx)) in Hy; congruence];
      try solve [intros Hx Hy; apply (proj2 (Hge Hx)) in Hy; congruence].
    intros _; split; intros Hx;
      [apply (proj1 (Hlt Hx)) | apply (proj1 (Hge Hx))]; assumption.
Qed.

(** The four instants of the specification: with quiet hours 01:00-06:00,
    03:00 is inside and 23:00 outside; with quiet hours 22:00-02:00 (over
    midnight), 23:30 is inside and 10:00 outside. *)
Lemma C7_quiet_hours_window_witness :
  let inside start end_ t :=
    fst (run (still_clock t)
           (_is_quiet_hours (with_quiet_hours start end_)) fresh_world) in
  inside (time_hm 1 0) (time_hm 6 0) (at_hms 3 0 0) = Ok true /\
  inside (time_hm 1 0) (time_hm 6 0) (at_hms 23 0 0) = Ok false /\
  inside (time_hm 22 0) (time_hm 2 0) (at_hms 23 30 0) = Ok true /\
  inside (time_hm 22 0) (time_hm 2 0) (at_hms 10 0 0) = Ok false.
Proof.
  assert (Hv : forall h m, 0 <= h < 24 -> 0 <= m < 60 ->
                           valid_time (time_hm h m)).
  { intros h m Hh Hm; unfold valid_time; simpl; lia. }
  assert (Hb : forall b : bool, b <> true -> b = false).
  { intros [|] Hb; congruence. }
  cbv zeta; split; [| split; [| split]].
  - destruct (C7_quiet_hours_window
                (with_quiet_hours (time_hm 1 0) (time_hm 6 0))
                (still_clock (at_hms 3 0 0)) fresh_world)
      as ((b & Hrun & Hin & _) & _); [apply Hv; lia | apply Hv; lia |].
    rewrite Hrun; simpl; f_equal.
    apply Hin; vm_compute; [reflexivity | split; discriminate].
  - destruct (C7_quiet_hours_window
                (with_quiet_hours (time_hm 1 0) (time_hm 6 0))
                (still_clock (at_hms 23 0 0)) fresh_world)
      as ((b & Hrun & Hin & _) & _); [apply Hv; lia | apply Hv; lia |].
    rewrite Hrun; simpl; f_equal.
    apply Hb; intros Hb'; apply Hin in Hb';
      [vm_compute in Hb'; destruct Hb' as [_ Hb']; apply Hb'; reflexivity
      | vm_compute; reflexivity].
  - destruct (C7_quiet_hours_window
                (with_quiet_hours (time_hm 22 0) (time_hm 2 0))
                (still_clock (at_hms 23 30 0)) fresh_world)
      as ((b & Hrun & _ & Hin) & _); [apply Hv; lia | apply Hv; lia |].
    rewrite Hrun; simpl; f_equal.
    apply Hin; vm_compute; [discriminate | left; discriminate].
  - destruct (C7_quiet_hours_window
                (with_quiet_hours (time_hm 22 0) (time_hm 2 0))
                (still_clock (at_hms 10 0 0)) fresh_world)
      as ((b & Hrun & _ & Hin) & _); [apply Hv; lia | apply Hv; lia |].
    rewrite Hrun; simpl; f_equal.
    apply Hb; intros Hb'; apply Hin in Hb';
      [vm_compute in Hb'; destruct Hb' as [Hb' | Hb']; apply Hb'; reflexivity
      | vm_compute; discriminate].
Defined.

(* ------------------------------------------------------------------ *)
(** ** C8: an exception in the orchestration *)

(** C8, as stated, fails on the failed count: with a memory store that
    raises, the cycle returns a FAILED result whose failed count is 1, not
    0. *)
Lemma C8_failed_result_counts_one_failure :
  exists r w',
    run (noon_clock 1)
        (execute_batch DEFAULT_CONFIG true
           (_ask_agent_for_batch_size DEFAULT_CONFIG) failing_store
           None None None)
        fresh_world
      = (Ok r, w') /\
    status r = FAILED /\
    agent_decision r = [("error", "memory store unavailable")] /\
    failed_count r = 1 /\
    failed_count r <> 0.
Proof.
  do 2 eexists; split; [vm_compute; reflexivity |].
  repeat split; discriminate.
Qed.

(** C8 (amended): when the [try] block of a cycle raises e, an exception
    of class Exception, it is caught by [execute_batch] itself and turned
    into a FAILED result with requested, successful and skipped counts 0,
    failed count 1, no items and the text of e under "error" in the
    rationale; the failure is logged and the batch id is cleared.  No
    exception of class Exception leaves the cycle or a scheduled fire, and
    a fire whose cycle returns logs the result and returns.  An exception
    outside class Exception (asyncio.CancelledError, KeyboardInterrupt,
    SystemExit) is not caught: it leaves the cycle, after the batch id is
    cleared, with no result and no failure logged, and it leaves the
    scheduled fire. *)
Theorem C8_cycle_failure_is_a_result :
  forall config memory ask store env w platforms niche force,
    let bid := batch_id_of (clock env (ticks w)) in
    let start := clock env (S (ticks w)) in
    let body :=
      run env
        (execute_batch_body config memory ask store bid start
           platforms niche force)
        (entered env w) in
    let cycle :=
      run env (execute_batch config memory ask store platforms niche force)
        w in
    let fire := run env (_default_scheduled_job config memory ask store) w in
    let fired :=
      run env (execute_batch config memory ask store None None None)
        (with_log LogScheduledTriggered w) in
    (forall e wb,
       body = (Raise e, wb) ->
       exists r w',
         cycle = (Ok r, w') /\
         status r = FAILED /\
         requested_count r = 0 /\
         successful_count r = 0 /\
         failed_count r = 1 /\
         skipped_count r = 0 /\
         videos r = [] /\
         agent_decision r = [("error", e)] /\
         In (LogBatchFailed bid e) (logged w') /\
         current_batch (self w') = None) /\
    (forall e wb, body = (Escaped e, wb) -> cycle = (Escaped e, cleared wb)) /\
    (forall e w', cycle <> (Raise e, w')) /\
    (forall e w', fire <> (Raise e, w')) /\
    (forall r w',
       fired = (Ok r, w') ->
       fire = (Ok tt,
               with_log (LogScheduledCompleted (status r)
                           (successful_count r) (requested_count r)) w')) /\
    (forall e w', fired = (Escaped e, w') -> fire = (Escaped e, w')).
Proof.
  intros config memory ask store env w platforms niche force bid start
    body cycle fire fired.
  assert (Hcycle :
    cycle = match body with
            | (Ok r, w1) => (Ok r, cleared w1)
            | (Raise e, w1) =>
                (Ok (failed_result bid e (clock env (ticks w1) - start)
                       (clock env (S (ticks w1)))),
                 cleared (tick 2 (with_log (LogBatchFailed bid e) w1)))
            | (Escaped e, w1) => (Escaped e, cleared w1)
            end).
  { unfold cycle, body, bid, start. apply run_execute_batch. }
  assert (Hfire :
    fire = match fired with
           | (Ok r, w1) =>
               (Ok tt,
                with_log (LogScheduledCompleted (status r)
                            (successful_count r) (requested_count r)) w1)
           | (Raise e, w1) => (Ok tt, with_log (LogScheduledFailed e) w1)
           | (Escaped e, w1) => (Escaped e, w1)
           end).
  { unfold fire, fired. apply run_default_scheduled_job. }
  split; [| split; [| split; [| split; [| split]]]].
  - intros e wb Hbody. rewrite Hcycle, Hbody.
    do 2 eexists; split; [reflexivity |].
    repeat split. cbn. apply in_or_app; right; left; reflexivity.
  - intros e wb Hbody. rewrite Hcycle, Hbody. reflexivity.
  - intros e w'. rewrite Hcycle.
    destruct body as [[r | e0 | e0] w1]; discriminate.
  - intros e w'. rewrite Hfire.
    destruct fired as [[r | e0 | e0] w1]; discriminate.
  - intros r w' Hfired. rewrite Hfire, Hfired. reflexivity.
  - intros e w' Hfired. rewrite Hfire, Hfired. reflexivity.
Qed.

(** Two stores out of reach, with the default configuration at noon.  The
    store that raises an exception of class Exception: the cycle returns
    the FAILED result, and so the scheduled fire returns.  The store whose
    awaited call is cancelled: CancelledError leaves the cycle and the
    fire, the batch id is cleared, no failure is logged. *)
Lemma C8_cycle_failure_is_a_result_witness :
  (exists r w',
     run (noon_clock 1)
         (execute_batch DEFAULT_CONFIG true
            (_ask_agent_for_batch_size DEFAULT_CONFIG) failing_store
            None None None)
         fresh_world
       = (Ok r, w') /\
     status r = FAILED /\
     requested_count r = 0 /\
     successful_count r = 0 /\
     failed_count r = 1 /\
     skipped_count r = 0 /\
     videos r = [] /\
     agent_decision r = [("error", "memory store unavailable")] /\
     In (LogBatchFailed (batch_ 43200) "memory store unavailable")
        (logged w') /\
     current_batch (self w') = None) /\
  (exists w',
     run (noon_clock 1)
         (_default_scheduled_job DEFAULT_CONFIG true
            (_ask_agent_for_batch_size DEFAULT_CONFIG) failing_store)
         fresh_world
       = (Ok tt, w') /\
     In (LogScheduledCompleted FAILED 0 0) (logged w')) /\
  (exists w',
     run (noon_clock 1)
         (execute_batch DEFAULT_CONFIG true
            (_ask_agent_for_batch_size DEFAULT_CONFIG) cancelled_store
            None None None)
         fresh_world
       = (Escaped "CancelledError", w') /\
     current_batch (self w') = None /\
     forall b e, ~ In (LogBatchFailed b e) (logged w')) /\
  (exists w',
     run (noon_clock 1)
         (_default_scheduled_job DEFAULT_CONFIG true
            (_ask_agent_for_batch_size DEFAULT_CONFIG) cancelled_store)
         fresh_world
       = (Escaped "CancelledError", w')).
Proof.
  pose proof (C8_cycle_failure_is_a_result DEFAULT_CONFIG true
                (_ask_agent_for_batch_size DEFAULT_CONFIG) failing_store
                (noon_clock 1) fresh_world None None None) as Hfail.
  pose proof (C8_cycle_failure_is_a_result DEFAULT_CONFIG true
                (_ask_agent_for_batch_size DEFAULT_CONFIG) cancelled_store
                (noon_clock 1) fresh_world None None None) as Hcancel.
  cbv zeta in Hfail, Hcancel.
  destruct Hfail as (Hfailed & _ & _ & _ & Hfire & _).
  destruct Hcancel as (_ & Hescaped & _ & _ & _ & Hleft).
  split; [| split; [| split]].
  - refine (Hfailed "memory store unavailable" _ _).
    vm_compute; reflexivity.
  - eexists. split.
    + refine (Hfire _ _ _). vm_compute; reflexivity.
    + vm_compute. auto 20.
  - eexists. split; [| split].
    + refine (Hescaped "CancelledError" _ _). vm_compute; reflexivity.
    + reflexivity.
    + intros b e Hin. vm_compute in Hin.
      repeat (destruct Hin as [Hin | Hin]; [discriminate Hin |]).
      exact Hin.
  - eexists. refine (Hleft "CancelledError" _ _). vm_compute; reflexivity.
Defined.

(** A cycle cancelled while it waits for its first generation call:
    CancelledError goes through the handler of the item and through the
    handler of the cycle.  No item is recorded as failed, no failure of
    the cycle is logged, no result is returned, and the batch id is
    cleared. *)
Example cancelled_at_the_awaited_call :
  let step := loop_steps DEFAULT_CONFIG false (noon_clock 1) in
  let s1 := step [Trigger None None None]
              (initial_system (at_hms 12 0 0) (at_hms 12 0 0)) in
  let s2 := step [Cancel 0] s1 in
  List.length (in_flight s1) = 1%nat /\
  in_flight s2 = [] /\
  returned s2 = [Escaped "CancelledError"] /\
  current_batch (self (world s2)) = None /\
  execution_history (self (world s2)) = [] /\
  (forall i e, ~ In (LogVideoFailed i e) (logged (world s2))) /\
  (forall b e, ~ In (LogBatchFailed b e) (logged (world s2))).
Proof.
  cbv zeta. vm_compute.
  repeat (split; [reflexivity |]).
  split; intros x e Hin;
    repeat (destruct Hin as [Hin | Hin]; [discriminate Hin |]);
    exact Hin.
Qed.

(* ------------------------------------------------------------------ *)
(** ** C9: recent performance *)

(** C9, as stated, fails: after a cycle forced to -1 and a cycle forced to
    1, the window holds two entries whose requested counts sum to 0, and
    the success rate reported is the number 0, not an undefined value. *)
Lemma C9_zero_requested_rate_is_zero :
  let env := noon_clock 600 in
  let cycle n :=
    BatchCoordinator_execute_batch DEFAULT_CONFIG false None None (Some n) in
  let w1 := snd (run env (cycle (-1)) fresh_world) in
  let w2 := snd (run env (cycle 1) w1) in
  map requested_count (execution_history (self w2)) = [-1; 1] /\
  sum_of requested_count (last_n 10 (execution_history (self w2))) = 0 /\
  fst (run env _get_recent_performance w2)
    = Ok (RecentPerformance 0 (0 # 2) 2).
Proof. vm_compute; repeat split; reflexivity. Qed.

(** C9 (amended): the statistics are taken over the last 10 entries of the
    history (all of them when there are fewer).  With an empty history the
    success rate is undefined.  Otherwise the success rate is the sum of
    the successful counts divided by the sum of the requested counts when
    that sum is positive and the number 0 when it is not, and the average
    batch size is the sum of the requested counts divided by the number of
    entries in the window. *)
Theorem C9_recent_performance :
  forall env w history,
    execution_history (self w) = history ->
    let recent := last_n 10 history in
    let requested := sum_of requested_count recent in
    let successful := sum_of successful_count recent in
    (exists older, history = older ++ recent) /\
    List.length recent = Nat.min 10 (List.length history) /\
    (history = [] ->
     run env _get_recent_performance w = (Ok NoPerformance, w)) /\
    (history <> [] ->
     exists rate average,
       run env _get_recent_performance w
         = (Ok (RecentPerformance rate average (List.length recent)), w) /\
       (0 < requested ->
        (rate * inject_Z requested == inject_Z successful)%Q) /\
       (requested <= 0 -> (rate == 0)%Q) /\
       (average * inject_Z (len recent) == inject_Z requested)%Q).
Proof.
  intros env w history Hh; subst history; cbv zeta.
  split; [apply last_n_suffix |].
  split; [apply last_n_length |].
  rewrite run_get_recent_performance.
  set (h := execution_history (self w)).
  split; [intros ->; reflexivity |].
  intros Hne. destruct h as [| b l]; [congruence |].
  cbv zeta. set (recent := last_n 10 (b :: l)).
  assert (Hlen : (0 < List.length recent)%nat).
  { unfold recent; rewrite last_n_length; simpl; lia. }
  do 2 eexists; split; [reflexivity |].
  repeat split.
  - intros Hpos. destruct (Z.ltb_spec 0 (sum_of requested_count recent));
      [| lia].
    rewrite Qmult_comm; apply Qmult_div_r.
    unfold Qeq; simpl; lia.
  - intros Hle. destruct (Z.ltb_spec 0 (sum_of requested_count recent));
      [lia | reflexivity].
  - rewrite Qmult_comm; apply Qmult_div_r.
    unfold Qeq, len; simpl; lia.
Qed.

Lemma C9_recent_performance_witness :
  let w := snd (run (noon_clock 600)
                  (BatchCoordinator_execute_batch DEFAULT_CONFIG false
                     None None (Some 2)) fresh_world) in
  exists rate average,
    run (noon_clock 600) _get_recent_performance w
      = (Ok (RecentPerformance rate average 1), w) /\
    (rate * inject_Z 2 == inject_Z 2)%Q /\
    (average * inject_Z 1 == inject_Z 2)%Q.
Proof.
  intros w.
  destruct (C9_recent_performance (noon_clock 600) w _ eq_refl)
    as (_ & _ & _ & H).
  destruct H as (rate & average & Hrun & Hrate & _ & Havg);
    [vm_compute; discriminate |].
  exists rate, average; split; [exact Hrun |].
  split; [apply Hrate; vm_compute; reflexivity | exact Havg].
Defined.

(* ------------------------------------------------------------------ *)
(** ** C10: what a skipped cycle leaves behind *)

(** C10, as stated, fails on the hourly count: with the hour mark 61
    minutes old and 5 videos counted in the hour, a cycle vetoed by the
    quiet hours returns a SKIPPED result and leaves the hourly count at
    0. *)
Lemma C10_skipped_cycle_resets_hourly_count :
  exists r w',
    run (still_clock (at_hms 12 0 0))
        (BatchCoordinator_execute_batch
           (with_quiet_hours (time_hm 11 0) (time_hm 13 0)) false
           None None None)
        stale_hour_world
      = (Ok r, w') /\
    status r = SKIPPED /\
    agent_decision r = [("reason", "Rate limit or quiet hours")] /\
    hourly_video_count (self stale_hour_world) = 5 /\
    hourly_video_count (self w') = 0.
Proof.
  do 2 eexists; split; [vm_compute; reflexivity |].
  repeat split.
Qed.

(** C10 (amended): a cycle whose result is SKIPPED with requested count 0
    (the gate vetoed, or the decided batch size was 0) returns a result
    with all counts 0 and no items, leaves lastExecutionAt and the
    execution history as they were and clears the batch id; of the
    counters it changes only what the gate's own reset changes: each count
    is 0 if its window had gone by at the gate's clock reading and is
    unchanged otherwise. *)
Theorem C10_skipped_cycle_frame :
  forall config memory env w platforms niche force r w',
    run env
      (BatchCoordinator_execute_batch config memory platforms niche force) w
      = (Ok r, w') ->
    status r = SKIPPED ->
    requested_count r = 0 ->
    let now := clock env (S (S (ticks w))) in
    successful_count r = 0 /\
    failed_count r = 0 /\
    skipped_count r = 0 /\
    videos r = [] /\
    last_execution (self w') = last_execution (self w) /\
    execution_history (self w') = execution_history (self w) /\
    current_batch (self w') = None /\
    daily_video_count (self w')
      = (if td_days 1 <=? now - last_day_reset (self w)
         then 0 else daily_video_count (self w)) /\
    hourly_video_count (self w')
      = (if td_hours 1 <=? now - last_hour_reset (self w)
         then 0 else hourly_video_count (self w)).
Proof.
  intros config memory env w platforms niche force r w' Hrun Hstatus Hreq now.
  unfold BatchCoordinator_execute_batch in Hrun.
  rewrite run_execute_batch in Hrun.
  set (bid := batch_id_of (clock env (ticks w))) in *.
  set (start := clock env (S (ticks w))) in *.
  destruct (run_should_execute config env (entered env w))
    as (proceed & k & new & Hgate & _).
  cbn [entered self ticks logged] in Hgate. fold now in Hgate.
  set (c := reset_day now (reset_hour now
              (set_current_batch (Some bid) (self w)))) in *.
  assert (Hframe :
    last_execution c = last_execution (self w) /\
    execution_history c = execution_history (self w) /\
    daily_video_count c
      = (if td_days 1 <=? now - last_day_reset (self w)
         then 0 else daily_video_count (self w)) /\
    hourly_video_count c
      = (if td_hours 1 <=? now - last_hour_reset (self w)
         then 0 else hourly_video_count (self w))).
  { unfold c.
    destruct (reset_other_fields now (set_current_batch (Some bid) (self w)))
      as (_ & Hh & Hl).
    destruct (reset_daily_fields now (set_current_batch (Some bid) (self w)))
      as (Hd & _).
    destruct (reset_hourly_fields now (set_current_batch (Some bid) (self w)))
      as (Hc & _).
    rewrite Hh, Hl, Hd, Hc. repeat split. }
  destruct Hframe as (Hlast & Hhist & Hdaily & Hhourly).
  destruct (run_execute_batch_body config memory
              (_ask_agent_for_batch_size config) _store_batch_result
              env bid start platforms niche force (entered env w)
              proceed _ Hgate) as [Hveto Hpass].
  destruct proceed.
  - clear Hveto.
    match type of Hgate with
    | _ = (_, ?wg) =>
        destruct (run_determine_batch_size config env force platforms niche
                    wg) as (size & n & Hsize)
    end.
    destruct (Hpass eq_refl size _ Hsize) as [Hzero Hsome].
    destruct (Z.eq_dec size 0) as [E | E].
    + rewrite (Hzero E) in Hrun. injection Hrun as <- <-.
      cbn. repeat split; assumption.
    + exfalso. destruct (Hsome E) as (results & wv & r0 & _ & Hcomp & Hbody).
      rewrite Hbody in Hrun.
      destruct (run_compile_batch_result env bid size results start wv)
        as (r' & Hcomp' & _ & Hreq' & _).
      rewrite Hcomp in Hcomp'; injection Hcomp' as <-.
      destruct memory; cbn in Hrun; injection Hrun as <- _; congruence.
  - rewrite (Hveto eq_refl) in Hrun. injection Hrun as <- <-.
    cbn. repeat split; assumption.
Qed.

Lemma C10_skipped_cycle_frame_witness :
  exists r w',
    run (still_clock (at_hms 12 0 0))
        (BatchCoordinator_execute_batch
           (with_quiet_hours (time_hm 11 0) (time_hm 13 0)) false
           None None None)
        stale_hour_world
      = (Ok r, w') /\
    successful_count r = 0 /\
    failed_count r = 0 /\
    skipped_count r = 0 /\
    videos r = [] /\
    last_execution (self w') = None /\
    execution_history (self w') = [] /\
    current_batch (self w') = None /\
    daily_video_count (self w') = 5 /\
    hourly_video_count (self w') = 0.
Proof.
  do 2 eexists; split; [vm_compute; reflexivity |].
  refine (C10_skipped_cycle_frame
            (with_quiet_hours (time_hm 11 0) (time_hm 13 0)) false
            (still_clock (at_hms 12 0 0)) stale_hour_world None None None
            _ _ _ _ _);
    vm_compute; reflexivity.
Defined.

(* ------------------------------------------------------------------ *)
(** ** Further properties: the executor and the result compiler *)

Lemma run_execute_videos_loop_items
    config env count platforms niche indices :
  forall results w,
  exists out w',
    run env
      (_execute_videos_loop config count platforms niche indices results) w
      = (Ok (results ++ out), w') /\
    Forall2 (item_of env platforms niche)
      (attempted env (retry_on_failure (batch config)) indices) out.
Proof.
  induction indices as [| i rest IH]; intros results w.
  - exists [], w; cbn; rewrite app_nil_r; split; [reflexivity | constructor].
  - cbn [attempted]. run_cbn.
    destruct (generation env i) as [e |] eqn:G; run_cbn;
      [destruct (retry_on_failure (batch config)); run_cbn |].
    + match goal with
      | |- context [run _ (_execute_videos_loop _ _ _ _ _ ?r) ?w1] =>
          destruct (IH r w1) as (out & w' & Hrun & Hitems)
      end.
      rewrite Hrun. do 2 eexists.
      split; [rewrite <- app_assoc; reflexivity |].
      constructor; [| exact Hitems].
      unfold item_of; rewrite G; cbn; repeat split.
    + do 2 eexists; split; [reflexivity |].
      constructor; [| constructor].
      unfold item_of; rewrite G; cbn; repeat split.
    + match goal with
      | |- context [run _ (_execute_videos_loop _ _ _ _ _ ?r) ?w1] =>
          destruct (IH r w1) as (out & w' & Hrun & Hitems)
      end.
      rewrite Hrun. do 2 eexists.
      split; [rewrite <- app_assoc; reflexivity |].
      constructor; [| exact Hitems].
      unfold item_of; rewrite G; cbn; repeat split. eexists; reflexivity.
Qed.

(** The indices a batch goes through are the first ones, without a gap. *)
Lemma attempted_is_prefix env retry n :
  forall s,
    attempted env retry (seq s n)
    = seq s (List.length (attempted env retry (seq s n))) /\
    (List.length (attempted env retry (seq s n)) <= n)%nat.
Proof.
  induction n as [| n IH]; intros s; cbn [seq attempted];
    [split; [reflexivity | cbn; lia] |].
  destruct (IH (S s)) as [IHa IHl].
  destruct (generation env s); [destruct retry |]; cbn [List.length seq];
    try (split; [reflexivity | lia]);
    (split; [f_equal; exact IHa | lia]).
Qed.

Lemma count_in_item_status env indices :
  count_in "success" (map (item_status env) indices)
  + count_in "failed" (map (item_status env) indices)
  = len indices.
Proof.
  unfold count_in, sum_of, len.
  induction indices as [| i rest IH]; [reflexivity |].
  cbn [map]. unfold item_status at 1 3.
  destruct (generation env i);
    cbn [filter String.eqb Ascii.eqb Bool.eqb map fold_right List.length];
    lia.
Qed.

(** X1: whatever the items do, the counts of a compiled batch add up: the
    successes and the failures are the items of the result, and together
    with the skipped count they are the requested count.  For a requested
    count that is not negative no count is negative and
    successful + failed <= requested. *)
Theorem X1_batch_counts_add_up :
  forall config env w bid start count platforms niche,
    exists r w',
      run env
        (results <- _execute_videos config count platforms niche ;;
         _compile_batch_result bid count results start)%prog w
        = (Ok r, w') /\
      requested_count r = count /\
      successful_count r + failed_count r = len (videos r) /\
      successful_count r + failed_count r + skipped_count r = count /\
      0 <= successful_count r /\
      0 <= failed_count r /\
      (0 <= count ->
       0 <= skipped_count r /\
       successful_count r + failed_count r <= count).
Proof.
  intros config env w bid start count platforms niche.
  destruct (run_execute_videos config env count platforms niche w)
    as (results & w1 & new & Hrun & _ & _ & _ & Hvs & _).
  destruct (run_compile_batch_result env bid count results start w1)
    as (r & Hcomp & _ & Hreq & Hsucc & Hfailed & Hskip & Hvid & _).
  rewrite run_bind, Hrun, Hcomp. exists r, (tick 2 w1).
  split; [reflexivity |]. split; [exact Hreq |].
  pose proof (count_in_item_status env
                (attempted env (retry_on_failure (batch config))
                   (seq 0 (Z.to_nat count)))) as Hsum.
  rewrite <- Hvs, <- !count_status_count_in in Hsum.
  assert (Hlen : len (attempted env (retry_on_failure (batch config))
                        (seq 0 (Z.to_nat count))) = len results).
  { unfold len. rewrite <- (length_map (item_status env)), <- Hvs,
      length_map. reflexivity. }
  rewrite Hlen in Hsum.
  destruct (attempted_is_prefix env (retry_on_failure (batch config))
              (Z.to_nat count) 0%nat) as [_ Hle].
  pose proof (count_status_nonneg "success" results).
  pose proof (count_status_nonneg "failed" results).
  rewrite Hvid, Hsucc, Hfailed, Hskip.
  unfold len in *. repeat split; lia.
Qed.

Lemma run_execute_videos_items config env count platforms niche w :
  exists results w',
    run env (_execute_videos config count platforms niche) w
      = (Ok results, w') /\
    Forall2 (item_of env (platform_list platforms) niche)
      (seq 0 (List.length results)) results /\
    (List.length results <= Z.to_nat count)%nat.
Proof.
  unfold _execute_videos. rewrite run_bind. run_cbn.
  match goal with
  | |- context [run env (_execute_videos_loop _ _ ?pl _ ?ix ?r) ?w1] =>
      destruct (run_execute_videos_loop_items config env count pl niche
                  ix r w1) as (out & w' & Hrun & Hitems)
  end.
  rewrite Hrun. exists out, w'. split; [reflexivity |].
  destruct (attempted_is_prefix env (retry_on_failure (batch config))
              (Z.to_nat count) 0%nat) as [Hpre Hle].
  pose proof (Forall2_length Hitems) as Hlen.
  rewrite Hpre, Hlen in Hitems. split; [exact Hitems | lia].
Qed.

Lemma platform_list_not_empty platforms : platform_list platforms <> [].
Proof.
  unfold platform_list, or_list.
  destruct platforms as [[| a l] |]; discriminate.
Qed.

Lemma items_platforms env l niche js rs :
  (0 < List.length l)%nat ->
  Forall2 (item_of env l niche) js rs ->
  map platform rs = map (fun j => nth (j mod List.length l)%nat l "") js /\
  Forall (fun r => In (platform r) l) rs.
Proof.
  intros Hl Hitems.
  induction Hitems as [| j r js rs Hone _ [IHm IHf]];
    [split; [reflexivity | constructor] |].
  destruct Hone as [Hp _]. cbn [map]. rewrite IHm, Hp.
  split; [reflexivity |].
  constructor; [| exact IHf].
  rewrite Hp. apply nth_In. apply Nat.mod_upper_bound; lia.
Qed.

(** X2: the platforms of a batch go round the platform list: the j-th
    result (from 0) has the platform at position j modulo the length of
    the list, which is always a member of the list.  The list is the one
    the caller gave, or tiktok, instagram when the caller gave none or an
    empty one. *)
Theorem X2_platforms_round_robin :
  forall config env count platforms niche w,
    exists results w',
      run env (_execute_videos config count platforms niche) w
        = (Ok results, w') /\
      let l := platform_list platforms in
      map platform results
        = map (fun j => nth (j mod List.length l)%nat l "")
            (seq 0 (List.length results)) /\
      Forall (fun r => In (platform r) l) results /\
      (forall a rest, platforms = Some (a :: rest) -> l = a :: rest) /\
      (platforms = None \/ platforms = Some [] ->
       l = ["tiktok"; "instagram"]).
Proof.
  intros config env count platforms niche w.
  destruct (run_execute_videos_items config env count platforms niche w)
    as (results & w' & Hrun & Hitems & _).
  exists results, w'. split; [exact Hrun |]. cbv zeta.
  pose proof (platform_list_not_empty platforms) as Hne.
  set (l := platform_list platforms) in *.
  assert (Hl : (0 < List.length l)%nat).
  { destruct l; [congruence | cbn; lia]. }
  destruct (items_platforms env l niche _ _ Hl Hitems) as [Hm Hf].
  split; [exact Hm |]. split; [exact Hf |]. split.
  - intros a rest ->. reflexivity.
  - intros [-> | ->]; reflexivity.
Qed.

(** The scenario of two platforms and five items: A, B, A, B, A. *)
Example round_robin_of_two :
  map platform
    (match fst (run (noon_clock 1)
                  (_execute_videos DEFAULT_CONFIG 5 (Some ["A"; "B"]) None)
                  fresh_world) with
     | Ok results => results
     | _ => []
     end)
  = ["A"; "B"; "A"; "B"; "A"].
Proof. vm_compute; reflexivity. Qed.

(** X3: every item of a batch is well formed.  The j-th result is a
    success exactly when the j-th generation call returned; a success
    carries a video id, no error and its index as metadata; a failure
    carries no video id, the text of the exception, a generation time of 0
    and no metadata; each carries the niche asked for, or "general" when
    none (or an empty one) was.  No more items are made than were
    requested, and the executor leaves the coordinator as it was. *)
Theorem X3_items_well_formed :
  forall config env count platforms niche w,
    exists results w',
      run env (_execute_videos config count platforms niche) w
        = (Ok results, w') /\
      Forall2 (item_of env (platform_list platforms) niche)
        (seq 0 (List.length results)) results /\
      (List.length results <= Z.to_nat count)%nat /\
      self w' = self w.
Proof.
  intros config env count platforms niche w.
  destruct (run_execute_videos_items config env count platforms niche w)
    as (results & w' & Hrun & Hitems & Hlen).
  destruct (run_execute_videos config env count platforms niche w)
    as (results' & w'' & new & Hrun' & Hself & _).
  rewrite Hrun in Hrun'; injection Hrun' as <- <-.
  exists results, w'. repeat split; assumption.
Qed.

(* ------------------------------------------------------------------ *)
(** ** Further properties: the history and the gate *)

Lemma last_n_snoc (A : Type) (n : nat) (l : list A) (x : A) :
  last_n (S n) (l ++ [x]) = last_n n l ++ [x].
Proof.
  unfold last_n. rewrite length_app, skipn_app. cbn [List.length].
  replace (List.length l + 1 - S n)%nat with (List.length l - n)%nat by lia.
  replace (List.length l - n - List.length l)%nat with 0%nat by lia.
  reflexivity.
Qed.

(** X4: [_update_metrics] appends the result to the history and keeps the
    last 100 entries.  The result is always the newest entry; below 100
    entries nothing is dropped; at 100 entries exactly the oldest one is
    dropped, so a history of at most 100 entries stays one.  Both counters
    go up by the successful count of the result and the last execution is
    the clock reading taken; the batch id and the reset marks are not
    touched. *)
Theorem X4_history_keeps_last_100 :
  forall env result w,
    exists w',
      run env (_update_metrics result) w = (Ok tt, w') /\
      let h := execution_history (self w) in
      let h' := execution_history (self w') in
      (exists dropped kept, h = dropped ++ kept /\ h' = kept ++ [result]) /\
      ((List.length h < 100)%nat -> h' = h ++ [result]) /\
      (List.length h = 100%nat -> h' = tl h ++ [result]) /\
      ((List.length h <= 100)%nat ->
       List.length h' = Nat.min (S (List.length h)) 100) /\
      daily_video_count (self w')
        = daily_video_count (self w) + successful_count result /\
      hourly_video_count (self w')
        = hourly_video_count (self w) + successful_count result /\
      last_execution (self w') = Some (clock env (ticks w)) /\
      current_batch (self w') = current_batch (self w) /\
      last_hour_reset (self w') = last_hour_reset (self w) /\
      last_day_reset (self w') = last_day_reset (self w).
Proof.
  intros env result w. eexists. split; [apply run_update_metrics |].
  cbn [self recorded execution_history daily_video_count hourly_video_count
       last_execution current_batch last_hour_reset last_day_reset].
  set (h := execution_history (self w)).
  assert (Hlen : len (h ++ [result]) = Z.of_nat (S (List.length h))).
  { unfold len. rewrite length_app. cbn. f_equal. lia. }
  split; [| split; [| split; [| split]]]; try (repeat split; reflexivity).
  - destruct (Z.ltb_spec 100 (len (h ++ [result]))) as [Hbig | Hsmall].
    + exists (firstn (List.length h - 99) h), (last_n 99 h).
      split; [unfold last_n; symmetry; apply firstn_skipn |].
      apply (last_n_snoc BatchResult 99).
    + exists [], h. split; reflexivity.
  - intros Hlt.
    destruct (Z.ltb_spec 100 (len (h ++ [result]))); [lia | reflexivity].
  - intros Heq.
    destruct (Z.ltb_spec 100 (len (h ++ [result]))); [| lia].
    rewrite (last_n_snoc BatchResult 99). f_equal.
    unfold last_n. rewrite Heq. cbn. destruct h; reflexivity.
  - intros Hle.
    destruct (Z.ltb_spec 100 (len (h ++ [result]))).
    + rewrite last_n_length, length_app. cbn [List.length]. lia.
    + rewrite length_app. cbn [List.length]. lia.
Qed.

Lemma run_should_execute_verdict config env w :
  let now := clock env (ticks w) in
  let c := reset_day now (reset_hour now (self w)) in
  exists n new,
    run env (_should_execute config) w
    = (Ok ((daily_video_count c <? max_daily_videos (batch config))
           && (hourly_video_count c <? max_hourly_videos (batch config))
           && match last_execution c with
              | Some last =>
                  (td_minutes (api_cooldown_minutes (batch config))
                   <=? clock env (S (ticks w)) - last)
                  && negb (quiet_at config (clock env (S (S (ticks w)))))
              | None => negb (quiet_at config (clock env (S (ticks w))))
              end),
       {| self := c; ticks := n + ticks w; logged := logged w ++ new |}).
Proof.
  intros now c. unfold _should_execute.
  rewrite run_bind, run_reset_counters. fold now; fold c. run_cbn.
  destruct (Z.leb_spec (max_daily_videos (batch config))
              (daily_video_count c)) as [Hd | Hd].
  { destruct (Z.ltb_spec (daily_video_count c)
                (max_daily_videos (batch config))); [lia |].
    exists 1%nat; eexists; reflexivity. }
  destruct (Z.ltb_spec (daily_video_count c)
              (max_daily_videos (batch config))); [| lia].
  destruct (Z.leb_spec (max_hourly_videos (batch config))
              (hourly_video_count c)) as [Hh | Hh].
  { destruct (Z.ltb_spec (hourly_video_count c)
                (max_hourly_videos (batch config))); [lia |].
    exists 1%nat; eexists; reflexivity. }
  destruct (Z.ltb_spec (hourly_video_count c)
              (max_hourly_videos (batch config))); [| lia].
  cbn [andb].
  assert (Hquiet : forall k,
    exists new,
      run env
        (quiet <- _is_quiet_hours config ;;
         if quiet : bool
         then log LogQuietHours ;; Ret false
         else Ret true)%prog
        {| self := c; ticks := k; logged := logged w |} =
      (Ok (negb (quiet_at config (clock env k))),
       {| self := c; ticks := S k; logged := logged w ++ new |})).
  { intros k. rewrite run_bind, run_is_quiet_hours. cbn [ticks].
    destruct (quiet_at config (clock env k)).
    - eexists; reflexivity.
    - exists []; cbn; rewrite app_nil_r; reflexivity. }
  destruct (last_execution c) as [last |].
  - run_cbn.
    destruct (Z.ltb_spec (clock env (S (ticks w)) - last)
                (td_minutes (api_cooldown_minutes (batch config))));
      destruct (Z.leb_spec
                  (td_minutes (api_cooldown_minutes (batch config)))
                  (clock env (S (ticks w)) - last)); try lia.
    + exists 2%nat; eexists; reflexivity.
    + destruct (Hquiet (S (S (ticks w)))) as (new & Hrun).
      exists 3%nat, new; exact Hrun.
  - destruct (Hquiet (S (ticks w))) as (new & Hrun).
    exists 2%nat, new; exact Hrun.
Qed.

(** X5: with a cooldown in the range of a [timedelta] (which matters
    when there was a last execution), the gate lets a cycle pass exactly
    when, on the counters as its reset left them, the daily count is below
    the daily limit, the hourly count is below the hourly limit, the
    cooldown has gone by since the last execution (when there was one) and
    the clock reading that follows is outside the quiet hours.  Whatever
    it answers, it leaves the coordinator as the reset left it. *)
Theorem X5_gate_proceeds_iff :
  forall config env w,
    (last_execution (self w) <> None ->
     timedelta_in_range
       (td_minutes (api_cooldown_minutes (batch config)))) ->
    let now := clock env (ticks w) in
    let c := reset_day now (reset_hour now (self w)) in
    exists proceed w',
      run env (_should_execute config) w = (Ok proceed, w') /\
      self w' = c /\
      (proceed = true <->
       daily_video_count c < max_daily_videos (batch config) /\
       hourly_video_count c < max_hourly_videos (batch config) /\
       match last_execution c with
       | Some last =>
           td_minutes (api_cooldown_minutes (batch config))
             <= clock env (S (ticks w)) - last /\
           quiet_at config (clock env (S (S (ticks w)))) = false
       | None => quiet_at config (clock env (S (ticks w))) = false
       end).
Proof.
  intros config env w _ now c.
  destruct (run_should_execute_verdict config env w) as (n & new & Hrun).
  fold now in Hrun; fold c in Hrun.
  do 2 eexists. split; [exact Hrun |]. split; [reflexivity |].
  rewrite !andb_true_iff, !Z.ltb_lt.
  destruct (last_execution c) as [last |].
  - rewrite andb_true_iff, Z.leb_le, negb_true_iff. tauto.
  - rewrite negb_true_iff. tauto.
Qed.

(** One minute after a cycle, with the default cooldown of five minutes,
    the gate does not let the next cycle pass; six minutes after it, it
    does. *)
Lemma X5_gate_proceeds_iff_witness :
  (exists w',
     run (still_clock (at_hms 12 0 0)) (_should_execute DEFAULT_CONFIG)
         just_ran_world = (Ok false, w')) /\
  (exists w',
     run (still_clock (at_hms 12 5 0)) (_should_execute DEFAULT_CONFIG)
         just_ran_world = (Ok true, w')).
Proof.
  assert (Hrange :
    last_execution (self just_ran_world) <> None ->
    timedelta_in_range
      (td_minutes (api_cooldown_minutes (batch DEFAULT_CONFIG)))).
  { intros _. vm_compute. split; [discriminate | reflexivity]. }
  split.
  - destruct (X5_gate_proceeds_iff DEFAULT_CONFIG
                (still_clock (at_hms 12 0 0)) just_ran_world Hrange)
      as (b & w' & Hrun & _ & Hiff).
    exists w'. rewrite Hrun. destruct b; [| reflexivity].
    destruct Hiff as [Hiff _]. destruct (Hiff eq_refl) as (_ & _ & Hcool).
    vm_compute in Hcool. destruct Hcool as [Hcool _].
    exfalso; apply Hcool; reflexivity.
  - destruct (X5_gate_proceeds_iff DEFAULT_CONFIG
                (still_clock (at_hms 12 5 0)) just_ran_world Hrange)
      as (b & w' & Hrun & _ & Hiff).
    exists w'. rewrite Hrun. f_equal. f_equal. apply Hiff.
    vm_compute. repeat split; discriminate.
Defined.

(** X6: the reset marks never move backwards.  After a gate evaluation at
    the clock reading now, each mark is either where it was or at now, it
    is not earlier than before, and it is less than its window (one hour,
    one day) behind now; each counter is either what it was or 0. *)
Theorem X6_reset_marks_move_forward :
  forall config env w,
    let now := clock env (ticks w) in
    exists proceed w',
      run env (_should_execute config) w = (Ok proceed, w') /\
      last_hour_reset (self w) <= last_hour_reset (self w') /\
      now - last_hour_reset (self w') < td_hours 1 /\
      last_day_reset (self w) <= last_day_reset (self w') /\
      now - last_day_reset (self w') < td_days 1 /\
      (hourly_video_count (self w') = hourly_video_count (self w) \/
       hourly_video_count (self w') = 0) /\
      (daily_video_count (self w') = daily_video_count (self w) \/
       daily_video_count (self w') = 0).
Proof.
  intros config env w now.
  destruct (run_should_execute config env w)
    as (b & n & new & Hrun & _). fold now in Hrun.
  do 2 eexists. split; [exact Hrun |]. cbn [self].
  destruct (reset_hourly_fields now (self w)) as [Hc Hm].
  destruct (reset_daily_fields now (self w)) as [Hdc Hdm].
  rewrite Hc, Hm, Hdc, Hdm.
  destruct (Z.leb_spec (td_hours 1) (now - last_hour_reset (self w)));
    destruct (Z.leb_spec (td_days 1) (now - last_day_reset (self w)));
    unfold td_hours, td_days in *; repeat split; auto; lia.
Qed.

(** The decider with the agent the repository ships and no forced
    count. *)
Lemma run_decide_with_placeholder config env platforms niche w :
  let decided :=
    if adaptive (batch config) && agent_has_veto config
    then
      if peak_hour (hour (time_of (clock env (S (ticks w)))))
      then Z.min (default_batch_size (batch config) + 1)
             (max_videos (batch config))
      else default_batch_size (batch config)
    else default_batch_size (batch config) in
  exists n,
    run env
      (_determine_batch_size config (_ask_agent_for_batch_size config)
         None platforms niche) w
    = (Ok decided, tick n w).
Proof.
  cbv zeta. unfold _determine_batch_size.
  destruct (adaptive (batch config) && agent_has_veto config).
  - rewrite run_try_except, run_bind.
    unfold _ask_agent_for_batch_size.
    rewrite run_bind. cbn [get_self trigger run handle fst snd].
    rewrite run_bind, run_get_recent_performance, run_bind.
    cbn [utcnow trigger run handle fst snd].
    rewrite run_try_except. run_cbn.
    exists 2%nat. unfold peak_hour, tick. cbn [Nat.add].
    destruct (_ || _); reflexivity.
  - exists 0%nat. destruct w; reflexivity.
Qed.

(** X7: the batch size with the agent the repository ships.  With no
    forced count the decider never raises and leaves the coordinator as it
    is; it answers the default batch size, or the default plus one capped
    by [max_videos].  So with a default and a maximum of at least 1 the
    size is at least 1: the shipped agent never vetoes, and no cycle
    without a forced count returns the result of a veto of the agent.
    When the statistics of the history exist, the decider logs nothing and
    answers the capped default plus one exactly in the adaptive mode with
    the agent's veto, in the peak hours (9 to 11 and 15 to 17, by the
    second clock reading of the decision). *)
Theorem X7_placeholder_decision :
  forall config env platforms niche,
    let default := default_batch_size (batch config) in
    let raised := Z.min (default + 1) (max_videos (batch config)) in
    (forall w,
       exists size w',
         run env
           (_determine_batch_size config (_ask_agent_for_batch_size config)
              None platforms niche) w
           = (Ok size, w') /\
         self w' = self w /\
         (size = default \/ size = raised) /\
         (1 <= default -> 1 <= max_videos (batch config) -> 1 <= size) /\
         (performance_exists (execution_history (self w)) ->
          logged w' = logged w /\
          size = (if adaptive (batch config) && agent_has_veto config
                     && peak_hour (hour (time_of (clock env (S (ticks w)))))
                  then raised else default))) /\
    (1 <= default -> 1 <= max_videos (batch config) ->
     forall memory w r w',
       run env
         (BatchCoordinator_execute_batch config memory platforms niche None)
         w = (Ok r, w') ->
       agent_decision r <> [("reason", "Agent vetoed execution")]).
Proof.
  intros config env platforms niche default raised.
  assert (Hsize : forall w,
    exists size n,
      run env
        (_determine_batch_size config (_ask_agent_for_batch_size config)
           None platforms niche) w
        = (Ok size, tick n w) /\
      (size = default \/ size = raised) /\
      size = (if adaptive (batch config) && agent_has_veto config
                 && peak_hour (hour (time_of (clock env (S (ticks w)))))
              then raised else default)).
  { intros w.
    destruct (run_decide_with_placeholder config env platforms niche w)
      as (n & Hrun).
    eexists; exists n. split; [exact Hrun |]. fold default raised.
    destruct (adaptive (batch config) && agent_has_veto config);
      cbn [andb];
      [destruct (peak_hour _) |]; auto. }
  split.
  - intros w. destruct (Hsize w) as (size & n & Hrun & Hcases & Heq).
    exists size, (tick n w). split; [exact Hrun |].
    split; [reflexivity |]. split; [exact Hcases |].
    split; [| intros _; split; [reflexivity | exact Heq]].
    intros Hd Hm. unfold raised in Hcases. lia.
  - intros Hd Hm memory w r w' Hrun.
    unfold BatchCoordinator_execute_batch in Hrun.
    rewrite run_execute_batch in Hrun.
    set (bid := batch_id_of (clock env (ticks w))) in *.
    set (start := clock env (S (ticks w))) in *.
    destruct (run_should_execute config env (entered env w))
      as (proceed & k & new & Hgate & _).
    destruct (run_execute_batch_body config memory
                (_ask_agent_for_batch_size config) _store_batch_result
                env bid start platforms niche None (entered env w)
                proceed _ Hgate) as [Hveto Hpass].
    destruct proceed.
    + match type of Hgate with
      | _ = (_, ?wg) =>
          destruct (Hsize wg) as (size & n & Hdec & Hcases & _)
      end.
      assert (Hne : size <> 0) by (unfold raised in Hcases; lia).
      destruct (Hpass eq_refl size _ Hdec) as [_ Hsome].
      destruct (Hsome Hne) as (results & wv & r0 & _ & Hcomp & Hbody).
      rewrite Hbody in Hrun.
      destruct (run_compile_batch_result env bid size results start wv)
        as (r' & Hcomp' & _ & _ & _ & _ & _ & _ & Hrat & _).
      rewrite Hcomp in Hcomp'; injection Hcomp' as <-.
      destruct memory; cbn in Hrun; injection Hrun as <- _;
        rewrite Hrat; discriminate.
    + rewrite (Hveto eq_refl) in Hrun. injection Hrun as <- _.
      cbn. discriminate.
Qed.

(** At ten in the morning, a peak hour, the shipped decider answers 4 for
    the default of 3, and the cycle it decides for is not vetoed. *)
Lemma X7_placeholder_decision_witness :
  fst (run (still_clock (at_hms 10 0 0))
         (_determine_batch_size DEFAULT_CONFIG
            (_ask_agent_for_batch_size DEFAULT_CONFIG) None None None)
         fresh_world) = Ok 4 /\
  exists r w',
    run (still_clock (at_hms 10 0 0))
      (BatchCoordinator_execute_batch DEFAULT_CONFIG false None None None)
      fresh_world = (Ok r, w') /\
    requested_count r = 4 /\
    agent_decision r <> [("reason", "Agent vetoed execution")].
Proof.
  destruct (X7_placeholder_decision DEFAULT_CONFIG
              (still_clock (at_hms 10 0 0)) None None) as [Hdec Hcycle].
  split.
  - destruct (Hdec fresh_world) as (size & w' & Hrun & _ & _ & _ & Hexact).
    rewrite Hrun. cbn [fst]. f_equal.
    destruct Hexact as [_ ->]; [| vm_compute; reflexivity].
    split; intros H; [vm_compute in H; discriminate H |].
    exfalso; apply H; reflexivity.
  - do 2 eexists. split; [vm_compute; reflexivity |].
    split; [reflexivity |].
    refine (Hcycle _ _ false fresh_world _ _ _);
      [vm_compute; discriminate | vm_compute; discriminate
      | vm_compute; reflexivity].
Defined.

(** At noon, outside the peak hours, it answers the default of 3. *)
Example decided_outside_peak_hours :
  fst (run (still_clock (at_hms 12 0 0))
         (_determine_batch_size DEFAULT_CONFIG
            (_ask_agent_for_batch_size DEFAULT_CONFIG) None None None)
         fresh_world) = Ok 3.
Proof. vm_compute; reflexivity. Qed.

Lemma sum_of_bounds (l : list BatchResult) :
  Forall (fun b => 0 <= successful_count b <= requested_count b) l ->
  0 <= sum_of successful_count l <= sum_of requested_count l.
Proof.
  unfold sum_of. induction 1 as [| b l Hb _ IH]; cbn [map fold_right]; lia.
Qed.

(** X8: when every entry of the window has between 0 and its requested
    count of successes, the success rate reported lies between 0 and 1. *)
Theorem X8_success_rate_between_0_and_1 :
  forall env w,
    execution_history (self w) <> [] ->
    Forall (fun b => 0 <= successful_count b <= requested_count b)
      (last_n 10 (execution_history (self w))) ->
    exists rate average n,
      run env _get_recent_performance w
        = (Ok (RecentPerformance rate average n), w) /\
      (0 <= rate)%Q /\ (rate <= 1)%Q.
Proof.
  intros env w Hne Hall.
  rewrite run_get_recent_performance.
  destruct (execution_history (self w)) as [| b l] eqn:E; [congruence |].
  rewrite <- E in *. cbv zeta.
  set (recent := last_n 10 (execution_history (self w))) in *.
  destruct (sum_of_bounds recent Hall) as [H0 H1].
  do 3 eexists. split; [reflexivity |].
  destruct (Z.ltb_spec 0 (sum_of requested_count recent)) as [Hpos | Hnp].
  - assert (Hq : (0 < inject_Z (sum_of requested_count recent))%Q).
    { unfold Qlt; cbn; lia. }
    split.
    + apply Qle_shift_div_l; [exact Hq |].
      rewrite Qmult_0_l. unfold Qle; cbn; lia.
    + apply Qle_shift_div_r; [exact Hq |].
      rewrite Qmult_1_l. unfold Qle; cbn; lia.
  - split; unfold Qle; cbn; lia.
Qed.

Lemma X8_success_rate_between_0_and_1_witness :
  let w := snd (run (noon_clock 600)
                  (BatchCoordinator_execute_batch DEFAULT_CONFIG false
                     None None (Some 2)) fresh_world) in
  exists rate average n,
    run (noon_clock 600) _get_recent_performance w
      = (Ok (RecentPerformance rate average n), w) /\
    (0 <= rate)%Q /\ (rate <= 1)%Q.
Proof.
  intros w. apply X8_success_rate_between_0_and_1.
  - vm_compute; discriminate.
  - vm_compute. constructor; [| constructor].
    split; discriminate.
Defined.

(* ------------------------------------------------------------------ *)
(** ** Further properties: the cycle *)

Lemma recorded_history now result c :
  exists dropped kept,
    execution_history c = dropped ++ kept /\
    execution_history (recorded now result c) = kept ++ [result] /\
    ((List.length (execution_history c) <= 100)%nat ->
     (List.length (execution_history (recorded now result c)) <= 100)%nat).
Proof.
  cbn [recorded execution_history]. set (h := execution_history c).
  assert (Hlen : len (h ++ [result]) = Z.of_nat (S (List.length h))).
  { unfold len. rewrite length_app. cbn. f_equal. lia. }
  destruct (Z.ltb_spec 100 (len (h ++ [result]))) as [Hbig | Hsmall].
  - exists (firstn (List.length h - 99) h), (last_n 99 h).
    split; [unfold last_n; symmetry; apply firstn_skipn |].
    rewrite (last_n_snoc BatchResult 99). split; [reflexivity |].
    intros _. rewrite length_app, last_n_length. cbn [List.length]. lia.
  - exists [], h. split; [reflexivity |]. split; [reflexivity |].
    intros _. rewrite length_app. cbn [List.length]. lia.
Qed.

(** A cycle of the coordinator as the repository ships it either skips,
    and then leaves the coordinator as the gate's reset left it, or runs
    and compiles a batch of a size other than 0, and then leaves it with
    that batch recorded; in both cases without a current batch id. *)
Lemma run_placeholder_cycle config memory env w platforms niche force :
  let bid := batch_id_of (clock env (ticks w)) in
  let start := clock env (S (ticks w)) in
  let now := clock env (S (S (ticks w))) in
  let c := reset_day now
             (reset_hour now (set_current_batch (Some bid) (self w))) in
  exists r w',
    run env
      (BatchCoordinator_execute_batch config memory platforms niche force) w
      = (Ok r, w') /\
    ((exists reason t,
        r = skipped_result bid reason t /\
        self w' = set_current_batch None c)
     \/
     (exists results ws wv t,
        requested_count r <> 0 /\
        daily_video_count c < max_daily_videos (batch config) /\
        hourly_video_count c < max_hourly_videos (batch config) /\
        run env
          (_execute_videos config (requested_count r) platforms niche) ws
          = (Ok results, wv) /\
        run env
          (_compile_batch_result bid (requested_count r) results start) wv
          = (Ok r, tick 2 wv) /\
        self w' = set_current_batch None (recorded t r c))).
Proof.
  intros bid start now c.
  unfold BatchCoordinator_execute_batch. rewrite run_execute_batch.
  fold bid start.
  destruct (run_should_execute config env (entered env w))
    as (proceed & k & new & Hgate & Hout).
  cbn [entered self ticks logged] in Hgate, Hout.
  fold bid now in Hgate, Hout. fold c in Hgate, Hout.
  destruct (run_execute_batch_body config memory
              (_ask_agent_for_batch_size config) _store_batch_result
              env bid start platforms niche force (entered env w)
              proceed _ Hgate) as [Hveto Hpass].
  destruct proceed.
  - clear Hveto.
    match type of Hgate with
    | _ = (_, ?wg) =>
        destruct (run_determine_batch_size config env force platforms niche
                    wg) as (size & n & Hsize)
    end.
    destruct (Hpass eq_refl size _ Hsize) as [Hzero Hsome].
    destruct (Z.eq_dec size 0) as [E | E].
    + rewrite (Hzero E). do 2 eexists. split; [reflexivity |].
      left. do 2 eexists. split; reflexivity.
    + destruct (Hsome E) as (results & wv & r & Hvid & Hcomp & Hbody).
      rewrite Hbody.
      destruct (run_compile_batch_result env bid size results start wv)
        as (r' & Hcomp' & _ & Hreq & _).
      rewrite Hcomp in Hcomp'; injection Hcomp' as <-.
      match type of Hvid with
      | run _ _ ?ws = _ =>
          destruct (run_execute_videos config env size platforms niche ws)
            as (results' & wv' & new' & Hvid' & Hself & _)
      end.
      rewrite Hvid in Hvid'; injection Hvid' as <- <-.
      cbn [with_log tick self] in Hself.
      inversion Hout.
      destruct memory;
        (exists r; eexists; split; [reflexivity |];
         right; rewrite Hreq; do 4 eexists;
         split; [exact E |]; split; [assumption |]; split; [assumption |];
         split; [exact Hvid |]; split; [exact Hcomp |];
         cbn; rewrite Hself; reflexivity).
  - rewrite (Hveto eq_refl). do 2 eexists. split; [reflexivity |].
    left. do 2 eexists. split; reflexivity.
Qed.

(** X9: a cycle that runs alone, from its call to its return with no
    other cycle served while it waits, and runs a batch counts its
    successes: the daily and the hourly count are what the gate's reset
    left (0 after a window that had gone by, the old count otherwise) plus
    the successful count of the result, the result is the newest entry of
    the history, the last execution is set and the batch id is cleared.
    The limits are checked before the batch only: afterwards each count is
    below its limit plus the successes of this batch.  (Cycles that
    overlap count on the same counters, and the bound is lost.) *)
Theorem X9_cycle_counts_its_successes :
  forall config memory env w platforms niche force r w',
    run env
      (BatchCoordinator_execute_batch config memory platforms niche force) w
      = (Ok r, w') ->
    requested_count r <> 0 ->
    let now := clock env (S (S (ticks w))) in
    daily_video_count (self w')
      = (if td_days 1 <=? now - last_day_reset (self w)
         then 0 else daily_video_count (self w)) + successful_count r /\
    hourly_video_count (self w')
      = (if td_hours 1 <=? now - last_hour_reset (self w)
         then 0 else hourly_video_count (self w)) + successful_count r /\
    daily_video_count (self w')
      < max_daily_videos (batch config) + successful_count r /\
    hourly_video_count (self w')
      < max_hourly_videos (batch config) + successful_count r /\
    (exists dropped kept,
       execution_history (self w) = dropped ++ kept /\
       execution_history (self w') = kept ++ [r]) /\
    (exists t, last_execution (self w') = Some t) /\
    current_batch (self w') = None.
Proof.
  intros config memory env w platforms niche force r w' Hrun Hreq now.
  destruct (run_placeholder_cycle config memory env w platforms niche force)
    as (r0 & w0 & Hrun0 & Hcases).
  rewrite Hrun in Hrun0; injection Hrun0 as <- <-.
  destruct Hcases as [(reason & t & -> & _) | Hran];
    [cbn in Hreq; congruence |].
  destruct Hran as (results & ws & wv & t & _ & Hd & Hh & _ & _ & Hself).
  fold now in Hd, Hh, Hself.
  set (b := set_current_batch
              (Some (batch_id_of (clock env (ticks w)))) (self w)) in *.
  destruct (reset_daily_fields now b) as [Hdc _].
  destruct (reset_hourly_fields now b) as [Hhc _].
  destruct (reset_other_fields now b) as (_ & Hhist & _).
  destruct (recorded_history t r (reset_day now (reset_hour now b)))
    as (dropped & kept & Hold & Hnew & _).
  rewrite Hself.
  cbn [set_current_batch recorded daily_video_count hourly_video_count
       execution_history last_execution current_batch].
  rewrite Hdc, Hhc in *. cbn [recorded execution_history] in Hnew.
  rewrite Hhist in Hold. cbn [b set_current_batch execution_history
                              daily_video_count hourly_video_count
                              last_day_reset last_hour_reset] in *.
  split; [reflexivity |]. split; [reflexivity |].
  split; [lia |]. split; [lia |].
  split; [exists dropped, kept; split; assumption |].
  split; [eexists; reflexivity | reflexivity].
Qed.

Lemma X9_cycle_counts_its_successes_witness :
  let w' := snd (run (noon_clock 1)
                   (BatchCoordinator_execute_batch DEFAULT_CONFIG false
                      None None (Some 2)) fresh_world) in
  daily_video_count (self w') = 0 + 2 /\
  hourly_video_count (self w') = 0 + 2 /\
  daily_video_count (self w') < 20 + 2 /\
  hourly_video_count (self w') < 8 + 2 /\
  (exists dropped kept,
     execution_history (self fresh_world) = dropped ++ kept /\
     List.length (execution_history (self w')) = S (List.length kept)) /\
  (exists t, last_execution (self w') = Some t) /\
  current_batch (self w') = None.
Proof.
  intros w'.
  destruct (X9_cycle_counts_its_successes DEFAULT_CONFIG false (noon_clock 1)
              fresh_world None None (Some 2)
              (match fst (run (noon_clock 1)
                            (BatchCoordinator_execute_batch DEFAULT_CONFIG
                               false None None (Some 2)) fresh_world) with
               | Ok r => r
               | _ => skipped_result (batch_ 0) "" 0
               end) w')
    as (Hd & Hh & Hdl & Hhl & (dropped & kept & Hold & Hnew) & Ht & Hb).
  - vm_compute; reflexivity.
  - vm_compute; discriminate.
  - split; [exact Hd |]. split; [exact Hh |].
    split; [exact Hdl |]. split; [exact Hhl |].
    split; [| split; assumption].
    exists dropped, kept. split; [exact Hold |].
    rewrite Hnew, length_app. cbn. lia.
Defined.

Lemma run_get_stats env w :
  exists perf,
    run env get_stats w
    = (Ok {| stats_daily_videos := daily_video_count (self w);
             stats_hourly_videos := hourly_video_count (self w);
             stats_total_batches := List.length (execution_history (self w));
             stats_recent_performance := perf;
             stats_is_running :=
               match current_batch (self w) with
               | Some _ => true
               | None => false
               end;
             stats_current_batch := current_batch (self w) |}, w).
Proof.
  unfold get_stats. rewrite run_bind. cbn [get_self trigger run handle fst snd].
  rewrite run_bind, run_get_recent_performance. eexists; reflexivity.
Qed.

(** X10: with no cycle in flight the coordinator is in order, and a cycle
    that runs alone, from its call to its return, keeps it so: no current
    batch id, at most 100 entries in the history, counters that are not
    negative, and no entry of the history with a requested count of 0 or
    with a rationale (the results built for a cycle the gate or a zero
    size skipped, and for a failed one, have both and are not recorded).
    When the statistics of the history exist, [get_stats] then reads the
    coordinator without changing anything and reports it as not running,
    with at most 100 batches and counts that are not negative. *)
Theorem X10_cycle_keeps_coordinator_in_order :
  forall config memory env w platforms niche force r w',
    coordinator_ok (self w) ->
    run env
      (BatchCoordinator_execute_batch config memory platforms niche force) w
      = (Ok r, w') ->
    coordinator_ok (self w') /\
    (performance_exists (execution_history (self w')) ->
     exists stats,
       run env get_stats w' = (Ok stats, w') /\
       stats_is_running stats = false /\
       (stats_total_batches stats <= 100)%nat /\
       0 <= stats_daily_videos stats /\
       0 <= stats_hourly_videos stats).
Proof.
  intros config memory env w platforms niche force r w'
    (Hbatch & Hlen & Hdaily & Hhourly & Hall) Hrun.
  assert (Hok : coordinator_ok (self w')).
  { destruct (run_placeholder_cycle config memory env w platforms niche
                force) as (r0 & w0 & Hrun0 & Hcases).
    rewrite Hrun in Hrun0; injection Hrun0 as <- <-.
    set (now := clock env (S (S (ticks w)))) in *.
    set (b := set_current_batch
                (Some (batch_id_of (clock env (ticks w)))) (self w)) in *.
    destruct (reset_daily_fields now b) as [Hdc _].
    destruct (reset_hourly_fields now b) as [Hhc _].
    destruct (reset_other_fields now b) as (_ & Hhist & _).
    unfold b in Hdc, Hhc, Hhist.
    cbn [set_current_batch execution_history daily_video_count
         hourly_video_count last_day_reset last_hour_reset]
      in Hdc, Hhc, Hhist.
    fold b in Hdc, Hhc, Hhist.
    destruct Hcases as [(reason & t & _ & Hself) | Hran].
    - rewrite Hself. unfold coordinator_ok.
      cbn [set_current_batch current_batch execution_history
           daily_video_count hourly_video_count].
      rewrite Hdc, Hhc, Hhist.
      split; [reflexivity |]. split; [exact Hlen |].
      split; [destruct (td_days 1 <=? _); lia |].
      split; [destruct (td_hours 1 <=? _); lia | exact Hall].
    - destruct Hran
        as (results & ws & wv & t & Hreq & _ & _ & _ & Hcomp & Hself).
      destruct (run_compile_batch_result env
                  (batch_id_of (clock env (ticks w))) (requested_count r)
                  results (clock env (S (ticks w))) wv)
        as (r' & Hcomp' & _ & _ & Hsucc & _ & _ & _ & Hrat & _).
      rewrite Hcomp in Hcomp'; injection Hcomp' as <-.
      pose proof (count_status_nonneg "success" results) as Hnn.
      rewrite <- Hsucc in Hnn.
      destruct (recorded_history t r (reset_day now (reset_hour now b)))
        as (dropped & kept & Hold & Hnew & Hbound).
      rewrite Hhist in Hold, Hbound.
      rewrite Hself. unfold coordinator_ok.
      cbn [set_current_batch current_batch execution_history
           daily_video_count hourly_video_count].
      split; [reflexivity |]. split; [exact (Hbound Hlen) |].
      cbn [recorded daily_video_count hourly_video_count].
      rewrite Hdc, Hhc.
      split; [destruct (td_days 1 <=? _); lia |].
      split; [destruct (td_hours 1 <=? _); lia |].
      rewrite Hnew, Hold in *. apply Forall_app in Hall.
      apply Forall_app. split; [apply Hall |].
      constructor; [split; assumption | constructor]. }
  split; [exact Hok |]. intros _.
  destruct Hok as (Hb' & Hl' & Hd' & Hh' & _).
  destruct (run_get_stats env w') as (perf & Hstats).
  eexists. split; [exact Hstats |].
  cbn [stats_is_running stats_total_batches stats_daily_videos
       stats_hourly_videos].
  rewrite Hb'. repeat split; assumption.
Qed.

Lemma X10_cycle_keeps_coordinator_in_order_witness :
  let w' := snd (run (noon_clock 1)
                   (BatchCoordinator_execute_batch DEFAULT_CONFIG false
                      None None None) fresh_world) in
  coordinator_ok (self w') /\
  exists stats,
    run (noon_clock 1) get_stats w' = (Ok stats, w') /\
    stats_is_running stats = false /\
    (stats_total_batches stats <= 100)%nat /\
    0 <= stats_daily_videos stats /\
    0 <= stats_hourly_videos stats.
Proof.
  intros w'.
  destruct (X10_cycle_keeps_coordinator_in_order DEFAULT_CONFIG false
              (noon_clock 1) fresh_world None None None
              (match fst (run (noon_clock 1)
                            (BatchCoordinator_execute_batch DEFAULT_CONFIG
                               false None None None) fresh_world) with
               | Ok r => r
               | _ => skipped_result (batch_ 0) "" 0
               end) w') as [Hok Hstats].
  - unfold coordinator_ok; cbn.
    repeat split; try lia; constructor.
  - vm_compute; reflexivity.
  - split; [exact Hok |]. apply Hstats.
    split; intros _; vm_compute; reflexivity.
Defined.

(* ------------------------------------------------------------------ *)
(** ** Further properties: vetoes and failures of a cycle *)

(** X11: a cycle that starts within the cooldown is skipped.  When the
    cooldown is in the range of a [timedelta], there was a last execution
    and the clock reading the gate takes for the cooldown (the fourth of
    the cycle) is less than [api_cooldown_minutes] after it, the cycle
    returns a SKIPPED result with no items and all counts 0, and the last
    execution and the history stay as they were. *)
Theorem X11_cooldown_skips_cycle :
  forall config memory env w platforms niche force last,
    timedelta_in_range (td_minutes (api_cooldown_minutes (batch config))) ->
    last_execution (self w) = Some last ->
    clock env (S (S (S (ticks w)))) - last
      < td_minutes (api_cooldown_minutes (batch config)) ->
    exists r w',
      run env
        (BatchCoordinator_execute_batch config memory platforms niche force) w
        = (Ok r, w') /\
      status r = SKIPPED /\
      requested_count r = 0 /\
      successful_count r = 0 /\
      videos r = [] /\
      agent_decision r = [("reason", "Rate limit or quiet hours")] /\
      last_execution (self w') = Some last /\
      execution_history (self w') = execution_history (self w).
Proof.
  intros config memory env w platforms niche force last _ Hlast Hcool.
  unfold BatchCoordinator_execute_batch. rewrite run_execute_batch.
  destruct (run_should_execute_verdict config env (entered env w))
    as (n & new & Hgate).
  cbn [entered self ticks logged] in Hgate.
  set (now := clock env (S (S (ticks w)))) in *.
  set (b := set_current_batch
              (Some (batch_id_of (clock env (ticks w)))) (self w)) in *.
  destruct (reset_other_fields now b) as (_ & Hhist & Hle).
  unfold b in Hhist, Hle.
  cbn [set_current_batch execution_history last_execution] in Hhist, Hle.
  fold b in Hhist, Hle.
  rewrite Hle, Hlast in Hgate.
  destruct (Z.leb_spec (td_minutes (api_cooldown_minutes (batch config)))
              (clock env (S (S (S (ticks w)))) - last)); [lia |].
  rewrite andb_false_l, andb_false_r in Hgate.
  match type of Hgate with
  | _ = (_, ?wg) =>
      destruct (run_execute_batch_body config memory
                  (_ask_agent_for_batch_size config) _store_batch_result env
                  (batch_id_of (clock env (ticks w)))
                  (clock env (S (ticks w))) platforms niche force
                  (entered env w) false wg Hgate) as [Hveto _]
  end.
  rewrite (Hveto eq_refl). do 2 eexists. split; [reflexivity |].
  cbn [skipped_result status requested_count successful_count videos
       agent_decision cleared tick self set_current_batch last_execution
       execution_history].
  rewrite Hle, Hhist, Hlast. repeat split.
Qed.

Lemma X11_cooldown_skips_cycle_witness :
  exists r w',
    run (noon_clock 1)
      (BatchCoordinator_execute_batch DEFAULT_CONFIG false None None None)
      just_ran_world
      = (Ok r, w') /\
    status r = SKIPPED /\
    requested_count r = 0 /\
    successful_count r = 0 /\
    videos r = [] /\
    agent_decision r = [("reason", "Rate limit or quiet hours")] /\
    last_execution (self w') = Some (at_hms 11 59 0) /\
    execution_history (self w') = execution_history (self just_ran_world).
Proof.
  apply (X11_cooldown_skips_cycle DEFAULT_CONFIG false (noon_clock 1)
           just_ran_world None None None (at_hms 11 59 0));
    [vm_compute; split; [discriminate | reflexivity]
    | reflexivity | vm_compute; reflexivity].
Defined.

(** X12: a cycle that starts with the daily limit reached is skipped.
    When the daily count is at or above [max_daily_videos] and the day
    window has not gone by at the gate's clock reading, the cycle returns
    a SKIPPED result with all counts 0, logs the daily limit with the
    count, and leaves the count as it was. *)
Theorem X12_daily_limit_skips_cycle :
  forall config memory env w platforms niche force,
    max_daily_videos (batch config) <= daily_video_count (self w) ->
    clock env (S (S (ticks w))) - last_day_reset (self w) < td_days 1 ->
    exists r w',
      run env
        (BatchCoordinator_execute_batch config memory platforms niche force) w
        = (Ok r, w') /\
      status r = SKIPPED /\
      requested_count r = 0 /\
      videos r = [] /\
      In (LogDailyLimit (daily_video_count (self w))) (logged w') /\
      daily_video_count (self w') = daily_video_count (self w).
Proof.
  intros config memory env w platforms niche force Hlimit Hday.
  unfold BatchCoordinator_execute_batch. rewrite run_execute_batch.
  destruct (run_should_execute config env (entered env w))
    as (proceed & k & new & Hgate & Hout).
  cbn [entered self ticks logged] in Hgate, Hout.
  set (now := clock env (S (S (ticks w)))) in *.
  set (b := set_current_batch
              (Some (batch_id_of (clock env (ticks w)))) (self w)) in *.
  destruct (reset_daily_fields now b) as [Hdc _].
  unfold b in Hdc.
  cbn [set_current_batch daily_video_count last_day_reset] in Hdc.
  fold b in Hdc.
  destruct (Z.leb_spec (td_days 1) (now - last_day_reset (self w)));
    [lia |].
  inversion Hout as [Hd | Hd | Hd | Hd | Hd]; try (rewrite Hdc in Hd; lia).
  subst proceed new.
  match type of Hgate with
  | _ = (_, ?wg) =>
      destruct (run_execute_batch_body config memory
                  (_ask_agent_for_batch_size config) _store_batch_result env
                  (batch_id_of (clock env (ticks w)))
                  (clock env (S (ticks w))) platforms niche force
                  (entered env w) false wg Hgate) as [Hveto _]
  end.
  rewrite (Hveto eq_refl). do 2 eexists. split; [reflexivity |].
  cbn [skipped_result status requested_count videos cleared tick self
       logged set_current_batch daily_video_count].
  rewrite Hdc. repeat split.
  apply in_or_app; right; left; reflexivity.
Qed.

Lemma X12_daily_limit_skips_cycle_witness :
  exists r w',
    run (noon_clock 1)
      (BatchCoordinator_execute_batch DEFAULT_CONFIG false None None None)
      daily_limit_world
      = (Ok r, w') /\
    status r = SKIPPED /\
    requested_count r = 0 /\
    videos r = [] /\
    In (LogDailyLimit 20) (logged w') /\
    daily_video_count (self w') = 20.
Proof.
  apply (X12_daily_limit_skips_cycle DEFAULT_CONFIG false (noon_clock 1)
           daily_limit_world None None None);
    [vm_compute; discriminate | vm_compute; reflexivity].
Defined.

(** X13: the memory store is called after the batch is recorded.  When
    the store raises, the cycle returns a FAILED result with requested and
    successful counts 0 and the error as its rationale, while the batch
    that ran is already the newest entry of the history, its successes are
    already counted and the last execution is already set. *)
Theorem X13_store_failure_after_recording :
  forall config ask store env w platforms niche force e wg size ws,
    run env (_should_execute config) (entered env w) = (Ok true, wg) ->
    run env (_determine_batch_size config ask force platforms niche) wg
      = (Ok size, ws) ->
    size <> 0 ->
    (forall r w0, run env (store r) w0 = (Raise e, w0)) ->
    exists r w' ran,
      run env (execute_batch config true ask store platforms niche force) w
        = (Ok r, w') /\
      status r = FAILED /\
      requested_count r = 0 /\
      successful_count r = 0 /\
      agent_decision r = [("error", e)] /\
      requested_count ran = size /\
      (exists kept, execution_history (self w') = kept ++ [ran]) /\
      daily_video_count (self w')
        = daily_video_count (self ws) + successful_count ran /\
      hourly_video_count (self w')
        = hourly_video_count (self ws) + successful_count ran /\
      (exists t, last_execution (self w') = Some t).
Proof.
  intros config ask store env w platforms niche force e wg size ws
    Hgate Hsize Hne Hstore.
  rewrite run_execute_batch.
  destruct (run_execute_batch_body config true ask store env
              (batch_id_of (clock env (ticks w))) (clock env (S (ticks w)))
              platforms niche force (entered env w) true wg Hgate)
    as [_ Hpass].
  destruct (Hpass eq_refl size ws Hsize) as [_ Hsome].
  destruct (Hsome Hne) as (results & wv & ran & Hvid & Hcomp & Hbody).
  rewrite Hbody, Hstore.
  destruct (run_compile_batch_result env
              (batch_id_of (clock env (ticks w))) size results
              (clock env (S (ticks w))) wv)
    as (r' & Hcomp' & _ & Hreq & _).
  rewrite Hcomp in Hcomp'; injection Hcomp' as <-.
  destruct (run_execute_videos config env size platforms niche
              (with_log (LogBatchSize size) ws))
    as (results' & wv' & new' & Hvid' & Hself & _).
  rewrite Hvid in Hvid'; injection Hvid' as <- <-.
  cbn [with_log self] in Hself.
  destruct (recorded_history (clock env (S (S (ticks wv)))) ran (self wv))
    as (dropped & kept & _ & Hnew & _).
  do 2 eexists. exists ran. split; [reflexivity |].
  cbn [failed_result status requested_count successful_count agent_decision
       cleared tick with_log self set_current_batch execution_history
       daily_video_count hourly_video_count last_execution].
  rewrite Hnew. cbn [recorded daily_video_count hourly_video_count
                     last_execution]. rewrite Hself.
  repeat split; try assumption; eexists; reflexivity.
Qed.

Lemma X13_store_failure_after_recording_witness :
  exists r w' ran,
    run (noon_clock 1)
      (execute_batch DEFAULT_CONFIG true
         (_ask_agent_for_batch_size DEFAULT_CONFIG) failing_store
         None None (Some 2))
      fresh_world
      = (Ok r, w') /\
    status r = FAILED /\
    requested_count r = 0 /\
    successful_count r = 0 /\
    agent_decision r = [("error", "memory store unavailable")] /\
    requested_count ran = 2 /\
    (exists kept, execution_history (self w') = kept ++ [ran]) /\
    daily_video_count (self w') = 0 + successful_count ran /\
    hourly_video_count (self w') = 0 + successful_count ran /\
    (exists t, last_execution (self w') = Some t).
Proof.
  refine (X13_store_failure_after_recording DEFAULT_CONFIG
            (_ask_agent_for_batch_size DEFAULT_CONFIG) failing_store
            (noon_clock 1) fresh_world None None (Some 2)
            "memory store unavailable"
            (snd (run (noon_clock 1) (_should_execute DEFAULT_CONFIG)
                    (entered (noon_clock 1) fresh_world)))
            2
            (snd (run (noon_clock 1) (_should_execute DEFAULT_CONFIG)
                    (entered (noon_clock 1) fresh_world)))
            _ _ _ _);
    [vm_compute; reflexivity | reflexivity | discriminate
    | intros r w0; reflexivity].
Defined.

(* ------------------------------------------------------------------ *)
(** ** Further properties: loading the configuration *)

Lemma length_heap_set i x h : List.length (heap_set i x h) = List.length h.
Proof.
  revert i; induction h as [| y rest IH]; intros [| i]; cbn; auto.
Qed.

Lemma nth_error_heap_set_same i x h :
  (i < List.length h)%nat -> nth_error (heap_set i x h) i = Some x.
Proof.
  revert i; induction h as [| y rest IH]; intros [| i] Hi; cbn in *;
    try lia; [reflexivity | apply IH; lia].
Qed.

Lemma nth_error_heap_set_other i j x h :
  i <> j -> nth_error (heap_set i x h) j = nth_error h j.
Proof.
  revert i j; induction h as [| y rest IH]; intros [| i] [| j] Hij; cbn;
    try reflexivity; try congruence.
  apply IH; congruence.
Qed.

Lemma read_shared_config h copy b s default_mode copy_mode :
  shared_config_heap h copy b s default_mode copy_mode ->
  exists veto,
    read_config h DEFAULT_CONFIG_ref
      = Some {| batch := b; schedule := s; agent_has_veto := veto;
                mode := default_mode |} /\
    read_config h copy
      = Some {| batch := b; schedule := s; agent_has_veto := veto;
                mode := copy_mode |}.
Proof.
  intros (br & sr & veto & Hd & Hc & Hb & Hs & _).
  exists veto. unfold read_config. rewrite Hd, Hc, Hb, Hs. split; reflexivity.
Qed.

Lemma shared_update_batch f h copy b s default_mode copy_mode :
  shared_config_heap h copy b s default_mode copy_mode ->
  shared_config_heap (update_batch f copy h) copy (f b) s
    default_mode copy_mode.
Proof.
  intros (br & sr & veto & Hd & Hc & Hb & Hs & Hne).
  unfold update_batch. rewrite Hc, Hb.
  assert (Hlt : (br < List.length h)%nat)
    by (apply nth_error_Some; congruence).
  exists br, sr, veto.
  rewrite (nth_error_heap_set_same br _ h Hlt).
  rewrite !nth_error_heap_set_other by congruence.
  repeat split; assumption.
Qed.

Lemma shared_update_schedule f h copy b s default_mode copy_mode :
  shared_config_heap h copy b s default_mode copy_mode ->
  shared_config_heap (update_schedule f copy h) copy b (f s)
    default_mode copy_mode.
Proof.
  intros (br & sr & veto & Hd & Hc & Hb & Hs & Hne).
  unfold update_schedule. rewrite Hc, Hs.
  assert (Hlt : (sr < List.length h)%nat)
    by (apply nth_error_Some; congruence).
  exists br, sr, veto.
  rewrite (nth_error_heap_set_same sr _ h Hlt).
  rewrite !nth_error_heap_set_other by congruence.
  repeat split; assumption.
Qed.

Lemma shared_update_mode m h copy b s default_mode copy_mode :
  shared_config_heap h copy b s default_mode copy_mode ->
  shared_config_heap (update_mode m copy h) copy b s default_mode m.
Proof.
  intros (br & sr & veto & Hd & Hc & Hb & Hs & Hne).
  unfold update_mode. rewrite Hc.
  assert (Hlt : (copy < List.length h)%nat)
    by (apply nth_error_Some; congruence).
  exists br, sr, veto.
  rewrite (nth_error_heap_set_same copy _ h Hlt).
  rewrite !nth_error_heap_set_other by congruence.
  repeat split; assumption.
Qed.

Lemma shared_model_copy h cfg :
  read_config h DEFAULT_CONFIG_ref = Some cfg ->
  exists copy h',
    model_copy DEFAULT_CONFIG_ref h = (copy, h') /\
    shared_config_heap h' copy (batch cfg) (schedule cfg) (mode cfg)
      (mode cfg).
Proof.
  unfold read_config, model_copy. intros Hread.
  destruct (nth_error h DEFAULT_CONFIG_ref) as [[| | br sr veto m] |] eqn:Hd;
    try discriminate.
  destruct (nth_error h br) as [[b | |] |] eqn:Hb; try discriminate.
  destruct (nth_error h sr) as [[| s |] |] eqn:Hs; try discriminate.
  injection Hread as <-. cbn [batch schedule mode].
  assert (Hdl : (DEFAULT_CONFIG_ref < List.length h)%nat)
    by (apply nth_error_Some; congruence).
  assert (Hbl : (br < List.length h)%nat)
    by (apply nth_error_Some; congruence).
  assert (Hsl : (sr < List.length h)%nat)
    by (apply nth_error_Some; congruence).
  do 2 eexists. split; [reflexivity |].
  exists br, sr, veto.
  rewrite (nth_error_app1 h _ Hdl), (nth_error_app1 h _ Hbl),
    (nth_error_app1 h _ Hsl).
  rewrite nth_error_app2, Nat.sub_diag by lia.
  repeat split; try assumption; try reflexivity. lia.
Qed.

(** X14: the overrides of [load_config_from_env] reach [DEFAULT_CONFIG].
    When it returns, the configuration returned has the batch size, the
    interval, the mode and the time zone of the environment where these
    are set to a text that is not empty, and the values of
    [DEFAULT_CONFIG] elsewhere.  The copy is shallow: the batch and
    schedule settings of [DEFAULT_CONFIG] are the overridden ones from
    then on, and only its mode stays what it was. *)
Theorem X14_overrides_reach_default_config :
  forall int environ h cfg r h',
    read_config h DEFAULT_CONFIG_ref = Some cfg ->
    load_config_from_env int environ h = (Config r, h') ->
    exists loaded default,
      read_config h' r = Some loaded /\
      read_config h' DEFAULT_CONFIG_ref = Some default /\
      r <> DEFAULT_CONFIG_ref /\
      batch loaded = override_batch int environ (batch cfg) /\
      schedule loaded
        = override_timezone environ
            (override_interval int environ (schedule cfg)) /\
      mode loaded = override_mode environ (mode cfg) /\
      batch default = batch loaded /\
      schedule default = schedule loaded /\
      mode default = mode cfg.
Proof.
  intros int environ h cfg r h' Hread Hload.
  destruct (shared_model_copy h cfg Hread) as (copy & h1 & Hcopy & Hshare).
  unfold load_config_from_env in Hload. rewrite Hcopy in Hload.
  unfold override_batch, override_interval, override_timezone, override_mode.
  destruct (getenv_truthy environ "ANTIGRAVITY_BATCH_SIZE") as [tb |];
    [destruct (int tb) as [nb |]; [| discriminate Hload] |];
    (destruct (getenv_truthy environ "ANTIGRAVITY_INTERVAL_HOURS")
       as [ti |];
     [destruct (int ti) as [ni |]; [| discriminate Hload] |]);
    destruct (getenv_truthy environ "ANTIGRAVITY_MODE") as [m |];
    destruct (getenv_truthy environ "ANTIGRAVITY_TIMEZONE") as [tz |];
    injection Hload as <- <-;
    repeat match goal with
    | |- context [update_schedule ?f copy ?hh] =>
        lazymatch goal with
        | H : shared_config_heap (update_schedule f copy hh) _ _ _ _ _
          |- _ => fail
        | H : shared_config_heap hh _ _ _ _ _ |- _ =>
            pose proof (shared_update_schedule f _ _ _ _ _ _ H)
        end
    | |- context [update_batch ?f copy ?hh] =>
        lazymatch goal with
        | H : shared_config_heap (update_batch f copy hh) _ _ _ _ _
          |- _ => fail
        | H : shared_config_heap hh _ _ _ _ _ |- _ =>
            pose proof (shared_update_batch f _ _ _ _ _ _ H)
        end
    | |- context [update_mode ?m copy ?hh] =>
        lazymatch goal with
        | H : shared_config_heap (update_mode m copy hh) _ _ _ _ _
          |- _ => fail
        | H : shared_config_heap hh _ _ _ _ _ |- _ =>
            pose proof (shared_update_mode m _ _ _ _ _ _ H)
        end
    end;
    match goal with
    | H : shared_config_heap ?hh copy _ _ _ _
      |- context [read_config ?hh _] =>
        destruct (read_shared_config _ _ _ _ _ _ H) as (veto & Hd & Hc);
        destruct H as (_ & _ & _ & _ & _ & _ & _ & Hne)
    end;
    do 2 eexists; (split; [exact Hc |]); (split; [exact Hd |]);
    (split; [exact Hne |]); repeat split.
Qed.

Lemma X14_overrides_reach_default_config_witness :
  let environ := environ_of [("ANTIGRAVITY_BATCH_SIZE", "7");
                             ("ANTIGRAVITY_MODE", "once");
                             ("ANTIGRAVITY_TIMEZONE", "")] in
  exists r h' loaded default,
    load_config_from_env decimal_int environ initial_heap = (Config r, h') /\
    read_config h' r = Some loaded /\
    read_config h' DEFAULT_CONFIG_ref = Some default /\
    default_batch_size (batch loaded) = 7 /\
    default_batch_size (batch default) = 7 /\
    mode loaded = "once" /\
    mode default = "scheduled" /\
    timezone (schedule loaded) = "UTC".
Proof.
  intros environ.
  destruct (X14_overrides_reach_default_config decimal_int environ
              initial_heap DEFAULT_CONFIG
              (match fst (load_config_from_env decimal_int environ
                            initial_heap) with
               | Config r => r
               | ValueError _ => 0%nat
               end)
              (snd (load_config_from_env decimal_int environ initial_heap))
              eq_refl eq_refl)
    as (loaded & default & Hl & Hd & _ & Hb & Hs & Hm & Hdb & _ & Hdm).
  do 2 eexists. exists loaded, default.
  split; [reflexivity |]. split; [exact Hl |]. split; [exact Hd |].
  rewrite Hdb, Hb, Hs, Hm, Hdm. repeat split.
Defined.

(** X15: a [ValueError] in [load_config_from_env] comes after the
    overrides before it.  When the batch size of the environment is not a
    number, [DEFAULT_CONFIG] is as it was.  When the interval is not a
    number, the batch size override has already been written to the batch
    settings [DEFAULT_CONFIG] shares, although no configuration is
    returned. *)
Theorem X15_value_error_keeps_earlier_overrides :
  forall int environ h cfg text h',
    read_config h DEFAULT_CONFIG_ref = Some cfg ->
    load_config_from_env int environ h = (ValueError text, h') ->
    exists default,
      read_config h' DEFAULT_CONFIG_ref = Some default /\
      int text = None /\
      schedule default = schedule cfg /\
      mode default = mode cfg /\
      ((getenv_truthy environ "ANTIGRAVITY_BATCH_SIZE" = Some text /\
        batch default = batch cfg)
       \/
       (getenv_truthy environ "ANTIGRAVITY_INTERVAL_HOURS" = Some text /\
        batch default = override_batch int environ (batch cfg))).
Proof.
  intros int environ h cfg text h' Hread Hload.
  destruct (shared_model_copy h cfg Hread) as (copy & h1 & Hcopy & Hshare).
  unfold load_config_from_env in Hload. rewrite Hcopy in Hload.
  unfold override_batch.
  destruct (getenv_truthy environ "ANTIGRAVITY_BATCH_SIZE") as [tb |].
  - destruct (int tb) as [nb |] eqn:Hb.
    + pose proof (shared_update_batch (set_default_batch_size nb)
                    _ _ _ _ _ _ Hshare) as Hshare'.
      destruct (getenv_truthy environ "ANTIGRAVITY_INTERVAL_HOURS")
        as [ti |]; [| discriminate Hload].
      destruct (int ti) as [ni |] eqn:Hi; [discriminate Hload |].
      injection Hload as <- <-.
      destruct (read_shared_config _ _ _ _ _ _ Hshare') as (veto & Hd & _).
      eexists. split; [exact Hd |]. split; [exact Hi |].
      split; [reflexivity |]. split; [reflexivity |].
      right. split; reflexivity.
    + injection Hload as <- <-.
      destruct (read_shared_config _ _ _ _ _ _ Hshare) as (veto & Hd & _).
      eexists. split; [exact Hd |]. split; [exact Hb |].
      split; [reflexivity |]. split; [reflexivity |].
      left. split; reflexivity.
  - destruct (getenv_truthy environ "ANTIGRAVITY_INTERVAL_HOURS")
      as [ti |]; [| discriminate Hload].
    destruct (int ti) as [ni |] eqn:Hi; [discriminate Hload |].
    injection Hload as <- <-.
    destruct (read_shared_config _ _ _ _ _ _ Hshare) as (veto & Hd & _).
    eexists. split; [exact Hd |]. split; [exact Hi |].
    split; [reflexivity |]. split; [reflexivity |].
    right. split; reflexivity.
Qed.

Lemma X15_value_error_keeps_earlier_overrides_witness :
  let environ := environ_of [("ANTIGRAVITY_BATCH_SIZE", "7");
                             ("ANTIGRAVITY_INTERVAL_HOURS", "six")] in
  exists h' default,
    load_config_from_env decimal_int environ initial_heap
      = (ValueError "six", h') /\
    read_config h' DEFAULT_CONFIG_ref = Some default /\
    default_batch_size (batch default) = 7.
Proof.
  intros environ.
  destruct (X15_value_error_keeps_earlier_overrides decimal_int environ
              initial_heap DEFAULT_CONFIG "six"
              (snd (load_config_from_env decimal_int environ initial_heap))
              eq_refl eq_refl)
    as (default & Hd & _ & _ & _ & [[Hb _] | [_ Hb]]).
  - vm_compute in Hb. discriminate Hb.
  - eexists. exists default. split; [reflexivity |]. split; [exact Hd |].
    rewrite Hb. reflexivity.
Defined.

(* ------------------------------------------------------------------ *)
(** ** Further properties: the health check *)

(** X16: of the log lines, the health check looks at the number of
    CRITICAL lines among the last 100 and at nothing else: two logs that
    agree on that number get the same verdict, whatever their older lines
    and however many ERROR lines they hold. *)
Theorem X16_health_depends_on_recent_criticals :
  forall o lines lines',
    count_lines "CRITICAL" (last_n 100 lines')
      = count_lines "CRITICAL" (last_n 100 lines) ->
    check_health (with_lines lines' o) = check_health (with_lines lines o) /\
    healthcheck_main (with_lines lines' o)
      = healthcheck_main (with_lines lines o).
Proof.
  intros o lines lines' Hsame.
  assert (H : check_health (with_lines lines' o)
              = check_health (with_lines lines o)).
  { unfold check_health, check_health_message.
    cbn [with_lines log_exists log_mtime local_now log_lines os_environ].
    destruct (log_exists o); [| reflexivity]. cbn [negb].
    destruct (log_mtime o) as [mtime |]; [| reflexivity].
    destruct (td_hours 1 <? local_now o - mtime); [reflexivity |].
    rewrite Hsame.
    destruct (5 <? count_lines "CRITICAL" (last_n 100 lines));
      [reflexivity |].
    destruct (filter _ ["ANTHROPIC_API_KEY"]); reflexivity. }
  split; [exact H |]. unfold healthcheck_main. rewrite H. reflexivity.
Qed.

Lemma X16_health_depends_on_recent_criticals_witness :
  check_health
    (with_lines (repeat "CRITICAL first" 50 ++ repeat "ERROR later" 100)
       (recent_log []))
  = check_health (with_lines [] (recent_log [])) /\
  healthcheck_main
    (with_lines (repeat "CRITICAL first" 50 ++ repeat "ERROR later" 100)
       (recent_log []))
  = healthcheck_main (with_lines [] (recent_log [])).
Proof.
  apply X16_health_depends_on_recent_criticals.
  vm_compute; reflexivity.
Defined.

Lemma count_lines_app word l1 l2 :
  count_lines word (l1 ++ l2) = count_lines word l1 + count_lines word l2.
Proof.
  unfold count_lines, sum_of. rewrite filter_app, map_app, fold_right_app.
  induction (map (fun _ => 1) (filter (contains word) l1))
    as [| a l IH]; cbn [fold_right]; lia.
Qed.

Lemma count_lines_nonneg word l : 0 <= count_lines word l.
Proof.
  unfold count_lines, sum_of.
  induction (filter (contains word) l) as [| a r IH];
    cbn [map fold_right]; lia.
Qed.

Lemma last_n_S_split (A : Type) (n : nat) (l : list A) :
  exists older, last_n (S n) l = older ++ last_n n l.
Proof.
  unfold last_n.
  exists (firstn (List.length l - n - (List.length l - S n))
            (skipn (List.length l - S n) l)).
  rewrite <- (firstn_skipn (List.length l - n - (List.length l - S n))
                (skipn (List.length l - S n) l)) at 1.
  f_equal. rewrite skipn_skipn. f_equal. lia.
Qed.

(** X17: more logging without CRITICAL never fails the check: when a log
    is healthy, the same log with one more line at its end that does not
    contain CRITICAL (an ERROR line, say) is healthy too. *)
Theorem X17_health_survives_non_critical_lines :
  forall o lines line,
    contains "CRITICAL" line = false ->
    check_health (with_lines lines o) = true ->
    check_health (with_lines (lines ++ [line]) o) = true.
Proof.
  intros o lines line Hline.
  unfold check_health, check_health_message.
  cbn [with_lines log_exists log_mtime local_now log_lines os_environ].
  destruct (log_exists o); [| discriminate]. cbn [negb].
  destruct (log_mtime o) as [mtime |]; [| discriminate].
  destruct (td_hours 1 <? local_now o - mtime); [discriminate |].
  destruct (Z.ltb_spec 5 (count_lines "CRITICAL" (last_n 100 lines)))
    as [| Hfew]; [discriminate |].
  rewrite (last_n_snoc string 99), count_lines_app.
  destruct (last_n_S_split string 99 lines) as (older & Hsplit).
  rewrite Hsplit, count_lines_app in Hfew.
  pose proof (count_lines_nonneg "CRITICAL" older).
  assert (Hone : count_lines "CRITICAL" [line] = 0).
  { unfold count_lines. cbn [filter]. rewrite Hline. reflexivity. }
  rewrite Hone.
  destruct (Z.ltb_spec 5 (count_lines "CRITICAL" (last_n 99 lines) + 0));
    [lia |].
  destruct (filter _ ["ANTHROPIC_API_KEY"]); [reflexivity | discriminate].
Qed.

Lemma X17_health_survives_non_critical_lines_witness :
  check_health
    (with_lines (repeat "boot CRITICAL disk" 5 ++ ["ERROR: timeout"])
       (recent_log []))
  = true.
Proof.
  apply X17_health_survives_non_critical_lines; vm_compute; reflexivity.
Defined.

(* ------------------------------------------------------------------ *)
(** ** Further properties: a cycle that runs to its end *)

(** X18: a forced count between 1 and [max_videos] is run in full.  When
    the gate lets the cycle pass and every generation call returns, the
    cycle returns a COMPLETED result with exactly the forced number of
    items, all successes, none failed and none skipped, and an empty
    rationale. *)
Theorem X18_forced_batch_runs_in_full :
  forall config memory env w platforms niche n wg,
    run env (_should_execute config) (entered env w) = (Ok true, wg) ->
    0 < n <= max_videos (batch config) ->
    (forall i, generation env i = None) ->
    exists r w',
      run env
        (BatchCoordinator_execute_batch config memory platforms niche
           (Some n)) w
        = (Ok r, w') /\
      status r = COMPLETED /\
      requested_count r = n /\
      successful_count r = n /\
      failed_count r = 0 /\
      skipped_count r = 0 /\
      len (videos r) = n /\
      Forall (fun v => vstatus v = "success") (videos r) /\
      agent_decision r = [].
Proof.
  intros config memory env w platforms niche n wg Hgate Hn Hall.
  unfold BatchCoordinator_execute_batch. rewrite run_execute_batch.
  set (bid := batch_id_of (clock env (ticks w))).
  set (start := clock env (S (ticks w))).
  destruct (run_execute_batch_body config memory
              (_ask_agent_for_batch_size config) _store_batch_result env
              bid start platforms niche (Some n) (entered env w) true wg
              Hgate) as [_ Hpass].
  assert (Hsize :
    run env
      (_determine_batch_size config (_ask_agent_for_batch_size config)
         (Some n) platforms niche) wg = (Ok n, wg)).
  { rewrite forced_count_is_min. rewrite Z.min_l by lia. reflexivity. }
  destruct (Hpass eq_refl n wg Hsize) as [_ Hsome].
  destruct Hsome as (results & wv & r & Hvid & Hcomp & Hbody); [lia |].
  rewrite Hbody.
  destruct (all_items_succeed config env n platforms niche bid start _
              results wv r Hall (proj1 Hn) Hvid Hcomp) as [Hsucc Hstat].
  destruct (run_compile_batch_result env bid n results start wv)
    as (r' & Hcomp' & _ & Hreq & _ & Hfailed & Hskip & Hvids & Hrat & _).
  rewrite Hcomp in Hcomp'; injection Hcomp' as <-.
  destruct (run_execute_videos config env n platforms niche
              (with_log (LogBatchSize n) wg))
    as (results' & wv' & new' & Hvid' & _ & _ & _ & Hvs & _).
  rewrite Hvid in Hvid'; injection Hvid' as <- <-.
  destruct (attempted_all_return env (retry_on_failure (batch config))
              (seq 0 (Z.to_nat n)) Hall) as [Ha Hs].
  rewrite Ha, Hs, length_seq in Hvs.
  assert (Hlen : len results = n).
  { rewrite len_map_vstatus, Hvs. unfold len. rewrite repeat_length. lia. }
  assert (Hnone : count_status "failed" results = 0).
  { rewrite count_status_count_in, Hvs. apply count_in_no_failure. }
  assert (Hevery : Forall (fun v => vstatus v = "success") results).
  { apply Forall_forall. intros v Hv.
    apply (in_map vstatus) in Hv. rewrite Hvs in Hv.
    apply repeat_spec in Hv. exact Hv. }
  destruct memory;
    (do 2 eexists; split; [reflexivity |];
     rewrite Hvids, Hfailed, Hskip, Hnone, Hlen;
     repeat split; try assumption; lia).
Qed.

Lemma X18_forced_batch_runs_in_full_witness :
  exists r w',
    run (noon_clock 1)
      (BatchCoordinator_execute_batch DEFAULT_CONFIG false None None
         (Some 4)) fresh_world
      = (Ok r, w') /\
    status r = COMPLETED /\
    requested_count r = 4 /\
    successful_count r = 4 /\
    failed_count r = 0 /\
    skipped_count r = 0 /\
    len (videos r) = 4 /\
    Forall (fun v => vstatus v = "success") (videos r) /\
    agent_decision r = [].
Proof.
  refine (X18_forced_batch_runs_in_full DEFAULT_CONFIG false (noon_clock 1)
            fresh_world None None 4
            (snd (run (noon_clock 1) (_should_execute DEFAULT_CONFIG)
                    (entered (noon_clock 1) fresh_world))) _ _ _);
    [vm_compute; reflexivity | cbn; lia | reflexivity].
Defined.
